(** * A shallow embedding of the c-store analytics dashboard (streamlit1.py)

    The dashboard is a Streamlit script over Polars tables.  The parts
    embedded here are the sidebar filters, the unified year/month filter
    ([get_unified_data]), the report aggregations (top-5 products and
    their weekly series, beverage brands, payment types and the top
    products of each) and the census enrichment pipeline (geocoding loop,
    tract ACS loop, cache handling, store-identifier casts, the store
    performance join).

    Conventions.
    - A table is the list of its rows, a row a record with one field per
      column the script reads; a nullable cell is an [option].
    - Amount columns are Float64 (IEEE binary64, Rocq's primitive floats),
      count columns are Int64 (a [Z], wrap-around written out in sums),
      text columns are strings.  The parquet schemas are not part of the
      script, so these dtypes are the model's reading of the column names.
    - A Polars expression evaluates to a nullable value; a [filter] keeps
      the rows where the predicate is [Some true].
    - [pl.DataFrame] over a list of dictionaries infers each column's
      dtype from the first 100 rows; where a stage builds its table that
      way, the construction can raise and is modelled as such.
    - Polars leaves the row order of [group_by], [unique] and of ties in
      [sort] unspecified unless [maintain_order=True] is passed, which the
      script never does.  Where a statement depends on order, the
      operation is a relation over all the outputs Polars may return, and
      a function named [..._run] computes one of them. *)

From Stdlib Require Import ZArith List String Ascii Bool Lia Permutation.
From Stdlib Require Import PrimFloat FloatOps SpecFloat FloatAxioms Uint63.
From Stdlib Require Import Decimal DecimalString DecimalZ.
From Stdlib Require OrderedTypeEx.
From stdpp Require Import gmap strings.
Import ListNotations.

#[local] Open Scope Z_scope.

(** ** Polars expressions over nullable cells *)

Module Polars.

(** A value of a column whose dtype the script does not fix (STORE_ID is
    cast before use, see [Census.canonical_store_id]). *)
Inductive column_value : Type :=
| I64 (z : Z)
| F64 (f : float)
| Utf8 (s : string).

(** Kleene conjunction and disjunction of nullable booleans ([&], [|]). *)
Definition and3 (a b : option bool) : option bool :=
  match a, b with
  | Some false, _ | _, Some false => Some false
  | Some true, Some true => Some true
  | _, _ => None
  end.

Definition or3 (a b : option bool) : option bool :=
  match a, b with
  | Some true, _ | _, Some true => Some true
  | Some false, Some false => Some false
  | _, _ => None
  end.

(** [pl.col(c) == v] for a non-null literal [v]. *)
Definition eq_lit {A : Type} (eqb : A -> A -> bool) (c : option A) (v : A)
  : option bool :=
  option_map (fun x => eqb x v) c.

(** [pl.col(c) != v]. *)
Definition ne_lit {A : Type} (eqb : A -> A -> bool) (c : option A) (v : A)
  : option bool :=
  option_map (fun x => negb (eqb x v)) c.

(** [pl.col(c).is_in(values)] for a Python list of non-null values. *)
Definition is_in {A : Type} (eqb : A -> A -> bool) (c : option A)
  (values : list A) : option bool :=
  option_map (fun x => existsb (eqb x) values) c.

(** [pl.col(c).is_not_null()] is never null itself. *)
Definition is_not_null {A : Type} (c : option A) : option bool :=
  Some (match c with Some _ => true | None => false end).

Definition holds (b : option bool) : bool :=
  match b with Some true => true | _ => false end.

(** [df.filter(pred)]: rows where the predicate is true; false and null
    are both dropped, row order is kept. *)
Definition pl_filter {R : Type} (pred : R -> option bool) (df : list R)
  : list R :=
  List.filter (fun r => holds (pred r)) df.

(** Equality of nullable keys as [unique], [n_unique] and [group_by] see
    it: null is one more value. *)
Definition key_eqb {A : Type} (eqb : A -> A -> bool) (a b : option A) : bool :=
  match a, b with
  | Some x, Some y => eqb x y
  | None, None => true
  | _, _ => false
  end.

(** Equality of nullable keys as a join sees it: null matches nothing. *)
Definition join_eqb {A : Type} (eqb : A -> A -> bool) (a b : option A) : bool :=
  match a, b with
  | Some x, Some y => eqb x y
  | _, _ => false
  end.

(** [unique()], first occurrences in input order (one of the orders
    Polars may return). *)
Fixpoint unique {K : Type} (eqb : K -> K -> bool) (l : list K) : list K :=
  match l with
  | [] => []
  | k :: rest =>
      k :: List.filter (fun k' => negb (eqb k k')) (unique eqb rest)
  end.

(** [n_unique()]. *)
Definition n_unique {K : Type} (eqb : K -> K -> bool) (l : list K) : Z :=
  Z.of_nat (length (unique eqb l)).

(** [left.join(right, on=key, how="inner")]: every pair of a left and a
    right row with matching non-null keys. *)
Definition join_inner {L R K : Type} (eqb : K -> K -> bool)
  (lkey : L -> option K) (rkey : R -> option K)
  (left : list L) (right : list R) : list (L * R) :=
  flat_map
    (fun l => map (fun r => (l, r))
                (List.filter (fun r => join_eqb eqb (lkey l) (rkey r)) right))
    left.

(** [left.join(right, on=key, how="left")]: as the inner join, and a left
    row without a match is kept once with nulls on the right. *)
Definition join_left {L R K : Type} (eqb : K -> K -> bool)
  (lkey : L -> option K) (rkey : R -> option K)
  (left : list L) (right : list R) : list (L * option R) :=
  flat_map
    (fun l =>
       match List.filter (fun r => join_eqb eqb (lkey l) (rkey r)) right with
       | [] => [(l, None)]
       | matches => map (fun r => (l, Some r)) matches
       end)
    left.

(** [group_by(key)]: the distinct keys with the rows of each, rows in
    input order, groups in order of first occurrence. *)
Definition group_by {R K : Type} (eqb : K -> K -> bool) (key : R -> K)
  (df : list R) : list (K * list R) :=
  map (fun k => (k, List.filter (fun r => eqb k (key r)) df))
    (unique eqb (map key df)).

(** Signed 64-bit wrap-around. *)
Definition wrap64 (z : Z) : Z :=
  (z + 2 ^ 63) mod 2 ^ 64 - 2 ^ 63.

(** [sum] of an Int64 column: nulls are skipped, an empty sum is 0. *)
Definition sum_i64 (cells : list (option Z)) : Z :=
  fold_left
    (fun acc c => match c with Some z => wrap64 (acc + z) | None => acc end)
    cells 0.

(** [sum] of a Float64 column, accumulated left to right. *)
Definition sum_f64 (cells : list (option float)) : float :=
  fold_left
    (fun acc c => match c with Some f => (acc + f)%float | None => acc end)
    cells 0%float.

(** Int64 to Float64, as true division casts its integer operands. *)
Definition f64_of_i64 (z : Z) : float :=
  match z with
  | Z0 => 0%float
  | Zpos p => of_uint63 (Uint63.of_Z (Zpos p))
  | Zneg p =>
      if Zpos p <? 2 ^ 63
      then (- of_uint63 (Uint63.of_Z (Zpos p)))%float
      else (-9223372036854775808)%float
  end.

(** A value the display can show as a number: not NaN, not infinite. *)
Definition is_finite (x : float) : bool :=
  match Prim2SF x with
  | S754_zero _ | S754_finite _ _ _ => true
  | S754_infinity _ | S754_nan => false
  end.

(** The order [sort] uses on Float64: NaN is larger than every number. *)
Definition f64_lt (a b : float) : bool :=
  if is_nan b then negb (is_nan a) else PrimFloat.ltb a b.

(** The outputs [sort] may return for a key with strict order [lt]: a
    permutation of the input in which no row comes before a row that must
    precede it.  [lt a b] reads: [a] must come before [b]. *)
Inductive sorted_by {R : Type} (lt : R -> R -> bool) : list R -> Prop :=
| sorted_nil : sorted_by lt []
| sorted_cons r rest :
    Forall (fun r' => lt r' r = false) rest ->
    sorted_by lt rest ->
    sorted_by lt (r :: rest).

Definition sort_result {R : Type} (lt : R -> R -> bool) (df out : list R)
  : Prop :=
  Permutation out df /\ sorted_by lt out.

(** A stable insertion sort, the output of [sort(..., maintain_order=True)]:
    a row is inserted in front of the first row that need not precede it. *)
Fixpoint insert_sorted {R : Type} (lt : R -> R -> bool) (r : R) (l : list R)
  : list R :=
  match l with
  | [] => [r]
  | x :: rest => if lt x r then x :: insert_sorted lt r rest else r :: l
  end.

Definition sort_stable {R : Type} (lt : R -> R -> bool) (df : list R)
  : list R :=
  fold_right (insert_sorted lt) [] df.

(** [limit(n)] / [head(n)]. *)
Definition limit {R : Type} (n : nat) (df : list R) : list R := firstn n df.

(** *** Facts about the Polars operations *)

Lemma holds_true (b : option bool) : holds b = true <-> b = Some true.
Proof. destruct b as [[|]|]; simpl; split; congruence. Qed.

Lemma pl_filter_In {R : Type} (pred : R -> option bool) (df : list R) (r : R) :
  In r (pl_filter pred df) <-> In r df /\ pred r = Some true.
Proof. unfold pl_filter. rewrite filter_In, holds_true. reflexivity. Qed.

Lemma key_eqb_spec {A : Type} (eqb : A -> A -> bool) :
  (forall x y, eqb x y = true <-> x = y) ->
  forall a b, key_eqb eqb a b = true <-> a = b.
Proof.
  intros Heq [x|] [y|]; simpl; try (split; congruence).
  rewrite Heq. split; congruence.
Qed.

Lemma join_eqb_spec {A : Type} (eqb : A -> A -> bool) :
  (forall x y, eqb x y = true <-> x = y) ->
  forall a b, join_eqb eqb a b = true <-> a = b /\ a <> None.
Proof.
  intros Heq [x|] [y|]; simpl; try (split; [congruence | intros [? ?]; congruence]).
  rewrite Heq. split; [intros ->; split; congruence | intros [? _]; congruence].
Qed.

Lemma limit_In {R : Type} (n : nat) (df : list R) (r : R) :
  In r (limit n df) -> In r df.
Proof.
  unfold limit. intros H. rewrite <- (firstn_skipn n df).
  apply in_or_app. now left.
Qed.

Section UniqueFacts.
Context {K : Type} (eqb : K -> K -> bool).

Lemma unique_incl (l : list K) (k : K) : In k (unique eqb l) -> In k l.
Proof.
  induction l as [|x rest IH]; simpl; [tauto|].
  intros [->|Hin]; [now left|].
  apply filter_In in Hin. right. apply IH, Hin.
Qed.

Hypothesis eqb_eq : forall x y, eqb x y = true <-> x = y.

Lemma unique_In (l : list K) (k : K) : In k (unique eqb l) <-> In k l.
Proof using eqb_eq.
  split; [apply unique_incl|].
  induction l as [|x rest IH]; simpl; [tauto|].
  intros [->|Hin]; [now left|].
  destruct (eqb x k) eqn:E.
  - left. now apply eqb_eq.
  - right. apply filter_In. split; [auto|]. now rewrite E.
Qed.

Lemma unique_NoDup (l : list K) : List.NoDup (unique eqb l).
Proof using eqb_eq.
  induction l as [|x rest IH]; simpl; constructor.
  - intros Hin. apply filter_In in Hin. destruct Hin as [_ Hne].
    assert (eqb x x = true) as E by now apply eqb_eq.
    rewrite E in Hne. discriminate.
  - now apply List.NoDup_filter.
Qed.

End UniqueFacts.

Section GroupByFacts.
Context {R K : Type} (eqb : K -> K -> bool) (key : R -> K).
Hypothesis eqb_eq : forall x y, eqb x y = true <-> x = y.

(** A group holds exactly the rows of its key, and at least one. *)
Lemma group_by_rows (df : list R) (k : K) (rows : list R) :
  In (k, rows) (group_by eqb key df) ->
  rows = List.filter (fun r => eqb k (key r)) df /\ rows <> [].
Proof using eqb_eq.
  unfold group_by. rewrite in_map_iff. intros (k' & [= <- <-] & Hin).
  split; [reflexivity|].
  apply unique_incl, in_map_iff in Hin. destruct Hin as (r & <- & Hr).
  intros Hnil.
  assert (In r (List.filter (fun r' => eqb (key r) (key r')) df)) as Hmem.
  { apply filter_In. split; [exact Hr|]. now apply eqb_eq. }
  rewrite Hnil in Hmem. exact Hmem.
Qed.

Lemma group_by_keys_NoDup (df : list R) :
  List.NoDup (map fst (group_by eqb key df)).
Proof using eqb_eq.
  unfold group_by. rewrite map_map. simpl. rewrite map_id.
  now apply unique_NoDup.
Qed.

End GroupByFacts.

(** True division by a zero divisor never gives a finite value: it is
    NaN for a zero or NaN dividend and an infinity otherwise. *)
Lemma div_zero_not_finite (x : float) : is_finite (x / 0)%float = false.
Proof.
  unfold is_finite. rewrite FloatAxioms.div_spec.
  change (Prim2SF 0) with (S754_zero false).
  destruct (Prim2SF x) as [sx|sx| |sx mx ex]; reflexivity.
Qed.

(** The IEEE value of a true division by the zero an Int64 0 casts to:
    NaN for a zero or NaN dividend, otherwise the infinity of the
    dividend's sign. *)
Definition zero_or_nan (x : float) : bool :=
  match Prim2SF x with
  | S754_zero _ | S754_nan => true
  | S754_infinity _ | S754_finite _ _ _ => false
  end.

Definition sign_bit (x : float) : bool :=
  match Prim2SF x with
  | S754_zero s | S754_infinity s | S754_finite s _ _ => s
  | S754_nan => false
  end.

Lemma div_zero_value (x : float) :
  (x / 0)%float
  = if zero_or_nan x then nan
    else if sign_bit x then neg_infinity else infinity.
Proof.
  rewrite <- (SF2Prim_Prim2SF (x / 0)%float), FloatAxioms.div_spec.
  unfold zero_or_nan, sign_bit.
  change (Prim2SF 0) with (S754_zero false).
  destruct (Prim2SF x) as [sx|sx| |sx mx ex]; try reflexivity;
    destruct sx; reflexivity.
Qed.

Lemma f64_of_i64_zero : f64_of_i64 0 = 0%float.
Proof. reflexivity. Qed.

Example f64_of_i64_min :
  f64_of_i64 (- 2 ^ 63) = (-9223372036854775808)%float /\
  f64_of_i64 (2 ^ 63 - 1) = 9223372036854775808%float /\
  f64_of_i64 (-3) = (-3)%float.
Proof. repeat split; vm_compute; reflexivity. Qed.

(** *** The sort order on Float64 *)

(** A rank of the IEEE values that the order of [sort] follows. *)
Definition sf_rank (x : spec_float) : Z * Z * Z :=
  match x with
  | S754_infinity true => (-2, 0, 0)
  | S754_finite true m e => (-1, - e, - Zpos m)
  | S754_zero _ => (0, 0, 0)
  | S754_finite false m e => (1, e, Zpos m)
  | S754_infinity false => (2, 0, 0)
  | S754_nan => (3, 0, 0)
  end.

Definition lex_lt (a b : Z * Z * Z) : Prop :=
  let '(a1, a2, a3) := a in
  let '(b1, b2, b3) := b in
  a1 < b1 \/ (a1 = b1 /\ (a2 < b2 \/ (a2 = b2 /\ a3 < b3))).

Lemma f64_lt_rank (a b : float) :
  f64_lt a b = true <-> lex_lt (sf_rank (Prim2SF a)) (sf_rank (Prim2SF b)).
Proof.
  unfold f64_lt, is_nan.
  rewrite !FloatAxioms.eqb_spec, FloatAxioms.ltb_spec.
  unfold SFeqb, SFltb.
  destruct (Prim2SF a) as [sa|sa| |sa ma ea], (Prim2SF b) as [sb|sb| |sb mb eb];
    try destruct sa; try destruct sb; cbn -[Z.compare Pos.compare_cont Z.lt];
    try (split; [intros; try discriminate; lia | intros; try reflexivity; lia]).
  all: rewrite ?Z.compare_refl, ?Pos.compare_cont_refl;
    cbn -[Z.compare Pos.compare_cont Z.lt].
  all: try (split; [intros; try discriminate; lia | intros; try reflexivity; lia]).
  all: rewrite Pos.compare_cont_spec; cbn [Pos.switch_Eq].
  all: destruct (Z.compare_spec ea eb); destruct (Pos.compare_spec ma mb); cbn;
    split; intros; try discriminate; try reflexivity; try lia.
Qed.

Lemma f64_lt_asym (a b : float) : f64_lt a b = true -> f64_lt b a = false.
Proof.
  intros H. destruct (f64_lt b a) eqn:E; [exfalso|reflexivity].
  apply f64_lt_rank in H, E. unfold lex_lt in *.
  destruct (sf_rank (Prim2SF a)) as [[? ?] ?], (sf_rank (Prim2SF b)) as [[? ?] ?].
  lia.
Qed.

Lemma f64_lt_negtrans (a b c : float) :
  f64_lt a c = true -> f64_lt a b = true \/ f64_lt b c = true.
Proof.
  intros H. rewrite !f64_lt_rank in *. unfold lex_lt in *.
  destruct (sf_rank (Prim2SF a)) as [[? ?] ?], (sf_rank (Prim2SF b)) as [[? ?] ?],
    (sf_rank (Prim2SF c)) as [[? ?] ?].
  lia.
Qed.

Section SortFacts.
Context {R : Type} (lt : R -> R -> bool).

Lemma insert_sorted_perm (r : R) (l : list R) :
  Permutation (insert_sorted lt r l) (r :: l).
Proof.
  induction l as [|x rest IH]; simpl; [reflexivity|].
  destruct (lt x r); [|reflexivity].
  rewrite IH. apply perm_swap.
Qed.

Lemma sort_stable_perm (l : list R) : Permutation (sort_stable lt l) l.
Proof.
  induction l as [|x rest IH]; simpl; [reflexivity|].
  rewrite insert_sorted_perm. now constructor.
Qed.

Hypothesis lt_asym : forall a b, lt a b = true -> lt b a = false.
Hypothesis lt_negtrans :
  forall a b c, lt a c = true -> lt a b = true \/ lt b c = true.

Lemma insert_sorted_sorted (r : R) (l : list R) :
  sorted_by lt l -> sorted_by lt (insert_sorted lt r l).
Proof using lt_asym lt_negtrans.
  induction 1 as [|x rest Hx Hs IH]; simpl.
  - repeat constructor.
  - destruct (lt x r) eqn:E.
    + constructor; [|exact IH].
      eapply Permutation_Forall; [symmetry; apply insert_sorted_perm|].
      constructor; [now apply lt_asym | exact Hx].
    + constructor; [|now constructor].
      constructor; [exact E|].
      rewrite List.Forall_forall in Hx |- *. intros y Hy.
      destruct (lt y r) eqn:Ey; [|reflexivity].
      destruct (lt_negtrans y x r Ey) as [H|H]; [|congruence].
      rewrite (Hx y Hy) in H. discriminate.
Qed.

(** The stable sort is one of the outputs [sort] may return. *)
Lemma sort_stable_result (l : list R) : sort_result lt l (sort_stable lt l).
Proof using lt_asym lt_negtrans.
  split; [apply sort_stable_perm|].
  induction l as [|x rest IH]; simpl; [constructor|].
  now apply insert_sorted_sorted.
Qed.

End SortFacts.

(** Without ties, [sort] has one output: two sorted permutations of a
    duplicate-free table whose rows are pairwise strictly ordered agree. *)
Lemma sort_result_unique {R : Type} (lt : R -> R -> bool) (df o1 o2 : list R) :
  List.NoDup df ->
  (forall a b, In a df -> In b df -> a <> b -> lt a b = true \/ lt b a = true) ->
  sort_result lt df o1 -> sort_result lt df o2 -> o1 = o2.
Proof.
  intros Hnd Htot [Hp1 Hs1] [Hp2 Hs2].
  assert (Permutation o1 o2) as Hp by (rewrite Hp1; now symmetry).
  assert (List.NoDup o1) as Hnd1 by (eapply Permutation_NoDup; [symmetry; exact Hp1|exact Hnd]).
  assert (forall a b, In a o1 -> In b o1 -> a <> b -> lt a b = true \/ lt b a = true) as Htot1.
  { intros a b Ha Hb. apply Htot; (eapply Permutation_in; [exact Hp1|assumption]). }
  clear Hp1 Hp2 Hnd Htot df.
  revert o2 Hp Hs2.
  induction Hs1 as [|x rest Hx Hs IH]; intros o2 Hp Hs2.
  - now apply Permutation_nil in Hp.
  - destruct o2 as [|y rest2].
    { symmetry in Hp. now apply Permutation_nil in Hp. }
    assert (x = y) as ->.
    { assert (In y (x :: rest)) as Hy
        by (eapply Permutation_in; [symmetry; exact Hp|now left]).
      destruct Hy as [Hy|Hy]; [exact Hy|exfalso].
      assert (In x (y :: rest2)) as Hx2
        by (eapply Permutation_in; [exact Hp|now left]).
      destruct Hx2 as [Hx2|Hx2].
      { inversion Hnd1; subst. contradiction. }
      assert (x <> y) as E by (inversion Hnd1; subst; congruence).
      inversion Hs2 as [|? ? Hy2 _]; subst.
      rewrite List.Forall_forall in Hx, Hy2.
      destruct (Htot1 x y) as [H|H]; [now left|now right|exact E| |].
      - rewrite (Hy2 x Hx2) in H. discriminate.
      - rewrite (Hx y Hy) in H. discriminate. }
    f_equal. apply IH.
    + now inversion Hnd1.
    + intros a b Ha Hb. apply Htot1; now right.
    + eapply Permutation_cons_inv; exact Hp.
    + now inversion Hs2.
Qed.

Lemma sorted_by_limit {R : Type} (lt : R -> R -> bool) (n : nat) (l : list R) :
  sorted_by lt l -> sorted_by lt (limit n l).
Proof.
  unfold limit. intros Hs. revert n.
  induction Hs as [|x rest Hx Hs IH]; intros [|n]; simpl; try constructor.
  - rewrite List.Forall_forall in Hx |- *. intros y Hy. apply Hx.
    now apply (limit_In n).
  - apply IH.
Qed.

Lemma limit_NoDup {R : Type} (n : nat) (l : list R) :
  List.NoDup l -> List.NoDup (limit n l).
Proof.
  unfold limit. intros Hnd. revert n.
  induction Hnd as [|x rest Hx Hnd IH]; intros [|n]; simpl; try constructor.
  - intros Hin. apply Hx. now apply (limit_In n).
  - apply IH.
Qed.

(** *** Three-valued tests and joins *)

Lemma and3_true (a b : option bool) :
  and3 a b = Some true <-> a = Some true /\ b = Some true.
Proof.
  destruct a as [[|]|], b as [[|]|]; simpl; split;
    try discriminate; try tauto; intros [? ?]; discriminate.
Qed.

Lemma or3_true (a b : option bool) :
  or3 a b = Some true <-> a = Some true \/ b = Some true.
Proof.
  destruct a as [[|]|], b as [[|]|]; simpl; split;
    try discriminate; try tauto; intros [?|?]; discriminate.
Qed.

Lemma is_not_null_true {A : Type} (c : option A) :
  is_not_null c = Some true <-> exists v, c = Some v.
Proof.
  destruct c as [v|]; simpl; split;
    [eauto|reflexivity|discriminate|intros (? & ?); discriminate].
Qed.

(** Two nullable keys a join matches: both hold the same value. *)
Definition same_key {K : Type} (a b : option K) : Prop :=
  exists k, a = Some k /\ b = Some k.

Lemma join_eqb_same_key {K : Type} (eqb : K -> K -> bool) :
  (forall x y, eqb x y = true <-> x = y) ->
  forall a b, join_eqb eqb a b = true <-> same_key a b.
Proof.
  intros Heq [x|] [y|]; unfold same_key; simpl.
  - rewrite Heq. split; [intros ->; eauto|intros (k & [= ->] & [= ->]); auto].
  - split; [discriminate|intros (k & _ & H); discriminate].
  - split; [discriminate|intros (k & H & _); discriminate].
  - split; [discriminate|intros (k & H & _); discriminate].
Qed.

Lemma join_inner_In {L R K : Type} (eqb : K -> K -> bool)
  (lkey : L -> option K) (rkey : R -> option K)
  (left : list L) (right : list R) (l : L) (r : R) :
  In (l, r) (join_inner eqb lkey rkey left right) <->
  In l left /\ In r right /\ join_eqb eqb (lkey l) (rkey r) = true.
Proof.
  unfold join_inner. rewrite in_flat_map. split.
  - intros (l' & Hl & Hin). apply in_map_iff in Hin.
    destruct Hin as (r' & [= <- <-] & Hr). apply filter_In in Hr. tauto.
  - intros (Hl & Hr & Hm). exists l. split; [exact Hl|].
    apply in_map_iff. exists r. split; [reflexivity|].
    apply filter_In. tauto.
Qed.

Lemma filter_nil_iff {A : Type} (f : A -> bool) (l : list A) :
  List.filter f l = [] <-> forall a, In a l -> f a = false.
Proof.
  induction l as [|x rest IH]; simpl; [tauto|].
  destruct (f x) eqn:E.
  - split; [discriminate|]. intros H. specialize (H x (or_introl eq_refl)).
    congruence.
  - rewrite IH. split.
    + intros H a [<-|Ha]; auto.
    + intros H a Ha. apply H. now right.
Qed.

Lemma join_left_In {L R K : Type} (eqb : K -> K -> bool)
  (lkey : L -> option K) (rkey : R -> option K)
  (left : list L) (right : list R) (l : L) (o : option R) :
  In (l, o) (join_left eqb lkey rkey left right) <->
  In l left /\
  match o with
  | Some r => In r right /\ join_eqb eqb (lkey l) (rkey r) = true
  | None => forall r, In r right -> join_eqb eqb (lkey l) (rkey r) = false
  end.
Proof.
  unfold join_left. rewrite in_flat_map. split.
  - intros (l' & Hl & Hin).
    destruct (List.filter (fun r => join_eqb eqb (lkey l') (rkey r)) right)
      as [|m ms] eqn:E.
    + destruct Hin as [[= <- <-]|[]]. split; [exact Hl|].
      now apply filter_nil_iff.
    + apply in_map_iff in Hin. destruct Hin as (r & [= <- <-] & Hr).
      rewrite <- E in Hr. apply filter_In in Hr. tauto.
  - intros (Hl & Ho). exists l. split; [exact Hl|].
    destruct o as [r|].
    + assert (In r (List.filter (fun r => join_eqb eqb (lkey l) (rkey r))
                      right)) as Hin by (apply filter_In; tauto).
      destruct (List.filter (fun r => join_eqb eqb (lkey l) (rkey r)) right)
        as [|m ms] eqn:E; [destruct Hin|].
      apply in_map_iff. exists r. auto.
    + apply filter_nil_iff in Ho. rewrite Ho. now left.
Qed.

Lemma filter_unique_key {R K : Type} (eqb : K -> K -> bool)
  (rkey : R -> option K) (right : list R) (k : option K) :
  (forall x y, eqb x y = true <-> x = y) ->
  List.NoDup (map rkey right) ->
  (length (List.filter (fun r => join_eqb eqb k (rkey r)) right) <= 1)%nat.
Proof.
  intros Heqb. induction right as [|x rest IH]; simpl; intros Hnd; [lia|].
  inversion Hnd as [|? ? Hx Hrest]; subst.
  destruct (join_eqb eqb k (rkey x)) eqn:E; [|now apply IH].
  assert (List.filter (fun r => join_eqb eqb k (rkey r)) rest = []) as ->;
    [|simpl; lia].
  apply filter_nil_iff. intros r Hr.
  destruct (join_eqb eqb k (rkey r)) eqn:Er; [|reflexivity].
  apply (join_eqb_spec eqb Heqb) in E, Er.
  exfalso. apply Hx. destruct E as [<- _], Er as [Er _]. rewrite Er.
  now apply in_map.
Qed.

End Polars.

(** ** The tables of the data dictionary ([load_data]) *)

Module Daily.
(** A row of [data/cstore_transactions_daily_agg.parquet]. *)
Record row : Type := {
  STORE_ID : option Polars.column_value;
  CATEGORY : option string;
  SUBCATEGORY : option string;
  BRAND : option string;
  SKUPOS_DESCRIPTION : option string;
  CALENDAR_YEAR : option Z;
  CALENDAR_MONTH : option Z;
  WEEk : option Z;
  TOTAL_REVENUE_AMOUNT : option float;
  QUANTITY : option Z;
  TRANSACTION_COUNT : option Z
}.
End Daily.

Module TxnSets.
(** A row of [data/cstore_transaction_sets.parquet]; [DATE_TIME] is a
    Polars Datetime, microseconds since 1970-01-01T00:00:00. *)
Record row : Type := {
  TRANSACTION_SET_ID : option Z;
  STORE_ID : option Polars.column_value;
  DATE_TIME : option Z;
  PAYMENT_TYPE : option string;
  GRAND_TOTAL_AMOUNT : option float
}.
End TxnSets.

Module Items.
(** A row of [data/transaction_items/part-0000i.parquet]. *)
Record row : Type := {
  TRANSACTION_SET_ID : option Z;
  GTIN : option string;
  UNIT_QUANTITY : option Z;
  UNIT_PRICE : option float;
  GRAND_TOTAL_AMOUNT : option float
}.
End Items.

Module Gtin.
(** A row of [data/cstore_master_ctin.parquet]. *)
Record row : Type := {
  GTIN : option string;
  CATEGORY : option string;
  SKUPOS_DESCRIPTION : option string
}.
End Gtin.

Module Stores.
(** A row of [data/cstore_stores.parquet]. *)
Record row : Type := {
  STORE_ID : option Polars.column_value;
  LATITUDE : option float;
  LONGITUDE : option float;
  STATE : option string;
  CITY : option string
}.
End Stores.

(** The dictionary [load_data] returns, with the tables the pages read. *)
Record data_dict : Type := {
  gtin : list Gtin.row;
  stores : list Stores.row;
  daily : list Daily.row;
  sets : list TxnSets.row;
  items : list Items.row
}.

(** ** The unified filter ([get_unified_data]) *)

Module UnifiedFilter.
Import Polars.

Definition us_per_day : Z := 86400000000.

(** Calendar date (year, month, day) of a day count since 1970-01-01 in
    the proleptic Gregorian calendar, as [dt.year()] and [dt.month()]
    read it. *)
Definition civil_from_days (days : Z) : Z * Z * Z :=
  let z := days + 719468 in
  let era := z / 146097 in
  let doe := z - era * 146097 in
  let yoe := (doe - doe / 1460 + doe / 36524 - doe / 146096) / 365 in
  let doy := doe - (365 * yoe + yoe / 4 - yoe / 100) in
  let mp := (5 * doy + 2) / 153 in
  let d := doy - (153 * mp + 2) / 5 + 1 in
  let m := if mp <? 10 then mp + 3 else mp - 9 in
  let y := yoe + era * 400 in
  (if m <=? 2 then y + 1 else y, m, d).

(** The years the calendar of Polars (chrono's [NaiveDate]) holds; a
    timestamp whose date lies outside has no year and no month: the
    accessors give null for it. *)
Definition calendar_min_year : Z := -262143.
Definition calendar_max_year : Z := 262142.

Definition in_calendar (us : Z) : bool :=
  let y := fst (fst (civil_from_days (us / us_per_day))) in
  (calendar_min_year <=? y) && (y <=? calendar_max_year).

Definition dt_year (t : option Z) : option Z :=
  match t with
  | Some us =>
      if in_calendar us
      then Some (fst (fst (civil_from_days (us / us_per_day))))
      else None
  | None => None
  end.

Definition dt_month (t : option Z) : option Z :=
  match t with
  | Some us =>
      if in_calendar us
      then Some (snd (fst (civil_from_days (us / us_per_day))))
      else None
  | None => None
  end.

(** A row of [sets_with_date]: the transaction-set row with the derived
    [year] and [month] columns. *)
Record sets_with_date_row : Type := {
  base : TxnSets.row;
  year : option Z;
  month : option Z
}.

(** [with_columns([dt.year().alias("year"), dt.month().alias("month")])]. *)
Definition with_date (r : TxnSets.row) : sets_with_date_row :=
  {| base := r;
     year := dt_year (TxnSets.DATE_TIME r);
     month := dt_month (TxnSets.DATE_TIME r) |}.

Definition column_value_eqb (a b : column_value) : bool :=
  match a, b with
  | I64 x, I64 y => x =? y
  | F64 x, F64 y => (x =? y)%float || (is_nan x && is_nan y)
  | Utf8 x, Utf8 y => String.eqb x y
  | _, _ => false
  end.

(** Python's [x or 0] on a float: a zero is replaced by 0. *)
Definition or_zero (x : float) : float :=
  if (x =? 0)%float then 0%float else x.

Record unified : Type := {
  filtered_daily : list Daily.row;
  filtered_sets : list TxnSets.row;
  filtered_items : list Items.row;
  total_revenue : float;
  total_transactions : Z;
  unique_stores : Z
}.

Definition get_unified_data (_data_dict : data_dict) (year_filter : option Z)
  (month_filter : list Z) : unified :=
  let filtered_daily :=
    match year_filter with
    | None =>
        pl_filter
          (fun r => is_in Z.eqb (Daily.CALENDAR_MONTH r) month_filter)
          (daily _data_dict)
    | Some y =>
        pl_filter
          (fun r => and3 (eq_lit Z.eqb (Daily.CALENDAR_YEAR r) y)
                      (is_in Z.eqb (Daily.CALENDAR_MONTH r) month_filter))
          (daily _data_dict)
    end in
  let sets_with_date := map with_date (sets _data_dict) in
  let filtered_sets :=
    match year_filter with
    | None =>
        pl_filter (fun r => is_in Z.eqb (month r) month_filter) sets_with_date
    | Some y =>
        pl_filter
          (fun r => and3 (eq_lit Z.eqb (year r) y)
                      (is_in Z.eqb (month r) month_filter))
          sets_with_date
    end in
  let filtered_sets := map base filtered_sets in
  let valid_txn_ids :=
    unique (key_eqb Z.eqb) (map TxnSets.TRANSACTION_SET_ID filtered_sets) in
  let filtered_items :=
    map fst
      (join_inner Z.eqb Items.TRANSACTION_SET_ID (fun id => id)
         (items _data_dict) valid_txn_ids) in
  {| filtered_daily := filtered_daily;
     filtered_sets := filtered_sets;
     filtered_items := filtered_items;
     total_revenue :=
       or_zero (sum_f64 (map TxnSets.GRAND_TOTAL_AMOUNT filtered_sets));
     total_transactions := Z.of_nat (length filtered_sets);
     unique_stores :=
       n_unique (key_eqb column_value_eqb)
         (map TxnSets.STORE_ID filtered_sets) |}.

(** The period test in the words of the specification: the month is in
    the month set, and the year equals the selected year when one is
    selected. *)
Definition spec_in_period (year_filter : option Z) (month_filter : list Z)
  (y m : option Z) : bool :=
  match m with
  | Some m' => existsb (Z.eqb m') month_filter
  | None => false
  end &&
  match year_filter, y with
  | None, _ => true
  | Some yf, Some y' => y' =? yf
  | Some _, None => false
  end.

Example civil_epoch : civil_from_days 0 = (1970, 1, 1).
Proof. reflexivity. Qed.

Example civil_leap_day : civil_from_days 11016 = (2000, 2, 29).
Proof. reflexivity. Qed.

Example dt_new_year_eve :
  (dt_year (Some 1672531199999999), dt_month (Some 1672531199999999))
  = (Some 2022, Some 12).
Proof. reflexivity. Qed.

Example dt_new_year :
  (dt_year (Some 1672531200000000), dt_month (Some 1672531200000000))
  = (Some 2023, Some 1).
Proof. reflexivity. Qed.

Example dt_before_epoch :
  (dt_year (Some (-1)), dt_month (Some (-1))) = (Some 1969, Some 12).
Proof. reflexivity. Qed.

(** *** Correctness of the unified filter *)

Lemma map_filter_with {A B : Type} (f : A -> B) (g : B -> A) (p : B -> bool)
  (l : list A) :
  (forall a, g (f a) = a) ->
  map g (List.filter p (map f l)) = List.filter (fun a => p (f a)) l.
Proof.
  intros Hgf. induction l as [|a rest IH]; simpl; [reflexivity|].
  destruct (p (f a)); simpl; now rewrite ?Hgf, IH.
Qed.

Lemma spec_in_period_true (yf : option Z) (mf : list Z) (y m : option Z) :
  spec_in_period yf mf y m = true <->
  (exists m', m = Some m' /\ In m' mf) /\
  (forall yf', yf = Some yf' -> y = Some yf').
Proof.
  unfold spec_in_period. rewrite andb_true_iff.
  assert (forall A B C D : Prop, (A <-> C) -> (B <-> D) -> (A /\ B <-> C /\ D))
    as Hboth by tauto.
  apply Hboth.
  - destruct m as [m'|].
    + rewrite existsb_exists. split.
      * intros (x & Hx & E). apply Z.eqb_eq in E. subst x. eauto.
      * intros (x & [= <-] & Hx). exists m'. split; [exact Hx|apply Z.eqb_refl].
    + split; [discriminate|]. intros (x & Hx & _). discriminate.
  - destruct yf as [yf'|], y as [y'|]; try rewrite Z.eqb_eq; split; intros H;
      try congruence; try (intros ? [= <-]; congruence);
      try (specialize (H _ eq_refl); congruence).
Qed.

Lemma period_pred_none (mf : list Z) (y m : option Z) :
  holds (is_in Z.eqb m mf) = spec_in_period None mf y m.
Proof.
  unfold spec_in_period. rewrite andb_true_r.
  destruct m as [m'|]; simpl; [|reflexivity].
  now destruct (existsb (Z.eqb m') mf).
Qed.

Lemma period_pred_some (yf : Z) (mf : list Z) (y m : option Z) :
  holds (and3 (eq_lit Z.eqb y yf) (is_in Z.eqb m mf))
  = spec_in_period (Some yf) mf y m.
Proof.
  unfold spec_in_period.
  destruct y as [y'|], m as [m'|]; simpl;
    try destruct (y' =? yf); try destruct (existsb (Z.eqb m') mf); reflexivity.
Qed.

(** C2.  The unified filter keeps exactly the Daily Aggregate rows and the
    Transaction Set rows (in their input order, each once) whose month is
    in the month set and, when a year is selected, whose year equals it;
    for a Transaction Set row year and month are those of its timestamp,
    and the returned rows carry no derived column. *)
Theorem get_unified_data_period_filter (d : data_dict) (year_filter : option Z)
  (month_filter : list Z) :
  filtered_daily (get_unified_data d year_filter month_filter)
  = List.filter
      (fun r => spec_in_period year_filter month_filter
                  (Daily.CALENDAR_YEAR r) (Daily.CALENDAR_MONTH r))
      (daily d)
  /\
  filtered_sets (get_unified_data d year_filter month_filter)
  = List.filter
      (fun r => spec_in_period year_filter month_filter
                  (dt_year (TxnSets.DATE_TIME r))
                  (dt_month (TxnSets.DATE_TIME r)))
      (sets d).
Proof.
  unfold get_unified_data, pl_filter; simpl.
  destruct year_filter as [yf|]; split.
  - apply filter_ext. intros r. apply period_pred_some.
  - rewrite map_filter_with by reflexivity.
    apply filter_ext. intros r. apply period_pred_some.
  - apply filter_ext. intros r. apply period_pred_none with (y := None).
  - rewrite map_filter_with by reflexivity.
    apply filter_ext. intros r. apply period_pred_none with (y := None).
Qed.

(** Against a duplicate-free right table of bare keys, an inner join keeps
    each left row at most once. *)
Lemma join_inner_unique_keys {L : Type} (lkey : L -> option Z)
  (left : list L) (ids : list (option Z)) :
  List.NoDup ids ->
  map fst (join_inner Z.eqb lkey (fun id => id) left ids)
  = List.filter (fun l => existsb (join_eqb Z.eqb (lkey l)) ids) left.
Proof.
  intros Hnd. unfold join_inner.
  induction left as [|l rest IH]; simpl; [reflexivity|].
  rewrite map_app, IH, map_map. simpl.
  assert (forall k, map (fun _ : option Z => l)
                      (List.filter (join_eqb Z.eqb k) ids)
                    = if existsb (join_eqb Z.eqb k) ids then [l] else []) as H.
  { intros k. clear IH. induction Hnd as [|id ids' Hnot Hnd' IHn]; simpl; [reflexivity|].
    destruct (join_eqb Z.eqb k id) eqn:E; simpl; [|exact IHn].
    apply (join_eqb_spec Z.eqb Z.eqb_eq) in E. destruct E as [<- _].
    rewrite IHn.
    destruct (existsb (join_eqb Z.eqb k) ids') eqn:E'; [exfalso|reflexivity].
    apply existsb_exists in E'. destruct E' as (x & Hx & Ex).
    apply (join_eqb_spec Z.eqb Z.eqb_eq) in Ex. destruct Ex as [<- _].
    contradiction. }
  rewrite H. now destruct (existsb (join_eqb Z.eqb (lkey l)) ids).
Qed.

Lemma existsb_unique_ids (k : option Z) (rows : list TxnSets.row) :
  existsb (join_eqb Z.eqb k)
    (unique (key_eqb Z.eqb) (map TxnSets.TRANSACTION_SET_ID rows))
  = existsb (fun s => join_eqb Z.eqb k (TxnSets.TRANSACTION_SET_ID s)) rows.
Proof.
  apply eq_true_iff_eq. rewrite !existsb_exists. split.
  - intros (id & Hid & E).
    apply (unique_In _ (key_eqb_spec Z.eqb Z.eqb_eq)), in_map_iff in Hid.
    destruct Hid as (s & <- & Hs). eauto.
  - intros (s & Hs & E). exists (TxnSets.TRANSACTION_SET_ID s). split; [|exact E].
    apply (unique_In _ (key_eqb_spec Z.eqb Z.eqb_eq)), in_map_iff. eauto.
Qed.

(** C1.  Every row of [filtered_items] is an item row whose (non-null)
    transaction-set identifier is the identifier of a row of
    [filtered_sets]; [filtered_items] is the inner join of all items
    against the distinct identifiers of [filtered_sets], so it holds each
    such item row once. *)
Theorem filtered_items_inner_join (d : data_dict) (year_filter : option Z)
  (month_filter : list Z) :
  let u := get_unified_data d year_filter month_filter in
  (forall i, In i (filtered_items u) ->
     In i (items d) /\
     exists s, In s (filtered_sets u) /\
       TxnSets.TRANSACTION_SET_ID s = Items.TRANSACTION_SET_ID i /\
       Items.TRANSACTION_SET_ID i <> None)
  /\
  filtered_items u
  = List.filter
      (fun i => existsb
                  (fun s => join_eqb Z.eqb (Items.TRANSACTION_SET_ID i)
                              (TxnSets.TRANSACTION_SET_ID s))
                  (filtered_sets u))
      (items d).
Proof.
  intros u.
  assert (filtered_items u
          = List.filter
              (fun i => existsb
                  (fun s => join_eqb Z.eqb (Items.TRANSACTION_SET_ID i)
                              (TxnSets.TRANSACTION_SET_ID s))
                  (filtered_sets u))
              (items d)) as Heq.
  { subst u. unfold get_unified_data; simpl.
    rewrite join_inner_unique_keys
      by apply (unique_NoDup _ (key_eqb_spec Z.eqb Z.eqb_eq)).
    apply filter_ext. intros i. apply existsb_unique_ids. }
  split; [|exact Heq].
  intros i Hi. rewrite Heq in Hi. apply filter_In in Hi.
  destruct Hi as [Hin Hex]. split; [exact Hin|].
  apply existsb_exists in Hex. destruct Hex as (s & Hs & E).
  apply (join_eqb_spec Z.eqb Z.eqb_eq) in E. destruct E as [E Hnn].
  exists s. auto.
Qed.

(** *** Further properties of the unified filter *)

(** The default of the month widget: [list(range(1, 13))]. *)
Definition default_months : list Z := [1; 2; 3; 4; 5; 6; 7; 8; 9; 10; 11; 12].

Lemma holds_and3 (a b : option bool) :
  holds (and3 a b) = holds a && holds b.
Proof. destruct a as [[|]|], b as [[|]|]; reflexivity. Qed.

Lemma filter_filter_and {A : Type} (f g : A -> bool) (l : list A) :
  List.filter f (List.filter g l) = List.filter (fun x => g x && f x) l.
Proof.
  induction l as [|a rest IH]; simpl; [reflexivity|].
  destruct (g a); simpl; [destruct (f a)|]; now rewrite IH.
Qed.

Lemma filtered_items_filter (d : data_dict) (year_filter : option Z)
  (month_filter : list Z) :
  filtered_items (get_unified_data d year_filter month_filter)
  = List.filter
      (fun i => existsb
                  (fun s => join_eqb Z.eqb (Items.TRANSACTION_SET_ID i)
                              (TxnSets.TRANSACTION_SET_ID s))
                  (filtered_sets (get_unified_data d year_filter month_filter)))
      (items d).
Proof.
  unfold get_unified_data; simpl.
  rewrite join_inner_unique_keys
    by apply (unique_NoDup _ (key_eqb_spec Z.eqb Z.eqb_eq)).
  apply filter_ext. intros i. apply existsb_unique_ids.
Qed.

Lemma filter_length_le {A : Type} (f : A -> bool) (l : list A) :
  (length (List.filter f l) <= length l)%nat.
Proof. induction l as [|a rest IH]; simpl; [lia|]. destruct (f a); simpl; lia. Qed.

(** X4.  Selecting a year narrows the "All Years" result and nothing
    else: the daily and transaction-set tables for a year are the
    "All Years" tables of the same months filtered by that year, every
    item kept for the year is kept for "All Years", and the transaction
    count does not grow. *)
Theorem year_selection_refines_all_years (d : data_dict) (y : Z)
  (month_filter : list Z) :
  let all_years := get_unified_data d None month_filter in
  let one_year := get_unified_data d (Some y) month_filter in
  filtered_daily one_year
  = List.filter (fun r => holds (eq_lit Z.eqb (Daily.CALENDAR_YEAR r) y))
      (filtered_daily all_years)
  /\
  filtered_sets one_year
  = List.filter
      (fun r => holds (eq_lit Z.eqb (dt_year (TxnSets.DATE_TIME r)) y))
      (filtered_sets all_years)
  /\
  (forall i, In i (filtered_items one_year) -> In i (filtered_items all_years))
  /\
  total_transactions one_year <= total_transactions all_years.
Proof.
  intros all_years one_year.
  assert (filtered_sets one_year
          = List.filter
              (fun r => holds (eq_lit Z.eqb (dt_year (TxnSets.DATE_TIME r)) y))
              (filtered_sets all_years)) as Hsets.
  { subst all_years one_year. unfold get_unified_data, pl_filter; simpl.
    rewrite !map_filter_with by reflexivity. rewrite filter_filter_and.
    apply filter_ext. intros r. simpl. rewrite holds_and3. apply andb_comm. }
  split; [|split; [exact Hsets|split]].
  - subst all_years one_year. unfold get_unified_data, pl_filter; simpl.
    rewrite filter_filter_and.
    apply filter_ext. intros r. rewrite holds_and3. apply andb_comm.
  - intros i. subst all_years one_year. rewrite !filtered_items_filter.
    fold (get_unified_data d (Some y) month_filter).
    rewrite !filter_In, !existsb_exists. rewrite Hsets.
    intros [Hin (s & Hs & E)]. split; [exact Hin|]. exists s.
    split; [|exact E]. apply filter_In in Hs. tauto.
  - subst all_years one_year. unfold total_transactions at 1 2.
    change (Z.of_nat (length (filtered_sets (get_unified_data d (Some y) month_filter)))
            <= Z.of_nat (length (filtered_sets (get_unified_data d None month_filter)))).
    rewrite Hsets. apply Nat2Z.inj_le, filter_length_le.
Qed.

Lemma unique_length_le {K : Type} (eqb : K -> K -> bool) (l : list K) :
  (length (unique eqb l) <= length l)%nat.
Proof.
  induction l as [|k rest IH]; simpl; [lia|].
  pose proof (filter_length_le (fun k' => negb (eqb k k')) (unique eqb rest)).
  lia.
Qed.

(** X5.  Empty results are zero totals, not errors: with no month
    selected both period tables are empty, and whenever no transaction
    set is in the period there is no item, the revenue is 0 (the sum's
    zero replaced through [or 0]) and both counts are 0. *)
Theorem empty_period_totals (d : data_dict) (year_filter : option Z)
  (month_filter : list Z) :
  let u := get_unified_data d year_filter month_filter in
  (month_filter = [] -> filtered_daily u = [] /\ filtered_sets u = [])
  /\
  (filtered_sets u = [] ->
   filtered_items u = [] /\ total_revenue u = 0%float /\
   total_transactions u = 0 /\ unique_stores u = 0).
Proof.
  intros u. split.
  - intros ->. subst u. unfold get_unified_data, pl_filter; simpl.
    assert (forall (A : Type) (p : A -> bool) (l : list A),
              (forall a, p a = false) -> List.filter p l = []) as Hnone.
    { intros A p l Hp. induction l as [|a rest IH]; simpl; [reflexivity|].
      now rewrite Hp. }
    destruct year_filter as [y|]; split;
      try (rewrite Hnone; [reflexivity|]; intros r);
      try (rewrite holds_and3);
      try (destruct (Daily.CALENDAR_MONTH r)); try (destruct (month r));
      simpl; rewrite ?andb_false_r; reflexivity.
  - intros Hempty. split.
    + subst u. rewrite filtered_items_filter. fold (get_unified_data d year_filter month_filter).
      rewrite Hempty. simpl.
      induction (items d) as [|i rest IH]; simpl; [reflexivity|exact IH].
    + subst u. unfold get_unified_data in *; simpl in *.
      rewrite Hempty. repeat split; reflexivity.
Qed.

(** No month selected, on any data: nothing, and zero totals. *)
Lemma empty_period_totals_witness :
  total_transactions
    (get_unified_data
       {| gtin := []; stores := []; daily := []; sets := []; items := [] |}
       None [])
  = 0.
Proof.
  destruct (empty_period_totals
              {| gtin := []; stores := []; daily := []; sets := []; items := [] |}
              None []) as [Hnone Hzero].
  destruct Hzero as (_ & _ & H & _); [apply Hnone; reflexivity|exact H].
Defined.

(** X6.  The store count is bounded by the transaction count: the number
    of distinct stores of the period lies between 0 and the number of
    transaction sets, which is the row count of [filtered_sets], and it is
    0 exactly when there is no transaction set. *)
Theorem unique_stores_bounds (d : data_dict) (year_filter : option Z)
  (month_filter : list Z) :
  let u := get_unified_data d year_filter month_filter in
  total_transactions u = Z.of_nat (length (filtered_sets u)) /\
  0 <= unique_stores u <= total_transactions u /\
  (unique_stores u = 0 <-> total_transactions u = 0).
Proof.
  intros u. subst u. unfold get_unified_data; simpl.
  match goal with
  | |- context [map base ?l] => generalize (map base l)
  end.
  intros fs. unfold n_unique. split; [reflexivity|].
  pose proof (unique_length_le (key_eqb column_value_eqb)
                (map TxnSets.STORE_ID fs)) as Hle.
  rewrite length_map in Hle. split; [lia|].
  destruct fs as [|s rest]; simpl in *; [tauto|]. lia.
Qed.

Lemma civil_month_range (days : Z) :
  1 <= snd (fst (civil_from_days days)) <= 12.
Proof.
  unfold civil_from_days. cbv zeta. cbn [fst snd].
  set (z := days + 719468).
  set (doe := z - z / 146097 * 146097).
  assert (0 <= doe <= 146096) as Hdoe
    by (subst doe; Z.div_mod_to_equations; lia).
  clearbody doe. clear z.
  set (yoe := (doe - doe / 1460 + doe / 36524 - doe / 146096) / 365).
  set (doy := doe - (365 * yoe + yoe / 4 - yoe / 100)).
  assert (0 <= doy <= 365) as Hdoy
    by (subst doy yoe; Z.div_mod_to_equations; lia).
  clearbody doy.
  destruct ((5 * doy + 2) / 153 <? 10) eqn:E.
  - apply Z.ltb_lt in E. Z.div_mod_to_equations. lia.
  - apply Z.ltb_ge in E. Z.div_mod_to_equations. lia.
Qed.

Lemma default_months_accept (m : Z) :
  1 <= m <= 12 -> existsb (Z.eqb m) default_months = true.
Proof.
  intros Hm.
  assert (m = 1 \/ m = 2 \/ m = 3 \/ m = 4 \/ m = 5 \/ m = 6 \/ m = 7 \/
          m = 8 \/ m = 9 \/ m = 10 \/ m = 11 \/ m = 12) as Hcases by lia.
  repeat (destruct Hcases as [->|Hcases]; [reflexivity|]).
  now rewrite Hcases.
Qed.

(** A timestamp the calendar can read: not null and in its range. *)
Definition dated (t : option Z) : bool :=
  match t with
  | Some us => in_calendar us
  | None => false
  end.

Lemma dt_month_in_default (t : option Z) :
  holds (is_in Z.eqb (dt_month t) default_months) = dated t.
Proof.
  destruct t as [us|]; [|reflexivity].
  unfold dt_month, dated. destruct (in_calendar us); [|reflexivity].
  unfold is_in, option_map, holds.
  now rewrite default_months_accept by apply civil_month_range.
Qed.

Lemma dt_undated (t : option Z) :
  dated t = false -> dt_year t = None /\ dt_month t = None.
Proof.
  destruct t as [us|]; simpl; [|auto]. now intros ->.
Qed.

(** X7.  With the default filters ("All Years", all twelve months) the
    filter keeps exactly the transaction sets whose timestamp the
    calendar can read (not null, and a date within the years the calendar
    holds), because the month of such a timestamp is always one of 1..12;
    a transaction set with a null or out-of-range timestamp has a null
    year and month and is dropped under every filter. *)
Theorem default_filters_keep_dated_sets (d : data_dict) :
  filtered_sets (get_unified_data d None default_months)
  = List.filter (fun r => dated (TxnSets.DATE_TIME r)) (sets d)
  /\
  (forall year_filter month_filter r,
     In r (filtered_sets (get_unified_data d year_filter month_filter)) ->
     dated (TxnSets.DATE_TIME r) = true).
Proof.
  split.
  - unfold get_unified_data, pl_filter; cbn [filtered_sets].
    rewrite map_filter_with by reflexivity.
    apply filter_ext. intros r. cbn [month with_date].
    apply dt_month_in_default.
  - intros yf mf r Hin.
    destruct (dated (TxnSets.DATE_TIME r)) eqn:Hd; [reflexivity|].
    destruct (dt_undated _ Hd) as [Hy Hm].
    unfold get_unified_data, pl_filter in Hin. cbn [filtered_sets] in Hin.
    destruct yf; rewrite map_filter_with in Hin by reflexivity;
      apply filter_In in Hin; destruct Hin as [_ Hp];
      cbn [month year with_date] in Hp; rewrite ?holds_and3 in Hp;
      rewrite ?Hy, Hm in Hp; cbn in Hp; rewrite ?andb_false_r in Hp;
      discriminate.
Qed.

(** The last microsecond of the year 262142 is read, the next one is
    not. *)
Example calendar_end :
  dt_year (Some 8210266876799999999) = Some 262142 /\
  dt_month (Some 8210266876799999999) = Some 12 /\
  dt_year (Some 8210266876800000000) = None /\
  dt_month (Some 8210266876800000000) = None.
Proof. repeat split; vm_compute; reflexivity. Qed.

End UnifiedFilter.

(** ** Page "Top 5 Products Weekly Sales" *)

Module TopProducts.
Import Polars.

(** Ascending order of a nullable text column, nulls first. *)
Definition text_lt (a b : option string) : bool :=
  match a, b with
  | None, Some _ => true
  | Some x, Some y => String.ltb x y
  | _, None => false
  end.

(** [to_series().to_list()] of a text column without nulls. *)
Definition to_list (cells : list (option string)) : list string :=
  flat_map (fun c => match c with Some x => [x] | None => [] end) cells.

(** The options (and the default selection) of the category widget. *)
Definition categories (filtered_daily : list Daily.row) : list string :=
  to_list
    (sort_stable text_lt
       (unique (key_eqb String.eqb)
          (map Daily.CATEGORY
             (pl_filter (fun r => ne_lit String.eqb (Daily.CATEGORY r) "FUEL"%string)
                filtered_daily)))).

(** [if selected_categories: ... else: ...]; a Python list is true when
    it is not empty. *)
Definition category_filtered (filtered_daily : list Daily.row)
  (selected_categories : list string) : list Daily.row :=
  match selected_categories with
  | _ :: _ =>
      pl_filter
        (fun r => and3 (ne_lit String.eqb (Daily.CATEGORY r) "FUEL"%string)
                    (is_in String.eqb (Daily.CATEGORY r) selected_categories))
        filtered_daily
  | [] =>
      pl_filter (fun r => ne_lit String.eqb (Daily.CATEGORY r) "FUEL"%string)
        filtered_daily
  end.

(** The grouping key (BRAND, SKUPOS_DESCRIPTION, CATEGORY). *)
Definition product_key : Type := option string * option string * option string.

Definition product_key_of (r : Daily.row) : product_key :=
  (Daily.BRAND r, Daily.SKUPOS_DESCRIPTION r, Daily.CATEGORY r).

Definition product_key_eqb (a b : product_key) : bool :=
  let '(a1, a2, a3) := a in
  let '(b1, b2, b3) := b in
  key_eqb String.eqb a1 b1 && key_eqb String.eqb a2 b2
  && key_eqb String.eqb a3 b3.

(** A row after [.agg([...])]. *)
Record product_sums : Type := {
  key : product_key;
  sum_revenue : float;
  sum_units : Z;
  sum_transactions : Z
}.

(** A row of [top5_overall]. *)
Record product_row : Type := {
  BRAND : option string;
  SKUPOS_DESCRIPTION : option string;
  CATEGORY : option string;
  total_revenue : float;
  total_units : Z;
  total_transactions : Z;
  avg_price : float
}.

Definition agg (g : product_key * list Daily.row) : product_sums :=
  {| key := fst g;
     sum_revenue := sum_f64 (map Daily.TOTAL_REVENUE_AMOUNT (snd g));
     sum_units := sum_i64 (map Daily.QUANTITY (snd g));
     sum_transactions := sum_i64 (map Daily.TRANSACTION_COUNT (snd g)) |}.

(** [with_columns((total_revenue / total_units).alias("avg_price"))]: true
    division of the Float64 sum by the Int64 sum, no test on the divisor. *)
Definition with_avg_price (s : product_sums) : product_row :=
  {| BRAND := fst (fst (key s));
     SKUPOS_DESCRIPTION := snd (fst (key s));
     CATEGORY := snd (key s);
     total_revenue := sum_revenue s;
     total_units := sum_units s;
     total_transactions := sum_transactions s;
     avg_price := (sum_revenue s / f64_of_i64 (sum_units s))%float |}.

(** The table before [sort]: null exclusion, grouping, sums, average
    price; groups in order of first occurrence. *)
Definition top5_grouped (category_filtered : list Daily.row)
  : list product_row :=
  map with_avg_price
    (map agg
       (group_by product_key_eqb product_key_of
          (pl_filter
             (fun r => and3 (and3 (is_not_null (Daily.BRAND r))
                                (is_not_null (Daily.SKUPOS_DESCRIPTION r)))
                         (is_not_null (Daily.CATEGORY r)))
             category_filtered))).

(** [sort("total_revenue", descending=True)]: [a] must come before [b]
    when its revenue is larger. *)
Definition revenue_desc (a b : product_row) : bool :=
  f64_lt (total_revenue b) (total_revenue a).

(** The outputs the expression [top5_overall] may evaluate to: the groups
    in any order, sorted by revenue descending with ties in any order,
    cut to five rows. *)
Definition top5_overall (category_filtered : list Daily.row)
  (out : list product_row) : Prop :=
  exists grouped sorted,
    Permutation grouped (top5_grouped category_filtered) /\
    sort_result revenue_desc grouped sorted /\
    out = limit 5 sorted.

(** One of them: groups in order of first occurrence, stable sort. *)
Definition top5_overall_run (category_filtered : list Daily.row)
  : list product_row :=
  limit 5 (sort_stable revenue_desc (top5_grouped category_filtered)).

(** No two rows of a table have the same place in the revenue order. *)
Fixpoint no_revenue_ties (l : list product_row) : bool :=
  match l with
  | [] => true
  | a :: rest =>
      forallb (fun b => revenue_desc a b || revenue_desc b a) rest
      && no_revenue_ties rest
  end.

(** *** The category selection *)

Lemma to_list_In (cells : list (option string)) (c : string) :
  In c (to_list cells) <-> In (Some c) cells.
Proof.
  unfold to_list. rewrite in_flat_map. split.
  - intros ([x|] & Hx & Hc); simpl in Hc; [|tauto].
    destruct Hc as [->|[]]. exact Hx.
  - intros H. exists (Some c). split; [exact H|now left].
Qed.

Lemma not_fuel_true (cell : option string) :
  ne_lit String.eqb cell "FUEL"%string = Some true <->
  exists c, cell = Some c /\ c <> "FUEL"%string.
Proof.
  destruct cell as [c|]; simpl.
  - destruct (String.eqb_spec c "FUEL"); simpl; split.
    + discriminate.
    + intros (c' & [= <-] & Hne). contradiction.
    + intros _. eauto.
    + reflexivity.
  - split; [discriminate|]. intros (c & H & _). discriminate.
Qed.

Lemma categories_In (filtered_daily : list Daily.row) (c : string) :
  In c (categories filtered_daily) <->
  exists r, In r filtered_daily /\ Daily.CATEGORY r = Some c /\
            c <> "FUEL"%string.
Proof.
  unfold categories. rewrite to_list_In. split.
  - intros H.
    apply (Permutation_in _ (sort_stable_perm text_lt _)) in H.
    apply (proj1 (unique_In _ (key_eqb_spec String.eqb String.eqb_eq) _ _)) in H.
    apply in_map_iff in H. destruct H as (r & Hc & Hr).
    apply pl_filter_In in Hr. destruct Hr as [Hr Hne].
    apply not_fuel_true in Hne. destruct Hne as (c' & Hc' & Hne).
    exists r. rewrite Hc in Hc'. injection Hc' as <-. auto.
  - intros (r & Hr & Hc & Hne).
    apply (Permutation_in _ (Permutation_sym (sort_stable_perm text_lt _))).
    apply (proj2 (unique_In _ (key_eqb_spec String.eqb String.eqb_eq) _ _)).
    apply in_map_iff. exists r. split; [exact Hc|].
    apply pl_filter_In. split; [exact Hr|].
    apply not_fuel_true. eauto.
Qed.

(** C9.  With an empty category selection the page aggregates the rows of
    every non-fuel category: the filtered table is the one obtained by
    selecting all the widget's categories, so the top-5 outputs are the
    same and no non-fuel row is lost; with any selection, no returned row
    has category FUEL (or a null category). *)
Theorem empty_selection_is_all_categories (filtered_daily : list Daily.row) :
  category_filtered filtered_daily []
  = category_filtered filtered_daily (categories filtered_daily)
  /\
  (forall out,
     top5_overall (category_filtered filtered_daily []) out <->
     top5_overall
       (category_filtered filtered_daily (categories filtered_daily)) out)
  /\
  (forall r c, In r filtered_daily -> Daily.CATEGORY r = Some c ->
     c <> "FUEL"%string -> In r (category_filtered filtered_daily []))
  /\
  (forall selected_categories r,
     In r (category_filtered filtered_daily selected_categories) ->
     exists c, Daily.CATEGORY r = Some c /\ c <> "FUEL"%string).
Proof.
  assert (category_filtered filtered_daily []
          = category_filtered filtered_daily (categories filtered_daily)) as Heq.
  { unfold category_filtered at 2.
    destruct (categories filtered_daily) as [|c0 cs] eqn:Ecat; [reflexivity|].
    rewrite <- Ecat. simpl. unfold pl_filter.
    apply filter_ext_in. intros r Hr.
    destruct (Daily.CATEGORY r) as [c|] eqn:Ec; simpl; [|reflexivity].
    destruct (String.eqb_spec c "FUEL"); simpl; [reflexivity|].
    assert (In c (categories filtered_daily)) as Hin
      by (apply categories_In; eauto).
    assert (existsb (String.eqb c) (categories filtered_daily) = true) as ->.
    { apply existsb_exists. exists c. split; [exact Hin|apply String.eqb_refl]. }
    reflexivity. }
  split; [exact Heq|]. split; [now rewrite <- Heq|]. split.
  - intros r c Hr Hc Hne. simpl. apply pl_filter_In. split; [exact Hr|].
    apply not_fuel_true. eauto.
  - intros sel r Hr. unfold category_filtered in Hr.
    destruct sel; apply pl_filter_In in Hr; destruct Hr as [_ Hp].
    + now apply not_fuel_true.
    + apply not_fuel_true.
      destruct (ne_lit String.eqb (Daily.CATEGORY r) "FUEL") as [[|]|];
        [reflexivity|discriminate|].
      destruct (is_in String.eqb (Daily.CATEGORY r) (s :: sel)) as [[|]|];
        discriminate.
Qed.

(** *** The ranking *)

Lemma product_key_eqb_eq (a b : product_key) :
  product_key_eqb a b = true <-> a = b.
Proof.
  destruct a as [[a1 a2] a3], b as [[b1 b2] b3]. unfold product_key_eqb.
  rewrite !andb_true_iff, !(key_eqb_spec String.eqb String.eqb_eq).
  split; [intros [[-> ->] ->]; reflexivity|intros [= -> -> ->]; auto].
Qed.

Lemma revenue_desc_asym (a b : product_row) :
  revenue_desc a b = true -> revenue_desc b a = false.
Proof. apply f64_lt_asym. Qed.

Lemma revenue_desc_negtrans (a b c : product_row) :
  revenue_desc a c = true -> revenue_desc a b = true \/ revenue_desc b c = true.
Proof.
  unfold revenue_desc. intros H.
  destruct (f64_lt_negtrans _ (total_revenue b) _ H); auto.
Qed.

(** The expression always has a value: the run is one of its outputs. *)
Lemma top5_overall_run_valid (category_filtered : list Daily.row) :
  top5_overall category_filtered (top5_overall_run category_filtered).
Proof.
  exists (top5_grouped category_filtered),
    (sort_stable revenue_desc (top5_grouped category_filtered)).
  split; [reflexivity|]. split; [|reflexivity].
  apply sort_stable_result;
    [apply revenue_desc_asym | apply revenue_desc_negtrans].
Qed.

Lemma top5_grouped_NoDup (category_filtered : list Daily.row) :
  List.NoDup (top5_grouped category_filtered).
Proof.
  unfold top5_grouped.
  apply (NoDup_map_inv
           (fun g => (BRAND g, SKUPOS_DESCRIPTION g, CATEGORY g))).
  rewrite !map_map.
  erewrite map_ext; [apply (group_by_keys_NoDup _ _ product_key_eqb_eq)|].
  intros [[[k1 k2] k3] rows]. reflexivity.
Qed.

Lemma no_revenue_ties_spec (l : list product_row) :
  List.NoDup l -> no_revenue_ties l = true ->
  forall a b, In a l -> In b l -> a <> b ->
    revenue_desc a b = true \/ revenue_desc b a = true.
Proof.
  induction 1 as [|x rest Hx Hnd IH]; simpl; [tauto|].
  rewrite andb_true_iff, forallb_forall. intros [Hhead Htail] a b Ha Hb Hne.
  destruct Ha as [<-|Ha], Hb as [<-|Hb].
  - congruence.
  - apply orb_true_iff, Hhead, Hb.
  - apply or_comm, orb_true_iff, Hhead, Ha.
  - now apply IH.
Qed.

(** Every output is a part of the grouped table. *)
Lemma top5_overall_incl (category_filtered : list Daily.row)
  (out : list product_row) (g : product_row) :
  top5_overall category_filtered out -> In g out ->
  In g (top5_grouped category_filtered).
Proof.
  intros (grouped & sorted & Hg & [Hs _] & ->) Hin.
  apply limit_In in Hin.
  eapply Permutation_in; [exact Hg|].
  eapply Permutation_in; [exact Hs|exact Hin].
Qed.

(** Two products with the same revenue. *)
Definition tied_daily : list Daily.row :=
  [ {| Daily.STORE_ID := Some (I64 1); Daily.CATEGORY := Some "SNACK"%string;
       Daily.SUBCATEGORY := None; Daily.BRAND := Some "A"%string;
       Daily.SKUPOS_DESCRIPTION := Some "CHIPS"%string;
       Daily.CALENDAR_YEAR := Some 2023; Daily.CALENDAR_MONTH := Some 1;
       Daily.WEEk := Some 1; Daily.TOTAL_REVENUE_AMOUNT := Some 1%float;
       Daily.QUANTITY := Some 1; Daily.TRANSACTION_COUNT := Some 1 |};
    {| Daily.STORE_ID := Some (I64 1); Daily.CATEGORY := Some "SNACK"%string;
       Daily.SUBCATEGORY := None; Daily.BRAND := Some "B"%string;
       Daily.SKUPOS_DESCRIPTION := Some "NUTS"%string;
       Daily.CALENDAR_YEAR := Some 2023; Daily.CALENDAR_MONTH := Some 1;
       Daily.WEEk := Some 1; Daily.TOTAL_REVENUE_AMOUNT := Some 1%float;
       Daily.QUANTITY := Some 1; Daily.TRANSACTION_COUNT := Some 1 |} ].

Definition tied_chips : product_row :=
  {| BRAND := Some "A"%string; SKUPOS_DESCRIPTION := Some "CHIPS"%string;
     CATEGORY := Some "SNACK"%string; total_revenue := 1%float;
     total_units := 1; total_transactions := 1; avg_price := 1%float |}.

Definition tied_nuts : product_row :=
  {| BRAND := Some "B"%string; SKUPOS_DESCRIPTION := Some "NUTS"%string;
     CATEGORY := Some "SNACK"%string; total_revenue := 1%float;
     total_units := 1; total_transactions := 1; avg_price := 1%float |}.

Lemma tied_daily_grouped : top5_grouped tied_daily = [tied_chips; tied_nuts].
Proof. vm_compute. reflexivity. Qed.

(** C8, as stated, fails: on two products with equal revenue both
    rankings are outputs of the aggregation. *)
Lemma top5_tie_order_not_determined :
  top5_overall tied_daily [tied_chips; tied_nuts] /\
  top5_overall tied_daily [tied_nuts; tied_chips] /\
  [tied_chips; tied_nuts] <> [tied_nuts; tied_chips].
Proof.
  split; [|split].
  - exists [tied_chips; tied_nuts], [tied_chips; tied_nuts].
    rewrite tied_daily_grouped. split; [reflexivity|]. split; [|reflexivity].
    split; [reflexivity|].
    repeat constructor.
  - exists [tied_nuts; tied_chips], [tied_nuts; tied_chips].
    rewrite tied_daily_grouped. split; [apply perm_swap|]. split; [|reflexivity].
    split; [reflexivity|].
    repeat constructor.
  - intros H. discriminate H.
Qed.

(** C8, amended.  When no two product groups have the same summed revenue,
    the aggregation has exactly one output: every run on the same input
    returns the same ranked rows. *)
Theorem top5_overall_deterministic (category_filtered : list Daily.row)
  (out1 out2 : list product_row) :
  no_revenue_ties (top5_grouped category_filtered) = true ->
  top5_overall category_filtered out1 ->
  top5_overall category_filtered out2 ->
  out1 = out2.
Proof.
  intros Hties (g1 & s1 & Hg1 & Hs1 & ->) (g2 & s2 & Hg2 & Hs2 & ->).
  f_equal.
  apply (sort_result_unique revenue_desc (top5_grouped category_filtered)).
  - apply top5_grouped_NoDup.
  - apply no_revenue_ties_spec; [apply top5_grouped_NoDup|exact Hties].
  - destruct Hs1 as [Hp Hs]. split; [now rewrite Hp|exact Hs].
  - destruct Hs2 as [Hp Hs]. split; [now rewrite Hp|exact Hs].
Qed.

(** Two products with different revenues, the smaller one first. *)
Definition ranked_daily : list Daily.row :=
  [ {| Daily.STORE_ID := Some (I64 1); Daily.CATEGORY := Some "SNACK"%string;
       Daily.SUBCATEGORY := None; Daily.BRAND := Some "A"%string;
       Daily.SKUPOS_DESCRIPTION := Some "CHIPS"%string;
       Daily.CALENDAR_YEAR := Some 2023; Daily.CALENDAR_MONTH := Some 1;
       Daily.WEEk := Some 1; Daily.TOTAL_REVENUE_AMOUNT := Some 1%float;
       Daily.QUANTITY := Some 1; Daily.TRANSACTION_COUNT := Some 1 |};
    {| Daily.STORE_ID := Some (I64 1); Daily.CATEGORY := Some "SNACK"%string;
       Daily.SUBCATEGORY := None; Daily.BRAND := Some "B"%string;
       Daily.SKUPOS_DESCRIPTION := Some "NUTS"%string;
       Daily.CALENDAR_YEAR := Some 2023; Daily.CALENDAR_MONTH := Some 1;
       Daily.WEEk := Some 1; Daily.TOTAL_REVENUE_AMOUNT := Some 4%float;
       Daily.QUANTITY := Some 2; Daily.TRANSACTION_COUNT := Some 1 |} ].

Definition ranked_nuts : product_row :=
  {| BRAND := Some "B"%string; SKUPOS_DESCRIPTION := Some "NUTS"%string;
     CATEGORY := Some "SNACK"%string; total_revenue := 4%float;
     total_units := 2; total_transactions := 1; avg_price := 2%float |}.

Lemma ranked_daily_grouped :
  top5_grouped ranked_daily = [tied_chips; ranked_nuts].
Proof. vm_compute. reflexivity. Qed.

(** Whatever the group order, the run and the ranking computed from the
    groups in reverse order agree. *)
Lemma top5_overall_deterministic_witness :
  top5_overall_run ranked_daily = [ranked_nuts; tied_chips].
Proof.
  apply (top5_overall_deterministic ranked_daily).
  - vm_compute. reflexivity.
  - apply top5_overall_run_valid.
  - exists [ranked_nuts; tied_chips], [ranked_nuts; tied_chips].
    rewrite ranked_daily_grouped.
    split; [apply perm_swap|]. split; [|reflexivity].
    split; [reflexivity|]. repeat constructor.
Defined.

(** X1.  The shape of every output of the top-5 aggregation: at most five
    rows, no row before a row of larger revenue, each row the sums of one
    product group, no product twice. *)
Theorem top5_overall_shape (category_filtered : list Daily.row)
  (out : list product_row) :
  top5_overall category_filtered out ->
  (length out <= 5)%nat /\
  sorted_by revenue_desc out /\
  List.NoDup out /\
  (forall g, In g out -> In g (top5_grouped category_filtered)) /\
  ((length (top5_grouped category_filtered) <= 5)%nat ->
   Permutation out (top5_grouped category_filtered)).
Proof.
  intros Hout. pose proof Hout as (grouped & sorted & Hg & [Hp Hs] & ->).
  split; [apply firstn_le_length|]. split; [now apply sorted_by_limit|].
  split; [|split].
  - apply limit_NoDup.
    eapply Permutation_NoDup; [symmetry; exact Hp|].
    eapply Permutation_NoDup; [symmetry; exact Hg|].
    apply top5_grouped_NoDup.
  - intros g Hin. eapply top5_overall_incl; eauto.
  - intros Hlen. unfold limit. rewrite firstn_all2.
    + now rewrite Hp.
    + now rewrite (Permutation_length Hp), (Permutation_length Hg).
Qed.

(** The shape of the run on the two ranked products. *)
Lemma top5_overall_shape_witness :
  (length (top5_overall_run ranked_daily) <= 5)%nat /\
  sorted_by revenue_desc (top5_overall_run ranked_daily).
Proof.
  destruct (top5_overall_shape ranked_daily (top5_overall_run ranked_daily))
    as (Hlen & Hsorted & _).
  - apply top5_overall_run_valid.
  - split; [exact Hlen|exact Hsorted].
Defined.

(** *** The category widget and the weekly series *)

Lemma to_list_NoDup (cells : list (option string)) :
  List.NoDup cells -> List.NoDup (to_list cells).
Proof.
  induction 1 as [|c rest Hc Hnd IH]; simpl; [constructor|].
  destruct c as [x|]; simpl; [|exact IH].
  constructor; [|exact IH]. intros Hin. apply Hc. now apply to_list_In.
Qed.

(** X9.  The category widget offers every non-fuel, non-null category of
    the filtered daily table exactly once, and nothing else; FUEL is
    never offered. *)
Theorem categories_are_the_non_fuel_categories
  (filtered_daily : list Daily.row) :
  List.NoDup (categories filtered_daily) /\
  (forall c, In c (categories filtered_daily) <->
     exists r, In r filtered_daily /\ Daily.CATEGORY r = Some c /\
               c <> "FUEL"%string) /\
  ~ In "FUEL"%string (categories filtered_daily).
Proof.
  split; [|split].
  - unfold categories. apply to_list_NoDup.
    eapply Permutation_NoDup; [symmetry; apply sort_stable_perm|].
    apply (unique_NoDup _ (key_eqb_spec String.eqb String.eqb_eq)).
  - apply categories_In.
  - intros Hin. apply categories_In in Hin.
    destruct Hin as (r & _ & _ & Hne). now apply Hne.
Qed.

(** [top5_products]: the descriptions of the top-5 rows. *)
Definition top5_products (top5 : list product_row) : list string :=
  to_list (map SKUPOS_DESCRIPTION top5).

(** The grouping key (WEEk, SKUPOS_DESCRIPTION, BRAND) of the series. *)
Definition week_key : Type := option Z * option string * option string.

Definition week_key_of (r : Daily.row) : week_key :=
  (Daily.WEEk r, Daily.SKUPOS_DESCRIPTION r, Daily.BRAND r).

Definition week_key_eqb (a b : week_key) : bool :=
  let '(a1, a2, a3) := a in
  let '(b1, b2, b3) := b in
  key_eqb Z.eqb a1 b1 && key_eqb String.eqb a2 b2
  && key_eqb String.eqb a3 b3.

(** A row of [weekly_top5]. *)
Record weekly_row : Type := {
  week : week_key;
  weekly_revenue : float;
  weekly_units : Z
}.

Definition weekly_rows (category_filtered : list Daily.row)
  (top5 : list product_row) : list Daily.row :=
  pl_filter
    (fun r => and3 (is_in String.eqb (Daily.SKUPOS_DESCRIPTION r)
                      (top5_products top5))
                (is_not_null (Daily.WEEk r)))
    category_filtered.

Definition weekly_agg (g : week_key * list Daily.row) : weekly_row :=
  {| week := fst g;
     weekly_revenue := sum_f64 (map Daily.TOTAL_REVENUE_AMOUNT (snd g));
     weekly_units := sum_i64 (map Daily.QUANTITY (snd g)) |}.

Definition weekly_grouped (category_filtered : list Daily.row)
  (top5 : list product_row) : list weekly_row :=
  map weekly_agg
    (group_by week_key_eqb week_key_of (weekly_rows category_filtered top5)).

(** Ascending order of a nullable integer column, nulls first. *)
Definition week_lt (a b : option Z) : bool :=
  match a, b with
  | None, Some _ => true
  | Some x, Some y => x <? y
  | _, None => false
  end.

(** [sort(["WEEk", "weekly_revenue"], descending=[False, True])]. *)
Definition week_then_revenue (a b : weekly_row) : bool :=
  week_lt (fst (fst (week a))) (fst (fst (week b)))
  || (negb (week_lt (fst (fst (week b))) (fst (fst (week a))))
      && f64_lt (weekly_revenue b) (weekly_revenue a)).

(** The outputs the expression [weekly_top5] may evaluate to. *)
Definition weekly_top5 (category_filtered : list Daily.row)
  (top5 : list product_row) (out : list weekly_row) : Prop :=
  exists grouped,
    Permutation grouped (weekly_grouped category_filtered top5) /\
    sort_result week_then_revenue grouped out.

Definition weekly_top5_run (category_filtered : list Daily.row)
  (top5 : list product_row) : list weekly_row :=
  sort_stable week_then_revenue (weekly_grouped category_filtered top5).

Lemma week_key_eqb_eq (a b : week_key) : week_key_eqb a b = true <-> a = b.
Proof.
  destruct a as [[a1 a2] a3], b as [[b1 b2] b3]. unfold week_key_eqb.
  rewrite !andb_true_iff, !(key_eqb_spec String.eqb String.eqb_eq),
    (key_eqb_spec Z.eqb Z.eqb_eq).
  split; [intros [[-> ->] ->]; reflexivity|intros [= -> -> ->]; auto].
Qed.

Lemma week_lt_rank (a b : option Z) :
  week_lt a b = true <->
  match a, b with
  | None, Some _ => True
  | Some x, Some y => x < y
  | _, None => False
  end.
Proof.
  destruct a, b; simpl; rewrite ?Z.ltb_lt; split; try tauto; discriminate.
Qed.

Lemma week_then_revenue_asym (a b : weekly_row) :
  week_then_revenue a b = true -> week_then_revenue b a = false.
Proof.
  unfold week_then_revenue.
  set (wa := fst (fst (week a))). set (wb := fst (fst (week b))).
  pose proof (f64_lt_asym (weekly_revenue b) (weekly_revenue a)) as Hf.
  destruct wa as [x|], wb as [y|]; simpl;
    try destruct (Z.ltb_spec x y); try destruct (Z.ltb_spec y x);
    simpl; try lia; try discriminate; try reflexivity;
    intros Hwr; auto.
Qed.

Lemma week_then_revenue_negtrans (a b c : weekly_row) :
  week_then_revenue a c = true ->
  week_then_revenue a b = true \/ week_then_revenue b c = true.
Proof.
  unfold week_then_revenue.
  set (wa := fst (fst (week a))). set (wb := fst (fst (week b))).
  set (wc := fst (fst (week c))).
  pose proof (f64_lt_negtrans (weekly_revenue c) (weekly_revenue b)
                (weekly_revenue a)) as Hf.
  destruct wa as [x|], wb as [y|], wc as [z|]; simpl;
    try destruct (Z.ltb_spec x y); try destruct (Z.ltb_spec y x);
    try destruct (Z.ltb_spec y z); try destruct (Z.ltb_spec z y);
    try destruct (Z.ltb_spec x z); try destruct (Z.ltb_spec z x);
    simpl; try lia; auto; intros Hwr; try discriminate;
    destruct (Hf Hwr); auto.
Qed.

Lemma weekly_top5_run_valid (category_filtered : list Daily.row)
  (top5 : list product_row) :
  weekly_top5 category_filtered top5
    (weekly_top5_run category_filtered top5).
Proof.
  exists (weekly_grouped category_filtered top5). split; [reflexivity|].
  apply sort_stable_result;
    [apply week_then_revenue_asym|apply week_then_revenue_negtrans].
Qed.

(** X10.  The weekly series of the top-5 page: every row of it is one
    (week, description, brand) group with a week and a description of a
    top-5 row, no group twice, weeks ascending and revenue descending
    within a week.  It counts every category-filtered row that has a week
    and a top-5 description, whatever its brand: the selection is by
    description alone, so a row with a null brand or with the brand of
    another product of the same description has its group too. *)
Theorem weekly_top5_covers_every_described_row
  (category_filtered : list Daily.row) (top5 : list product_row)
  (out : list weekly_row) :
  weekly_top5 category_filtered top5 out ->
  sorted_by week_then_revenue out /\
  List.NoDup (map week out) /\
  (forall w, In w out ->
     exists wk d, fst (fst (week w)) = Some wk /\
       snd (fst (week w)) = Some d /\ In d (top5_products top5)) /\
  (forall r wk d,
     In r category_filtered -> Daily.WEEk r = Some wk ->
     Daily.SKUPOS_DESCRIPTION r = Some d -> In d (top5_products top5) ->
     exists w, In w out /\ week w = (Some wk, Some d, Daily.BRAND r) /\
       weekly_units w
       = sum_i64
           (map Daily.QUANTITY
              (List.filter (fun r' => week_key_eqb (week w) (week_key_of r'))
                 (weekly_rows category_filtered top5)))).
Proof.
  intros (grouped & Hg & [Hp Hs]).
  assert (forall w, In w out <-> In w (weekly_grouped category_filtered top5))
    as Hmem.
  { intros w. split; intros H.
    - eapply Permutation_in; [exact Hg|]. eapply Permutation_in; eauto.
    - eapply Permutation_in; [symmetry; exact Hp|].
      eapply Permutation_in; [symmetry; exact Hg|exact H]. }
  assert (forall r, In r (weekly_rows category_filtered top5) <->
            In r category_filtered /\
            exists wk d, Daily.WEEk r = Some wk /\
              Daily.SKUPOS_DESCRIPTION r = Some d /\
              In d (top5_products top5)) as Hrows.
  { intros r. unfold weekly_rows. rewrite pl_filter_In.
    apply and_iff_compat_l.
    destruct (Daily.WEEk r) as [wk|], (Daily.SKUPOS_DESCRIPTION r) as [d|];
      simpl.
    - destruct (existsb (String.eqb d) (top5_products top5)) eqn:E; split.
      + intros _. exists wk, d. repeat split.
        apply existsb_exists in E. destruct E as (x & Hx & Ex).
        apply String.eqb_eq in Ex. now subst.
      + reflexivity.
      + discriminate.
      + intros (wk' & d' & [= <-] & [= <-] & Hin). exfalso.
        assert (existsb (String.eqb d) (top5_products top5) = true) as E'.
        { apply existsb_exists. exists d. split; [exact Hin|apply String.eqb_refl]. }
        congruence.
    - split; [discriminate|]. intros (? & ? & _ & H & _). discriminate.
    - split; [|intros (? & ? & H & _); discriminate].
      destruct (existsb _ _); discriminate.
    - split; [discriminate|]. intros (? & ? & H & _). discriminate. }
  split; [exact Hs|]. split; [|split].
  - apply (Permutation_NoDup (l := map week (weekly_grouped category_filtered top5))).
    + apply Permutation_map. rewrite Hp. now symmetry.
    + unfold weekly_grouped. rewrite map_map.
      erewrite map_ext; [apply (group_by_keys_NoDup _ _ week_key_eqb_eq)|].
      intros [k rows]. reflexivity.
  - intros w Hw. apply Hmem in Hw. unfold weekly_grouped in Hw.
    apply in_map_iff in Hw. destruct Hw as ([k rows] & <- & Hgr).
    unfold group_by in Hgr. apply in_map_iff in Hgr.
    destruct Hgr as (k' & [= <- <-] & Hk).
    apply unique_incl, in_map_iff in Hk. destruct Hk as (r & <- & Hr).
    apply Hrows in Hr. destruct Hr as (_ & wk & d & Hwk & Hd & Hin).
    exists wk, d. simpl. auto.
  - intros r wk d Hr Hwk Hd Hin.
    assert (In r (weekly_rows category_filtered top5)) as Hrow
      by (apply Hrows; split; [exact Hr|]; eauto).
    exists (weekly_agg
              (week_key_of r,
               List.filter (fun r' => week_key_eqb (week_key_of r) (week_key_of r'))
                 (weekly_rows category_filtered top5))).
    split; [|split].
    + apply Hmem. unfold weekly_grouped, group_by. rewrite map_map.
      apply in_map_iff. exists (week_key_of r). split; [reflexivity|].
      apply (unique_In _ week_key_eqb_eq). now apply in_map.
    + simpl. unfold week_key_of. now rewrite Hwk, Hd.
    + reflexivity.
Qed.

(** A row of description "CHIPS" without brand, in week 2. *)
Definition unbranded_chips : Daily.row :=
  {| Daily.STORE_ID := Some (I64 1); Daily.CATEGORY := Some "SNACK"%string;
     Daily.SUBCATEGORY := None; Daily.BRAND := None;
     Daily.SKUPOS_DESCRIPTION := Some "CHIPS"%string;
     Daily.CALENDAR_YEAR := Some 2023; Daily.CALENDAR_MONTH := Some 1;
     Daily.WEEk := Some 2; Daily.TOTAL_REVENUE_AMOUNT := Some 8%float;
     Daily.QUANTITY := Some 4; Daily.TRANSACTION_COUNT := Some 1 |}.

(** With the top-5 product "CHIPS" of brand A, the series has a group for
    the unbranded row. *)
Lemma weekly_top5_covers_every_described_row_witness :
  exists w,
    In w (weekly_top5_run (tied_daily ++ [unbranded_chips]) [tied_chips]) /\
    week w = (Some 2, Some "CHIPS"%string, None).
Proof.
  destruct (weekly_top5_covers_every_described_row
              (tied_daily ++ [unbranded_chips]) [tied_chips]
              (weekly_top5_run (tied_daily ++ [unbranded_chips]) [tied_chips])
              (weekly_top5_run_valid _ _))
    as (_ & _ & _ & Hcover).
  destruct (Hcover unbranded_chips 2 "CHIPS"%string) as (w & Hw & Hk & _).
  - apply in_or_app. right. left. reflexivity.
  - reflexivity.
  - reflexivity.
  - left. reflexivity.
  - exists w. split; [exact Hw|exact Hk].
Defined.

End TopProducts.

(** ** Page "Packaged Beverages: Recommended Product Drops" *)

Module Beverages.
Import Polars.

Definition upper_ascii (c : ascii) : ascii :=
  let n := nat_of_ascii c in
  if ((97 <=? n) && (n <=? 122))%nat then ascii_of_nat (n - 32) else c.

Fixpoint upper (s : string) : string :=
  match s with
  | EmptyString => EmptyString
  | String c rest => String (upper_ascii c) (upper rest)
  end.

Fixpoint contains (needle s : string) : bool :=
  String.prefix needle s
  || match s with
     | EmptyString => false
     | String _ rest => contains needle rest
     end.

(** [pl.col(c).str.contains("(?i)NEEDLE")] for an upper-case ASCII
    needle: a case-insensitive substring test (ASCII case folding). *)
Definition str_contains_ci (cell : option string) (needle : string)
  : option bool :=
  option_map (fun s => contains needle (upper s)) cell.

(** A row after [.agg([...])]. *)
Record brand_sums : Type := {
  key : option string;
  sum_revenue : float;
  sum_units : Z;
  sum_transactions : Z
}.

(** A row of [bev_perf]. *)
Record brand_row : Type := {
  BRAND : option string;
  revenue : float;
  units : Z;
  transactions : Z;
  rev_per_unit : float;
  rev_per_transaction : float
}.

Definition agg (g : option string * list Daily.row) : brand_sums :=
  {| key := fst g;
     sum_revenue := sum_f64 (map Daily.TOTAL_REVENUE_AMOUNT (snd g));
     sum_units := sum_i64 (map Daily.QUANTITY (snd g));
     sum_transactions := sum_i64 (map Daily.TRANSACTION_COUNT (snd g)) |}.

(** The two derived columns, both plain true divisions. *)
Definition with_ratios (s : brand_sums) : brand_row :=
  {| BRAND := key s;
     revenue := sum_revenue s;
     units := sum_units s;
     transactions := sum_transactions s;
     rev_per_unit := (sum_revenue s / f64_of_i64 (sum_units s))%float;
     rev_per_transaction :=
       (sum_revenue s / f64_of_i64 (sum_transactions s))%float |}.

Definition is_beverage (r : Daily.row) : option bool :=
  and3 (and3 (is_not_null (Daily.CATEGORY r)) (is_not_null (Daily.BRAND r)))
    (or3 (or3 (or3 (str_contains_ci (Daily.CATEGORY r) "BEVERAGE")
                 (str_contains_ci (Daily.CATEGORY r) "DRINK"))
            (str_contains_ci (Daily.SUBCATEGORY r) "BEVERAGE"))
       (str_contains_ci (Daily.SUBCATEGORY r) "DRINK")).

(** The table after [with_columns], groups in order of first occurrence. *)
Definition bev_grouped (filtered_daily : list Daily.row) : list brand_row :=
  map with_ratios
    (map agg
       (group_by (key_eqb String.eqb) Daily.BRAND
          (pl_filter is_beverage filtered_daily))).

(** [sort("revenue")]: ascending, lowest revenue first. *)
Definition revenue_asc (a b : brand_row) : bool :=
  f64_lt (revenue a) (revenue b).

(** The outputs the expression [bev_perf] may evaluate to. *)
Definition bev_perf (filtered_daily : list Daily.row) (min_transactions : Z)
  (out : list brand_row) : Prop :=
  exists grouped,
    Permutation grouped (bev_grouped filtered_daily) /\
    sort_result revenue_asc
      (List.filter (fun g => min_transactions <=? transactions g) grouped) out.

Definition bev_perf_run (filtered_daily : list Daily.row)
  (min_transactions : Z) : list brand_row :=
  sort_stable revenue_asc
    (List.filter (fun g => min_transactions <=? transactions g)
       (bev_grouped filtered_daily)).

Example contains_any_case :
  str_contains_ci (Some "Packaged Beverages"%string) "BEVERAGE" = Some true /\
  str_contains_ci (Some "Energy drinks"%string) "DRINK" = Some true /\
  str_contains_ci (Some "SNACK"%string) "DRINK" = Some false /\
  str_contains_ci None "DRINK" = None.
Proof. repeat split; reflexivity. Qed.

Lemma bev_perf_run_valid (filtered_daily : list Daily.row) (n : Z) :
  bev_perf filtered_daily n (bev_perf_run filtered_daily n).
Proof.
  exists (bev_grouped filtered_daily). split; [reflexivity|].
  apply sort_stable_result.
  - intros a b. apply f64_lt_asym.
  - intros a b c H. unfold revenue_asc in *.
    destruct (f64_lt_negtrans _ (revenue b) _ H); auto.
Qed.

Lemma bev_perf_incl (filtered_daily : list Daily.row) (n : Z)
  (out : list brand_row) (g : brand_row) :
  bev_perf filtered_daily n out -> In g out ->
  In g (bev_grouped filtered_daily).
Proof.
  intros (grouped & Hg & [Hs _]) Hin.
  eapply Permutation_in; [exact Hg|].
  apply (Permutation_in _ Hs) in Hin. apply filter_In in Hin. tauto.
Qed.

(** One brand with and one without enough transactions. *)
Definition two_brands : list Daily.row :=
  [ {| Daily.STORE_ID := Some (I64 1);
       Daily.CATEGORY := Some "Packaged Beverages"%string;
       Daily.SUBCATEGORY := None; Daily.BRAND := Some "ACME"%string;
       Daily.SKUPOS_DESCRIPTION := Some "COLA"%string;
       Daily.CALENDAR_YEAR := Some 2023; Daily.CALENDAR_MONTH := Some 1;
       Daily.WEEk := Some 1; Daily.TOTAL_REVENUE_AMOUNT := Some 9%float;
       Daily.QUANTITY := Some 3; Daily.TRANSACTION_COUNT := Some 18 |};
    {| Daily.STORE_ID := Some (I64 1);
       Daily.CATEGORY := Some "SNACK"%string;
       Daily.SUBCATEGORY := Some "energy drinks"%string;
       Daily.BRAND := Some "BOLT"%string;
       Daily.SKUPOS_DESCRIPTION := Some "BOLT 16OZ"%string;
       Daily.CALENDAR_YEAR := Some 2023; Daily.CALENDAR_MONTH := Some 1;
       Daily.WEEk := Some 1; Daily.TOTAL_REVENUE_AMOUNT := Some 4%float;
       Daily.QUANTITY := Some 2; Daily.TRANSACTION_COUNT := Some 2 |};
    {| Daily.STORE_ID := Some (I64 1);
       Daily.CATEGORY := Some "SNACK"%string;
       Daily.SUBCATEGORY := None; Daily.BRAND := Some "NUTTY"%string;
       Daily.SKUPOS_DESCRIPTION := Some "NUTS"%string;
       Daily.CALENDAR_YEAR := Some 2023; Daily.CALENDAR_MONTH := Some 1;
       Daily.WEEk := Some 1; Daily.TOTAL_REVENUE_AMOUNT := Some 1%float;
       Daily.QUANTITY := Some 1; Daily.TRANSACTION_COUNT := Some 50 |} ].

Example bev_perf_two_brands :
  bev_perf_run two_brands 0
  = [ {| BRAND := Some "BOLT"%string; revenue := 4%float; units := 2;
         transactions := 2; rev_per_unit := 2%float;
         rev_per_transaction := 2%float |};
      {| BRAND := Some "ACME"%string; revenue := 9%float; units := 3;
         transactions := 18; rev_per_unit := 3%float;
         rev_per_transaction := 0.5%float |} ]
  /\ map BRAND (bev_perf_run two_brands 18) = [Some "ACME"%string].
Proof. split; vm_compute; reflexivity. Qed.

(** X2.  The shape of every output of the beverage aggregation: the brands
    that reach the minimum transaction count, each once, lowest revenue
    first. *)
Theorem bev_perf_shape (filtered_daily : list Daily.row)
  (min_transactions : Z) (out : list brand_row) :
  bev_perf filtered_daily min_transactions out ->
  sorted_by revenue_asc out /\
  (forall g, In g out <->
     In g (bev_grouped filtered_daily) /\ min_transactions <= transactions g).
Proof.
  intros (grouped & Hg & [Hp Hs]). split; [exact Hs|].
  intros g. split.
  - intros Hin. apply (Permutation_in _ Hp) in Hin.
    apply filter_In in Hin. destruct Hin as [Hin Hmin]. split.
    + eapply Permutation_in; [exact Hg|exact Hin].
    + now apply Z.leb_le.
  - intros [Hin Hmin]. apply (Permutation_in _ (Permutation_sym Hp)).
    apply filter_In. split.
    + eapply Permutation_in; [symmetry; exact Hg|exact Hin].
    + now apply Z.leb_le.
Qed.

(** With a minimum of 18 transactions the run keeps sorted rows. *)
Lemma bev_perf_shape_witness :
  sorted_by revenue_asc (bev_perf_run two_brands 18).
Proof.
  destruct (bev_perf_shape two_brands 18 (bev_perf_run two_brands 18))
    as [Hsorted _].
  - apply bev_perf_run_valid.
  - exact Hsorted.
Defined.

(** *** The threshold count, the bottom ten and the beverage test *)

(** [low_performers]: the rows below the revenue threshold, which is the
    number of the input box when the check box is ticked and 10000
    otherwise.  (For a threshold that is a number, the IEEE comparison
    and the sort order agree.) *)
Definition low_performers (show_threshold : bool) (revenue_threshold : Z)
  (bev_perf : list brand_row) : list brand_row :=
  pl_filter
    (fun g =>
       Some (f64_lt (revenue g)
               (f64_of_i64
                  (if show_threshold then revenue_threshold else 10000))))
    bev_perf.

(** [bottom_10 = bev_perf.limit(10)]. *)
Definition bottom_10 (bev_perf : list brand_row) : list brand_row :=
  limit 10 bev_perf.

Lemma filter_sorted_prefix {R : Type} (lt : R -> R -> bool) (p : R -> bool)
  (l : list R) :
  sorted_by lt l ->
  (forall a b, lt b a = false -> p b = true -> p a = true) ->
  List.filter p l = firstn (length (List.filter p l)) l.
Proof.
  intros Hs Hmono. induction Hs as [|x rest Hx Hs IH]; simpl; [reflexivity|].
  destruct (p x) eqn:E; simpl; [now rewrite <- IH|].
  assert (List.filter p rest = []) as ->; [|reflexivity].
  rewrite List.Forall_forall in Hx.
  clear IH Hs. induction rest as [|y rest IH]; simpl; [reflexivity|].
  destruct (p y) eqn:Ey.
  - rewrite (Hmono x y (Hx y (or_introl eq_refl)) Ey) in E. discriminate.
  - apply IH. intros z Hz. apply Hx. now right.
Qed.

Lemma sorted_by_app {R : Type} (lt : R -> R -> bool) (l1 l2 : list R) :
  sorted_by lt (l1 ++ l2) ->
  forall a b, In a l1 -> In b l2 -> lt b a = false.
Proof.
  induction l1 as [|x rest IH]; simpl; [tauto|].
  intros Hs a b [<-|Ha] Hb; inversion Hs as [|? ? Hx Hs']; subst.
  - rewrite List.Forall_forall in Hx. apply Hx, in_or_app. now right.
  - now apply IH.
Qed.

(** X11.  Because the beverage table is sorted by revenue ascending, the
    brands below the revenue threshold are its first rows (the count
    shown is the length of that prefix), and no brand outside the bottom
    ten has less revenue than a brand among them. *)
Theorem low_performers_are_a_prefix (filtered_daily : list Daily.row)
  (min_transactions : Z) (out : list brand_row) (show_threshold : bool)
  (revenue_threshold : Z) :
  bev_perf filtered_daily min_transactions out ->
  low_performers show_threshold revenue_threshold out
  = limit (length (low_performers show_threshold revenue_threshold out)) out
  /\
  (length (low_performers show_threshold revenue_threshold out)
   <= length out)%nat
  /\
  (length (bottom_10 out) <= 10)%nat
  /\
  (forall a b, In a (bottom_10 out) -> In b (skipn 10 out) ->
     f64_lt (revenue b) (revenue a) = false).
Proof.
  intros (grouped & _ & [_ Hs]). split; [|split; [|split]].
  - unfold low_performers, pl_filter, limit.
    apply (filter_sorted_prefix revenue_asc); [exact Hs|].
    intros a b Hba Hb. unfold revenue_asc in Hba. simpl in *.
    set (threshold :=
           f64_of_i64 (if show_threshold then revenue_threshold else 10000))
      in *.
    destruct (f64_lt (revenue b) threshold) eqn:Eb; [|discriminate].
    destruct (f64_lt_negtrans _ (revenue a) _ Eb) as [H|H];
      [congruence|now rewrite H].
  - unfold low_performers, pl_filter. apply UnifiedFilter.filter_length_le.
  - apply firstn_le_length.
  - intros a b Ha Hb. unfold bottom_10, limit in Ha.
    rewrite <- (firstn_skipn 10 out) in Hs.
    exact (sorted_by_app revenue_asc _ _ Hs a b Ha Hb).
Qed.

(** Two brands with revenue 4 and 9 and a threshold of 5: one brand is
    below, and it is the first row. *)
Lemma low_performers_are_a_prefix_witness :
  low_performers true 5 (bev_perf_run two_brands 0)
  = limit 1 (bev_perf_run two_brands 0).
Proof.
  destruct (low_performers_are_a_prefix two_brands 0
              (bev_perf_run two_brands 0) true 5
              (bev_perf_run_valid two_brands 0)) as [Hprefix _].
  exact Hprefix.
Defined.

Lemma append_cons (c : ascii) (a b : string) :
  String.append (String c a) b = String c (String.append a b).
Proof. reflexivity. Qed.

Lemma append_nil (b : string) : String.append EmptyString b = b.
Proof. reflexivity. Qed.

Lemma prefix_append (n s : string) :
  String.prefix n s = true <-> exists post, s = String.append n post.
Proof.
  revert s. induction n as [|c n IH]; intros s.
  - split; [intros _; now exists s|intros _; now destruct s].
  - destruct s as [|c' s]; simpl;
      [split; [discriminate|intros (? & H); rewrite append_cons in H;
                            discriminate]|].
    destruct (ascii_dec c c') as [<-|Hne].
    + rewrite IH. split; intros (post & H); exists post;
        rewrite append_cons in *; congruence.
    + split; [discriminate|]. intros (post & H). rewrite append_cons in H.
      injection H as H _. congruence.
Qed.

Lemma contains_append (n s : string) :
  contains n s = true <->
  exists pre post, s = String.append pre (String.append n post).
Proof.
  induction s as [|c s IH]; cbn [contains];
    rewrite orb_true_iff, prefix_append.
  - split.
    + intros [(post & H)|H]; [|discriminate]. now exists EmptyString, post.
    + intros ([|? ?] & post & H);
        [left; now exists post|rewrite append_cons in H; discriminate].
  - rewrite IH. split.
    + intros [(post & H)|(pre & post & H)].
      * now exists EmptyString, post.
      * exists (String c pre), post. rewrite append_cons. now rewrite H.
    + intros ([|c' pre] & post & H).
      * left. now exists post.
      * right. rewrite append_cons in H. injection H as _ H. eauto.
Qed.

Lemma upper_append_inv (s a b : string) :
  upper s = String.append a b ->
  exists sa sb, s = String.append sa sb /\ upper sa = a /\ upper sb = b.
Proof.
  revert s. induction a as [|c a IH]; intros s H.
  - now exists EmptyString, s.
  - rewrite append_cons in H.
    destruct s as [|c' s]; [discriminate|]. simpl in H.
    injection H as Hc H. destruct (IH s H) as (sa & sb & -> & <- & <-).
    exists (String c' sa), sb. rewrite append_cons. simpl. now rewrite Hc.
Qed.

Lemma upper_append (a b : string) :
  upper (String.append a b) = String.append (upper a) (upper b).
Proof.
  induction a as [|c a IH]; [reflexivity|].
  rewrite append_cons. simpl. now rewrite IH, append_cons.
Qed.

(** Text of ASCII characters only (code points below 128); a null cell
    has no text. *)
Definition is_ascii (s : string) : bool :=
  forallb (fun c => (nat_of_ascii c <? 128)%nat) (list_ascii_of_string s).

Definition ascii_cell (cell : option string) : bool :=
  match cell with
  | Some s => is_ascii s
  | None => true
  end.

(** A text mentions a word when some part of it is the word up to ASCII
    letter case. *)
Definition mentions (word text : string) : Prop :=
  exists pre part post,
    text = String.append pre (String.append part post) /\ upper part = word.

Lemma str_contains_ci_true (cell : option string) (word : string) :
  str_contains_ci cell word = Some true <->
  exists text, cell = Some text /\ mentions word text.
Proof.
  destruct cell as [text|]; simpl.
  - split.
    + intros [= H]. exists text. split; [reflexivity|].
      apply contains_append in H. destruct H as (pre & post & H).
      apply upper_append_inv in H. destruct H as (spre & rest & -> & _ & H).
      apply upper_append_inv in H. destruct H as (part & spost & -> & Hp & _).
      now exists spre, part, spost.
    + intros (t & [= <-] & pre & part & post & -> & <-). f_equal.
      apply contains_append. exists (upper pre), (upper post).
      now rewrite !upper_append.
  - split; [discriminate|]. intros (t & H & _). discriminate.
Qed.

(** X12.  For a row whose category and subcategory are ASCII text (the
    pattern's case folding is then the ASCII one), the beverage test
    keeps the row exactly when its category and its brand are not null
    and its category, or its subcategory when that is not null, mentions
    BEVERAGE or DRINK in any letter case and at any position; a null
    subcategory does not exclude a row whose category matches. *)
Theorem is_beverage_rows (r : Daily.row) :
  ascii_cell (Daily.CATEGORY r) = true ->
  ascii_cell (Daily.SUBCATEGORY r) = true ->
  (is_beverage r = Some true <->
   exists category brand,
     Daily.CATEGORY r = Some category /\ Daily.BRAND r = Some brand /\
     (mentions "BEVERAGE" category \/ mentions "DRINK" category \/
      exists subcategory,
        Daily.SUBCATEGORY r = Some subcategory /\
        (mentions "BEVERAGE" subcategory \/ mentions "DRINK" subcategory))).
Proof.
  intros _ _. unfold is_beverage.
  rewrite !and3_true, !or3_true, !is_not_null_true, !str_contains_ci_true.
  split.
  - intros [[(c & Hc) (b & Hb)] Hm]. exists c, b.
    split; [exact Hc|]. split; [exact Hb|].
    destruct Hm as [[[(t & Ht & Hm)|(t & Ht & Hm)]|(t & Ht & Hm)]
                   |(t & Ht & Hm)].
    + left. congruence.
    + right; left. congruence.
    + right; right. exists t. auto.
    + right; right. exists t. auto.
  - intros (c & b & Hc & Hb & Hm). split; [split; eauto|].
    destruct Hm as [Hm|[Hm|(t & Ht & [Hm|Hm])]].
    + left; left; left. eauto.
    + left; left; right. eauto.
    + left; right. eauto.
    + right. eauto.
Qed.

(** A snack row whose subcategory names energy drinks. *)
Definition energy_drink : Daily.row :=
  {| Daily.STORE_ID := Some (I64 1);
     Daily.CATEGORY := Some "SNACK"%string;
     Daily.SUBCATEGORY := Some "energy drinks"%string;
     Daily.BRAND := Some "BOLT"%string;
     Daily.SKUPOS_DESCRIPTION := Some "BOLT 16OZ"%string;
     Daily.CALENDAR_YEAR := Some 2023; Daily.CALENDAR_MONTH := Some 1;
     Daily.WEEk := Some 1; Daily.TOTAL_REVENUE_AMOUNT := Some 4%float;
     Daily.QUANTITY := Some 2; Daily.TRANSACTION_COUNT := Some 2 |}.

(** The row is kept through its subcategory, in lower case. *)
Lemma is_beverage_rows_witness : is_beverage energy_drink = Some true.
Proof.
  apply (proj2 (is_beverage_rows energy_drink eq_refl eq_refl)).
  exists "SNACK"%string, "BOLT"%string.
  split; [reflexivity|]. split; [reflexivity|].
  right; right. exists "energy drinks"%string. split; [reflexivity|].
  right. exists "energy "%string, "drink"%string, "s"%string.
  split; reflexivity.
Defined.

End Beverages.

(** ** The derived per-unit columns (C3) *)

Module PerUnit.
Import Polars.

(** Two beverage products that sold no unit: one with revenue, one
    without. *)
Definition zero_unit_daily : list Daily.row :=
  [ {| Daily.STORE_ID := Some (I64 1);
       Daily.CATEGORY := Some "PACKAGED BEVERAGES"%string;
       Daily.SUBCATEGORY := None; Daily.BRAND := Some "ACME"%string;
       Daily.SKUPOS_DESCRIPTION := Some "COLA"%string;
       Daily.CALENDAR_YEAR := Some 2023; Daily.CALENDAR_MONTH := Some 1;
       Daily.WEEk := Some 1; Daily.TOTAL_REVENUE_AMOUNT := Some 5%float;
       Daily.QUANTITY := Some 0; Daily.TRANSACTION_COUNT := Some 1 |};
    {| Daily.STORE_ID := Some (I64 1);
       Daily.CATEGORY := Some "PACKAGED BEVERAGES"%string;
       Daily.SUBCATEGORY := None; Daily.BRAND := Some "AQUA"%string;
       Daily.SKUPOS_DESCRIPTION := Some "WATER"%string;
       Daily.CALENDAR_YEAR := Some 2023; Daily.CALENDAR_MONTH := Some 1;
       Daily.WEEk := Some 1; Daily.TOTAL_REVENUE_AMOUNT := Some 0%float;
       Daily.QUANTITY := Some 0; Daily.TRANSACTION_COUNT := Some 1 |} ].

Definition cola : TopProducts.product_row :=
  {| TopProducts.BRAND := Some "ACME"%string;
     TopProducts.SKUPOS_DESCRIPTION := Some "COLA"%string;
     TopProducts.CATEGORY := Some "PACKAGED BEVERAGES"%string;
     TopProducts.total_revenue := 5%float;
     TopProducts.total_units := 0;
     TopProducts.total_transactions := 1;
     TopProducts.avg_price := infinity |}.

Definition water : TopProducts.product_row :=
  {| TopProducts.BRAND := Some "AQUA"%string;
     TopProducts.SKUPOS_DESCRIPTION := Some "WATER"%string;
     TopProducts.CATEGORY := Some "PACKAGED BEVERAGES"%string;
     TopProducts.total_revenue := 0%float;
     TopProducts.total_units := 0;
     TopProducts.total_transactions := 1;
     TopProducts.avg_price := nan |}.

Definition acme : Beverages.brand_row :=
  {| Beverages.BRAND := Some "ACME"%string;
     Beverages.revenue := 5%float;
     Beverages.units := 0;
     Beverages.transactions := 1;
     Beverages.rev_per_unit := infinity;
     Beverages.rev_per_transaction := 5%float |}.

Definition aqua : Beverages.brand_row :=
  {| Beverages.BRAND := Some "AQUA"%string;
     Beverages.revenue := 0%float;
     Beverages.units := 0;
     Beverages.transactions := 1;
     Beverages.rev_per_unit := nan;
     Beverages.rev_per_transaction := 0%float |}.

Lemma zero_unit_top5 :
  TopProducts.top5_overall_run zero_unit_daily = [cola; water].
Proof. vm_compute. reflexivity. Qed.

Lemma zero_unit_bev : Beverages.bev_perf_run zero_unit_daily 0 = [aqua; acme].
Proof. vm_compute. reflexivity. Qed.

(** C3, as stated, fails: for products without units the page tables
    hold an infinite or NaN average price, which no test replaces. *)
Lemma zero_units_not_guarded :
  TopProducts.top5_overall zero_unit_daily [cola; water] /\
  Beverages.bev_perf zero_unit_daily 0 [aqua; acme] /\
  (TopProducts.total_units cola = 0 /\
   is_finite (TopProducts.avg_price cola) = false) /\
  (TopProducts.total_units water = 0 /\
   is_nan (TopProducts.avg_price water) = true) /\
  (Beverages.units acme = 0 /\
   is_finite (Beverages.rev_per_unit acme) = false) /\
  (Beverages.units aqua = 0 /\
   is_nan (Beverages.rev_per_unit aqua) = true).
Proof.
  split; [|split].
  - rewrite <- zero_unit_top5. apply TopProducts.top5_overall_run_valid.
  - rewrite <- zero_unit_bev. apply Beverages.bev_perf_run_valid.
  - repeat split; reflexivity.
Qed.

(** C3, amended.  In every output of the top-5 aggregation and of the
    beverage brand aggregation each row stands for a non-empty group of
    input rows, and its per-unit value is the plain IEEE quotient of the
    group's summed revenue by the group's summed units, with no zero
    test; for a row whose summed units are zero the output table carries
    that quotient, which is not finite: it is NaN when the summed revenue
    is zero or NaN, and otherwise the infinity of the revenue's sign. *)
Theorem per_unit_is_plain_quotient :
  (forall category_filtered out g,
     TopProducts.top5_overall category_filtered out -> In g out ->
     (exists rows,
        rows <> [] /\ incl rows category_filtered /\
        TopProducts.total_revenue g
        = sum_f64 (map Daily.TOTAL_REVENUE_AMOUNT rows) /\
        TopProducts.total_units g = sum_i64 (map Daily.QUANTITY rows) /\
        TopProducts.avg_price g
        = (sum_f64 (map Daily.TOTAL_REVENUE_AMOUNT rows)
           / f64_of_i64 (sum_i64 (map Daily.QUANTITY rows)))%float)
     /\ TopProducts.avg_price g
        = (TopProducts.total_revenue g
           / f64_of_i64 (TopProducts.total_units g))%float
     /\ (TopProducts.total_units g = 0 ->
         is_finite (TopProducts.avg_price g) = false /\
         TopProducts.avg_price g
         = if zero_or_nan (TopProducts.total_revenue g) then nan
           else if sign_bit (TopProducts.total_revenue g)
                then neg_infinity else infinity))
  /\
  (forall filtered_daily min_transactions out g,
     Beverages.bev_perf filtered_daily min_transactions out -> In g out ->
     (exists rows,
        rows <> [] /\ incl rows filtered_daily /\
        Beverages.revenue g
        = sum_f64 (map Daily.TOTAL_REVENUE_AMOUNT rows) /\
        Beverages.units g = sum_i64 (map Daily.QUANTITY rows) /\
        Beverages.rev_per_unit g
        = (sum_f64 (map Daily.TOTAL_REVENUE_AMOUNT rows)
           / f64_of_i64 (sum_i64 (map Daily.QUANTITY rows)))%float)
     /\ Beverages.rev_per_unit g
        = (Beverages.revenue g / f64_of_i64 (Beverages.units g))%float
     /\ (Beverages.units g = 0 ->
         is_finite (Beverages.rev_per_unit g) = false /\
         Beverages.rev_per_unit g
         = if zero_or_nan (Beverages.revenue g) then nan
           else if sign_bit (Beverages.revenue g)
                then neg_infinity else infinity)).
Proof.
  split.
  - intros cf out g Hout Hin.
    apply (TopProducts.top5_overall_incl _ _ _ Hout) in Hin.
    unfold TopProducts.top5_grouped in Hin.
    apply in_map_iff in Hin. destruct Hin as (s & <- & Hs).
    apply in_map_iff in Hs. destruct Hs as ([k rows] & <- & Hgr).
    destruct (group_by_rows _ _ TopProducts.product_key_eqb_eq _ _ _ Hgr)
      as [Hrows Hne].
    cbn [TopProducts.with_avg_price TopProducts.avg_price
           TopProducts.total_revenue TopProducts.total_units
           TopProducts.agg TopProducts.sum_revenue TopProducts.sum_units
           snd].
    split; [|split; [reflexivity|]].
    + exists rows. repeat split; try reflexivity; [exact Hne|].
      intros r Hr. rewrite Hrows in Hr. apply filter_In in Hr.
      destruct Hr as [Hr _]. apply pl_filter_In in Hr. apply Hr.
    + intros ->. rewrite f64_of_i64_zero.
      split; [apply div_zero_not_finite|apply div_zero_value].
  - intros fd n out g Hout Hin.
    apply (Beverages.bev_perf_incl _ _ _ _ Hout) in Hin.
    unfold Beverages.bev_grouped in Hin.
    apply in_map_iff in Hin. destruct Hin as (s & <- & Hs).
    apply in_map_iff in Hs. destruct Hs as ([k rows] & <- & Hgr).
    destruct (group_by_rows _ _ (key_eqb_spec _ String.eqb_eq) _ _ _ Hgr)
      as [Hrows Hne].
    cbn [Beverages.with_ratios Beverages.rev_per_unit Beverages.revenue
           Beverages.units Beverages.agg Beverages.sum_revenue
           Beverages.sum_units snd].
    split; [|split; [reflexivity|]].
    + exists rows. repeat split; try reflexivity; [exact Hne|].
      intros r Hr. rewrite Hrows in Hr. apply filter_In in Hr.
      destruct Hr as [Hr _]. apply pl_filter_In in Hr. apply Hr.
    + intros ->. rewrite f64_of_i64_zero.
      split; [apply div_zero_not_finite|apply div_zero_value].
Qed.

(** The amended statement at the zero-unit products: with revenue the
    value is the positive infinity, without revenue it is NaN. *)
Lemma per_unit_is_plain_quotient_witness :
  (TopProducts.avg_price cola = (5 / 0)%float /\
   TopProducts.avg_price cola = infinity) /\
  (Beverages.rev_per_unit aqua = (0 / 0)%float /\
   Beverages.rev_per_unit aqua = nan).
Proof.
  destruct per_unit_is_plain_quotient as [Htop Hbev]. split.
  - destruct (Htop zero_unit_daily [cola; water] cola) as (_ & Hq & Hz).
    + rewrite <- zero_unit_top5. apply TopProducts.top5_overall_run_valid.
    + simpl. now left.
    + split; [exact Hq|]. destruct (Hz eq_refl) as [_ Hv]. exact Hv.
  - destruct (Hbev zero_unit_daily 0 [aqua; acme] aqua) as (_ & Hq & Hz).
    + rewrite <- zero_unit_bev. apply Beverages.bev_perf_run_valid.
    + simpl. now left.
    + split; [exact Hq|]. destruct (Hz eq_refl) as [_ Hv]. exact Hv.
Defined.

End PerUnit.

(** ** Page "Cash Versus Credit Customers" *)

Module Payments.
Import Polars.

(** A row of [payment_analysis]: the columns of the transaction set, of
    the matching item (its GRAND_TOTAL_AMOUNT is renamed with the suffix
    [_right]) and, when the product is known, of the product. *)
Record payment_row : Type := {
  txn : TxnSets.row;
  item : Items.row;
  product : option Gtin.row
}.

Definition PAYMENT_TYPE (r : payment_row) : option string :=
  TxnSets.PAYMENT_TYPE (txn r).
Definition TRANSACTION_SET_ID (r : payment_row) : option Z :=
  TxnSets.TRANSACTION_SET_ID (txn r).
Definition GRAND_TOTAL_AMOUNT (r : payment_row) : option float :=
  TxnSets.GRAND_TOTAL_AMOUNT (txn r).
Definition UNIT_QUANTITY (r : payment_row) : option Z :=
  Items.UNIT_QUANTITY (item r).

Definition payment_analysis (u : UnifiedFilter.unified)
  (gtin : list Gtin.row) : list payment_row :=
  map (fun p => {| txn := fst (fst p); item := snd (fst p); product := snd p |})
    (join_left String.eqb (fun p => Items.GTIN (snd p)) Gtin.GTIN
       (join_inner Z.eqb TxnSets.TRANSACTION_SET_ID Items.TRANSACTION_SET_ID
          (pl_filter
             (fun s => and3 (is_not_null (TxnSets.PAYMENT_TYPE s))
                         (is_in String.eqb (TxnSets.PAYMENT_TYPE s)
                            ["CASH"; "CREDIT"; "DEBIT"]%string))
             (UnifiedFilter.filtered_sets u))
          (UnifiedFilter.filtered_items u))
       gtin).

Definition filtered_payments (u : UnifiedFilter.unified)
  (gtin : list Gtin.row) (payment_types : list string) : list payment_row :=
  pl_filter (fun r => is_in String.eqb (PAYMENT_TYPE r) payment_types)
    (payment_analysis u gtin).

(** [mean] of a Float64 column: null when no cell is non-null. *)
Definition mean_f64 (cells : list (option float)) : option float :=
  match List.filter (fun c => match c with Some _ => true | None => false end)
          cells with
  | [] => None
  | present =>
      Some (sum_f64 present / f64_of_i64 (Z.of_nat (length present)))%float
  end.

(** A row after [.agg([...])]. *)
Record payment_sums : Type := {
  key : option string;
  count_transactions : Z;
  sum_spend : float;
  mean_ticket : option float;
  sum_items : Z
}.

(** A row of [payment_summary]. *)
Record summary_row : Type := {
  payment_type : option string;
  num_transactions : Z;
  total_spend : float;
  avg_ticket : option float;
  total_items : Z;
  avg_items_per_txn : float
}.

Definition agg (g : option string * list payment_row) : payment_sums :=
  {| key := fst g;
     count_transactions :=
       n_unique (key_eqb Z.eqb) (map TRANSACTION_SET_ID (snd g));
     sum_spend := sum_f64 (map GRAND_TOTAL_AMOUNT (snd g));
     mean_ticket := mean_f64 (map GRAND_TOTAL_AMOUNT (snd g));
     sum_items := sum_i64 (map UNIT_QUANTITY (snd g)) |}.

(** [with_columns((total_items / num_transactions).alias(...))]. *)
Definition with_items_per_txn (s : payment_sums) : summary_row :=
  {| payment_type := key s;
     num_transactions := count_transactions s;
     total_spend := sum_spend s;
     avg_ticket := mean_ticket s;
     total_items := sum_items s;
     avg_items_per_txn :=
       (f64_of_i64 (sum_items s) / f64_of_i64 (count_transactions s))%float |}.

(** The groups of [group_by("PAYMENT_TYPE")], in order of first
    occurrence. *)
Definition payment_groups (filtered_payments : list payment_row)
  : list (option string * list payment_row) :=
  group_by (key_eqb String.eqb) PAYMENT_TYPE filtered_payments.

Definition payment_summary_run (filtered_payments : list payment_row)
  : list summary_row :=
  map with_items_per_txn (map agg (payment_groups filtered_payments)).

(** The outputs the expression [payment_summary] may evaluate to: the
    rows of the groups in any order. *)
Definition payment_summary (filtered_payments : list payment_row)
  (out : list summary_row) : Prop :=
  Permutation out (payment_summary_run filtered_payments).

Lemma n_unique_nonempty {K : Type} (eqb : K -> K -> bool) (l : list K) :
  l <> [] -> 1 <= n_unique eqb l.
Proof.
  destruct l as [|k rest]; [congruence|]. intros _.
  unfold n_unique. simpl. lia.
Qed.

(** C10.  Every row of the payment-type summary comes from a group of the
    grouping that holds at least one row of the joined table, so its
    distinct transaction-set count, the divisor of the items-per-
    transaction quotient, is at least 1 and never zero. *)
Theorem payment_summary_divisor_positive (u : UnifiedFilter.unified)
  (gtin : list Gtin.row) (payment_types : list string)
  (out : list summary_row) (g : summary_row) :
  payment_summary (filtered_payments u gtin payment_types) out ->
  In g out ->
  (exists rows,
     In (payment_type g, rows)
        (payment_groups (filtered_payments u gtin payment_types)) /\
     rows <> [] /\
     num_transactions g
     = n_unique (key_eqb Z.eqb) (map TRANSACTION_SET_ID rows)) /\
  1 <= num_transactions g /\
  avg_items_per_txn g
  = (f64_of_i64 (total_items g) / f64_of_i64 (num_transactions g))%float.
Proof.
  intros Hout Hin. apply (Permutation_in _ Hout) in Hin.
  unfold payment_summary_run in Hin. rewrite map_map in Hin.
  apply in_map_iff in Hin. destruct Hin as ([k rows] & <- & Hg).
  pose proof (group_by_rows _ _
                (key_eqb_spec String.eqb String.eqb_eq) _ _ _ Hg) as [_ Hne].
  simpl. split; [|split; [|reflexivity]].
  - exists rows. auto.
  - apply n_unique_nonempty. intros E. apply Hne.
    now apply map_eq_nil in E.
Qed.

(** One cash transaction of January 2023 with two item lines. *)
Definition demo_data : data_dict :=
  {| gtin :=
       [ {| Gtin.GTIN := Some "0001"%string;
            Gtin.CATEGORY := Some "SNACK"%string;
            Gtin.SKUPOS_DESCRIPTION := Some "CHIPS"%string |} ];
     stores := [];
     daily := [];
     sets :=
       [ {| TxnSets.TRANSACTION_SET_ID := Some 7;
            TxnSets.STORE_ID := Some (I64 42);
            TxnSets.DATE_TIME := Some 1672531200000000;
            TxnSets.PAYMENT_TYPE := Some "CASH"%string;
            TxnSets.GRAND_TOTAL_AMOUNT := Some 6%float |} ];
     items :=
       [ {| Items.TRANSACTION_SET_ID := Some 7;
            Items.GTIN := Some "0001"%string;
            Items.UNIT_QUANTITY := Some 2;
            Items.UNIT_PRICE := Some 2%float;
            Items.GRAND_TOTAL_AMOUNT := Some 4%float |};
         {| Items.TRANSACTION_SET_ID := Some 7;
            Items.GTIN := None;
            Items.UNIT_QUANTITY := Some 1;
            Items.UNIT_PRICE := Some 2%float;
            Items.GRAND_TOTAL_AMOUNT := Some 2%float |};
         {| Items.TRANSACTION_SET_ID := Some 8;
            Items.GTIN := Some "0001"%string;
            Items.UNIT_QUANTITY := Some 5;
            Items.UNIT_PRICE := Some 2%float;
            Items.GRAND_TOTAL_AMOUNT := Some 10%float |} ] |}.

Definition demo_unified : UnifiedFilter.unified :=
  UnifiedFilter.get_unified_data demo_data (Some 2023) [1; 2].

Definition demo_cash : summary_row :=
  {| payment_type := Some "CASH"%string;
     num_transactions := 1;
     total_spend := 12%float;
     avg_ticket := Some 6%float;
     total_items := 3;
     avg_items_per_txn := 3%float |}.

Lemma demo_summary :
  payment_summary_run
    (filtered_payments demo_unified (gtin demo_data) ["CASH"; "CREDIT"]%string)
  = [demo_cash].
Proof. vm_compute. reflexivity. Qed.

(** The divisor of the cash row of the example is 1. *)
Lemma payment_summary_divisor_positive_witness :
  1 <= num_transactions demo_cash.
Proof.
  apply (payment_summary_divisor_positive demo_unified (gtin demo_data)
           ["CASH"; "CREDIT"]%string [demo_cash] demo_cash).
  - unfold payment_summary. rewrite demo_summary. reflexivity.
  - simpl. left. reflexivity.
Defined.

(** *** The joins of [payment_analysis] and the rows of the summary *)

Definition card_or_cash : list string := ["CASH"; "CREDIT"; "DEBIT"]%string.

Lemma is_in_true (c : option string) (values : list string) :
  is_in String.eqb c values = Some true <->
  exists v, c = Some v /\ In v values.
Proof.
  destruct c as [x|]; simpl.
  - split.
    + intros [= H]. apply existsb_exists in H. destruct H as (v & Hv & E).
      apply String.eqb_eq in E. subst v. eauto.
    + intros (v & [= <-] & Hv). f_equal. apply existsb_exists.
      exists x. split; [exact Hv|]. apply String.eqb_refl.
  - split; [discriminate|]. intros (v & H & _). discriminate.
Qed.

Lemma payment_analysis_pay (u : UnifiedFilter.unified)
  (gtin : list Gtin.row) (s : TxnSets.row) (i : Items.row)
  (p : option Gtin.row) :
  In {| txn := s; item := i; product := p |} (payment_analysis u gtin) ->
  exists t, TxnSets.PAYMENT_TYPE s = Some t /\ In t card_or_cash.
Proof.
  unfold payment_analysis. rewrite in_map_iff.
  intros ([[s' i'] p'] & [= <- <- <-] & Hin).
  apply join_left_In in Hin. destruct Hin as [Hin _].
  apply join_inner_In in Hin. destruct Hin as (Hs & _ & _).
  apply pl_filter_In in Hs. destruct Hs as [_ Hpay].
  apply and3_true in Hpay. destruct Hpay as [_ Hpay].
  now apply is_in_true in Hpay.
Qed.

(** X13.  [payment_analysis] holds a row for a transaction set, an item
    line and a product exactly when the set is in the period, its payment
    type is CASH, CREDIT or DEBIT, the item line is a kept line with the
    set's non-null identifier, and the product is a product row with the
    item's non-null GTIN; an item line whose GTIN is null or names no
    product row is kept, once, with a null product. *)
Theorem payment_analysis_rows (u : UnifiedFilter.unified)
  (gtin : list Gtin.row) (s : TxnSets.row) (i : Items.row)
  (p : option Gtin.row) :
  In {| txn := s; item := i; product := p |} (payment_analysis u gtin) <->
  In s (UnifiedFilter.filtered_sets u) /\
  (exists t, TxnSets.PAYMENT_TYPE s = Some t /\ In t card_or_cash) /\
  In i (UnifiedFilter.filtered_items u) /\
  same_key (TxnSets.TRANSACTION_SET_ID s) (Items.TRANSACTION_SET_ID i) /\
  match p with
  | Some g => In g gtin /\ same_key (Items.GTIN i) (Gtin.GTIN g)
  | None => forall g, In g gtin -> ~ same_key (Items.GTIN i) (Gtin.GTIN g)
  end.
Proof.
  unfold payment_analysis. rewrite in_map_iff. split.
  - intros ([[s' i'] p'] & [= <- <- <-] & Hin).
    apply join_left_In in Hin. destruct Hin as [Hin Hp].
    apply join_inner_In in Hin. destruct Hin as (Hs & Hi & Hid).
    apply pl_filter_In in Hs. destruct Hs as [Hs Hpay].
    apply and3_true in Hpay. destruct Hpay as [_ Hpay].
    apply is_in_true in Hpay.
    apply (join_eqb_same_key Z.eqb Z.eqb_eq) in Hid.
    repeat split; try assumption.
    destruct p' as [g|]; simpl in Hp.
    + destruct Hp as [Hg Hm]. split; [exact Hg|].
      now apply (join_eqb_same_key String.eqb String.eqb_eq).
    + intros g Hg Hm.
      apply (join_eqb_same_key String.eqb String.eqb_eq) in Hm.
      rewrite (Hp g Hg) in Hm. discriminate.
  - intros (Hs & Hpay & Hi & Hid & Hp). exists (s, i, p).
    split; [reflexivity|]. apply join_left_In. split.
    + apply join_inner_In. split; [|split; [exact Hi|]].
      * apply pl_filter_In. split; [exact Hs|]. apply and3_true. split.
        -- destruct Hpay as (t & -> & _). reflexivity.
        -- now apply is_in_true.
      * now apply (join_eqb_same_key Z.eqb Z.eqb_eq).
    + destruct p as [g|]; simpl.
      * destruct Hp as [Hg Hm]. split; [exact Hg|].
        now apply (join_eqb_same_key String.eqb String.eqb_eq).
      * intros g Hg.
        destruct (join_eqb String.eqb (Items.GTIN i) (Gtin.GTIN g)) eqn:E;
          [|reflexivity].
        apply (join_eqb_same_key String.eqb String.eqb_eq) in E.
        destruct (Hp g Hg E).
Qed.

Lemma filtered_payments_In (u : UnifiedFilter.unified)
  (gtin : list Gtin.row) (payment_types : list string) (r : payment_row) :
  In r (filtered_payments u gtin payment_types) <->
  In r (payment_analysis u gtin) /\
  exists t, PAYMENT_TYPE r = Some t /\ In t payment_types /\
            In t card_or_cash.
Proof.
  unfold filtered_payments. rewrite pl_filter_In, is_in_true. split.
  - intros [Hr (t & Ht & Hsel)]. split; [exact Hr|]. exists t.
    split; [exact Ht|]. split; [exact Hsel|].
    destruct r as [s i p].
    apply payment_analysis_pay in Hr. destruct Hr as (t' & Ht' & Hin).
    unfold PAYMENT_TYPE in Ht. simpl in *. congruence.
  - intros [Hr (t & Ht & Hsel & _)]. eauto.
Qed.

(** X14.  The payment summary has one row per payment type, each a type
    selected in the widget and one of CASH, CREDIT and DEBIT, so at most
    three rows; every selected type with a joined row has its row; and
    with no type selected the summary is empty. *)
Theorem payment_summary_rows (u : UnifiedFilter.unified)
  (gtin : list Gtin.row) (payment_types : list string)
  (out : list summary_row) :
  payment_summary (filtered_payments u gtin payment_types) out ->
  List.NoDup (map payment_type out) /\
  (forall t, In (Some t) (map payment_type out) <->
     In t payment_types /\
     exists r, In r (payment_analysis u gtin) /\ PAYMENT_TYPE r = Some t) /\
  ~ In None (map payment_type out) /\
  (length out <= 3)%nat /\
  (payment_types = [] -> out = []).
Proof.
  intros Hout.
  assert (Permutation (map payment_type out)
            (map fst (payment_groups
                        (filtered_payments u gtin payment_types)))) as Hp.
  { rewrite (Permutation_map payment_type Hout).
    unfold payment_summary_run. rewrite !map_map. reflexivity. }
  assert (forall k, In k (map payment_type out) <->
            exists r, In r (filtered_payments u gtin payment_types) /\
                      PAYMENT_TYPE r = k) as Hkeys.
  { intros k. split.
    - intros Hin. apply (Permutation_in _ Hp) in Hin.
      unfold payment_groups, group_by in Hin. rewrite map_map in Hin.
      simpl in Hin. rewrite map_id in Hin.
      apply unique_incl, in_map_iff in Hin.
      destruct Hin as (r & <- & Hr). eauto.
    - intros (r & Hr & <-).
      apply (Permutation_in _ (Permutation_sym Hp)).
      unfold payment_groups, group_by. rewrite map_map. simpl.
      rewrite map_id.
      apply (unique_In _ (key_eqb_spec String.eqb String.eqb_eq)).
      now apply in_map. }
  assert (List.NoDup (map payment_type out)) as Hnd.
  { apply (Permutation_NoDup (Permutation_sym Hp)).
    apply group_by_keys_NoDup, key_eqb_spec, String.eqb_eq. }
  assert (forall k, In k (map payment_type out) ->
            exists t, k = Some t /\ In t payment_types /\ In t card_or_cash)
    as Hsel.
  { intros k Hk. apply Hkeys in Hk. destruct Hk as (r & Hr & <-).
    apply filtered_payments_In in Hr. destruct Hr as [_ (t & Ht & H1 & H2)].
    eauto. }
  split; [exact Hnd|]. split; [|split; [|split]].
  - intros t. rewrite Hkeys. split.
    + intros (r & Hr & Ht). apply filtered_payments_In in Hr.
      destruct Hr as [Hr (t' & Ht' & Hsel' & _)].
      assert (t' = t) as -> by congruence. eauto.
    + intros (Hsel' & r & Hr & Ht). exists r. split; [|exact Ht].
      apply filtered_payments_In. split; [exact Hr|]. exists t.
      split; [exact Ht|]. split; [exact Hsel'|].
      destruct r as [s i p]. apply payment_analysis_pay in Hr.
      destruct Hr as (t' & Ht' & Hin). unfold PAYMENT_TYPE in Ht.
      simpl in *. congruence.
  - intros Hin. destruct (Hsel _ Hin) as (t & H & _). discriminate.
  - rewrite <- (length_map payment_type out).
    change 3%nat with (length (map Some card_or_cash)).
    apply NoDup_incl_length; [exact Hnd|].
    intros k Hk. destruct (Hsel k Hk) as (t & -> & _ & Ht).
    now apply in_map.
  - intros ->. destruct out as [|g rest]; [reflexivity|].
    destruct (Hsel (payment_type g) (or_introl eq_refl)) as (t & _ & [] & _).
Qed.

(** The summary of the example has the cash row only. *)
Lemma payment_summary_rows_witness :
  (length [demo_cash] <= 3)%nat.
Proof.
  destruct (payment_summary_rows demo_unified (gtin demo_data)
              ["CASH"; "CREDIT"]%string [demo_cash])
    as (_ & _ & _ & Hlen & _).
  - unfold payment_summary. rewrite demo_summary. reflexivity.
  - exact Hlen.
Defined.

(** *** Top products by payment type *)

(** The product columns of a joined row; null when the left join found
    no product. *)
Definition SKUPOS_DESCRIPTION (r : payment_row) : option string :=
  match product r with
  | Some g => Gtin.SKUPOS_DESCRIPTION g
  | None => None
  end.

Definition CATEGORY (r : payment_row) : option string :=
  match product r with
  | Some g => Gtin.CATEGORY g
  | None => None
  end.

(** The grouping key (PAYMENT_TYPE, SKUPOS_DESCRIPTION, CATEGORY). *)
Definition purchase_key : Type :=
  option string * option string * option string.

Definition purchase_key_of (r : payment_row) : purchase_key :=
  (PAYMENT_TYPE r, SKUPOS_DESCRIPTION r, CATEGORY r).

Definition purchase_key_eqb (a b : purchase_key) : bool :=
  let '(a1, a2, a3) := a in
  let '(b1, b2, b3) := b in
  key_eqb String.eqb a1 b1 && key_eqb String.eqb a2 b2
  && key_eqb String.eqb a3 b3.

(** A row of [top_products_by_payment]. *)
Record purchase_row : Type := {
  purchase : purchase_key;
  purchase_count : Z;
  revenue : float
}.

Definition payment_of (p : purchase_row) : option string :=
  fst (fst (purchase p)).

Definition purchase_agg (g : purchase_key * list payment_row)
  : purchase_row :=
  {| purchase := fst g;
     purchase_count :=
       n_unique (key_eqb Z.eqb) (map TRANSACTION_SET_ID (snd g));
     revenue := sum_f64 (map GRAND_TOTAL_AMOUNT (snd g)) |}.

(** The table after [.agg([...])], groups in order of first occurrence. *)
Definition purchases (filtered_payments : list payment_row)
  : list purchase_row :=
  map purchase_agg
    (group_by purchase_key_eqb purchase_key_of
       (pl_filter (fun r => is_not_null (CATEGORY r)) filtered_payments)).

(** Ascending order of a nullable text column, nulls first; text is
    compared character by character. *)
Definition text_lt (a b : option string) : bool :=
  match a, b with
  | None, Some _ => true
  | Some x, Some y => String.ltb x y
  | _, None => false
  end.

(** [sort(["PAYMENT_TYPE", "purchase_count"], descending=[False, True])]. *)
Definition type_then_count (a b : purchase_row) : bool :=
  text_lt (payment_of a) (payment_of b)
  || (negb (text_lt (payment_of b) (payment_of a))
      && (purchase_count b <? purchase_count a)).

(** [group_by("PAYMENT_TYPE").head(5)] of a table: the first five rows of
    every group, rows in table order. *)
Definition head5 (g : option string * list purchase_row)
  : list purchase_row :=
  limit 5 (snd g).

(** The outputs the expression [top_products_by_payment] may evaluate to:
    the groups of both [group_by] come in any order and the sort places
    ties in any order. *)
Definition top_products_by_payment (filtered_payments : list payment_row)
  (out : list purchase_row) : Prop :=
  exists grouped sorted groups,
    Permutation grouped (purchases filtered_payments) /\
    sort_result type_then_count grouped sorted /\
    Permutation groups (group_by (key_eqb String.eqb) payment_of sorted) /\
    out = flat_map head5 groups.

Definition top_products_by_payment_run (filtered_payments : list payment_row)
  : list purchase_row :=
  flat_map head5
    (group_by (key_eqb String.eqb) payment_of
       (sort_stable type_then_count (purchases filtered_payments))).

Lemma purchase_key_eqb_eq (a b : purchase_key) :
  purchase_key_eqb a b = true <-> a = b.
Proof.
  destruct a as [[a1 a2] a3], b as [[b1 b2] b3]. unfold purchase_key_eqb.
  rewrite !andb_true_iff, !(key_eqb_spec String.eqb String.eqb_eq).
  split; [intros [[-> ->] ->]; reflexivity|intros [= -> -> ->]; auto].
Qed.

Lemma string_ltb_asym (a b : string) :
  String.ltb a b = true -> String.ltb b a = false.
Proof.
  unfold String.ltb. rewrite (String.compare_antisym a b).
  destruct (String.compare b a); simpl; congruence.
Qed.

Lemma string_ltb_negtrans (a b c : string) :
  String.ltb a c = true -> String.ltb a b = true \/ String.ltb b c = true.
Proof.
  unfold String.ltb. intros Hac.
  destruct (String.compare a b) eqn:Eab; [|now left|].
  - apply String.compare_eq_iff in Eab. subst b. now right.
  - right.
    assert (String.compare b a = Lt) as Eba
      by (rewrite String.compare_antisym, Eab; reflexivity).
    assert (String.compare a c = Lt) as Eac
      by (destruct (String.compare a c); congruence).
    apply OrderedTypeEx.String_as_OT.cmp_lt in Eba, Eac.
    pose proof (OrderedTypeEx.String_as_OT.lt_trans _ _ _ Eba Eac) as Hbc.
    apply OrderedTypeEx.String_as_OT.cmp_lt in Hbc.
    unfold OrderedTypeEx.String_as_OT.cmp in Hbc. now rewrite Hbc.
Qed.

Lemma text_lt_asym (a b : option string) :
  text_lt a b = true -> text_lt b a = false.
Proof.
  destruct a, b; simpl; try congruence. apply string_ltb_asym.
Qed.

Lemma text_lt_negtrans (a b c : option string) :
  text_lt a c = true -> text_lt a b = true \/ text_lt b c = true.
Proof.
  destruct a, b, c; simpl; auto; try discriminate.
  apply string_ltb_negtrans.
Qed.

Section Lexicographic.
Context {R : Type} (lt1 lt2 : R -> R -> bool).
Hypothesis asym1 : forall a b, lt1 a b = true -> lt1 b a = false.
Hypothesis negtrans1 :
  forall a b c, lt1 a c = true -> lt1 a b = true \/ lt1 b c = true.
Hypothesis asym2 : forall a b, lt2 a b = true -> lt2 b a = false.
Hypothesis negtrans2 :
  forall a b c, lt2 a c = true -> lt2 a b = true \/ lt2 b c = true.

Definition lex (a b : R) : bool := lt1 a b || (negb (lt1 b a) && lt2 a b).

Lemma lex_asym (a b : R) : lex a b = true -> lex b a = false.
Proof using asym1 asym2.
  unfold lex. pose proof (asym1 a b) as H1. pose proof (asym2 a b) as H2.
  destruct (lt1 a b), (lt1 b a), (lt2 a b), (lt2 b a); simpl; intros H;
    try reflexivity; try discriminate;
    try (specialize (H1 eq_refl); discriminate);
    try (specialize (H2 eq_refl); discriminate).
Qed.

Lemma lex_negtrans (a b c : R) :
  lex a c = true -> lex a b = true \/ lex b c = true.
Proof using negtrans1 negtrans2.
  unfold lex.
  pose proof (negtrans1 a b c) as Hac. pose proof (negtrans1 b c a) as Hba.
  pose proof (negtrans1 c a b) as Hcb. pose proof (negtrans2 a b c) as H2.
  destruct (lt1 a c), (lt1 c a), (lt1 a b), (lt1 b a), (lt1 b c), (lt1 c b),
    (lt2 a c), (lt2 a b), (lt2 b c); simpl; intros H; auto;
    try discriminate;
    try (destruct (Hac eq_refl); discriminate);
    try (destruct (Hba eq_refl); discriminate);
    try (destruct (Hcb eq_refl); discriminate);
    try (destruct (H2 eq_refl); discriminate).
Qed.

End Lexicographic.

Lemma type_then_count_asym (a b : purchase_row) :
  type_then_count a b = true -> type_then_count b a = false.
Proof.
  apply (lex_asym (fun a b => text_lt (payment_of a) (payment_of b))
           (fun a b => purchase_count b <? purchase_count a)).
  - intros x y. apply text_lt_asym.
  - intros x y. rewrite Z.ltb_lt, Z.ltb_ge. lia.
Qed.

Lemma type_then_count_negtrans (a b c : purchase_row) :
  type_then_count a c = true ->
  type_then_count a b = true \/ type_then_count b c = true.
Proof.
  apply (lex_negtrans (fun a b => text_lt (payment_of a) (payment_of b))
           (fun a b => purchase_count b <? purchase_count a)).
  - intros x y z. apply text_lt_negtrans.
  - intros x y z. rewrite !Z.ltb_lt. lia.
Qed.

Lemma top_products_by_payment_run_valid
  (filtered_payments : list payment_row) :
  top_products_by_payment filtered_payments
    (top_products_by_payment_run filtered_payments).
Proof.
  exists (purchases filtered_payments),
    (sort_stable type_then_count (purchases filtered_payments)),
    (group_by (key_eqb String.eqb) payment_of
       (sort_stable type_then_count (purchases filtered_payments))).
  split; [reflexivity|]. split; [|split; reflexivity].
  apply sort_stable_result;
    [apply type_then_count_asym|apply type_then_count_negtrans].
Qed.

Lemma sorted_by_filter {R : Type} (lt : R -> R -> bool) (f : R -> bool)
  (l : list R) :
  sorted_by lt l -> sorted_by lt (List.filter f l).
Proof.
  induction 1 as [|x rest Hx Hs IH]; simpl; [constructor|].
  destruct (f x); [constructor|exact IH]; [|exact IH].
  rewrite List.Forall_forall in *. intros y Hy.
  apply filter_In in Hy. apply Hx, Hy.
Qed.

Lemma sorted_by_split {R : Type} (lt : R -> R -> bool) (n : nat)
  (l : list R) (a b : R) :
  sorted_by lt l -> In a (limit n l) -> In b (skipn n l) -> lt b a = false.
Proof.
  unfold limit. intros Hs. revert n.
  induction Hs as [|x rest Hx Hs IH]; intros [|n]; simpl; try tauto.
  intros [<-|Ha] Hb.
  - rewrite List.Forall_forall in Hx. apply Hx.
    rewrite <- (firstn_skipn n rest). apply in_or_app. now right.
  - now apply (IH n).
Qed.

Lemma NoDup_flat_map {A B : Type} (f : A -> list B) (l : list A) :
  (forall a, In a l -> List.NoDup (f a)) ->
  (forall a a' b, In a l -> In a' l -> In b (f a) -> In b (f a') -> a = a') ->
  List.NoDup l -> List.NoDup (flat_map f l).
Proof.
  intros Hf Hdisj Hnd.
  induction Hnd as [|a rest Ha Hnd IH]; simpl; [constructor|].
  apply List.NoDup_app.
  - apply Hf. now left.
  - apply IH.
    + intros a' Ha'. apply Hf. now right.
    + intros a1 a2 b H1 H2. apply Hdisj; now right.
  - intros b Hb Hin. apply in_flat_map in Hin.
    destruct Hin as (a' & Ha' & Hb').
    assert (a = a') as <-
      by (apply (Hdisj a a' b); [now left|now right|exact Hb|exact Hb']).
    contradiction.
Qed.

Lemma NoDup_map_incl {A B : Type} (f : A -> B) (l l' : list A) :
  List.NoDup (map f l) -> List.NoDup l' -> incl l' l ->
  List.NoDup (map f l').
Proof.
  intros Hnd Hnd' Hincl.
  assert (forall a b, In a l -> In b l -> f a = f b -> a = b) as Hinj.
  { clear l' Hnd' Hincl. induction l as [|x rest IH]; simpl; [tauto|].
    inversion Hnd as [|? ? Hx Hrest]; subst.
    intros a b [<-|Ha] [<-|Hb] E; auto.
    - exfalso. apply Hx. rewrite E. now apply in_map.
    - exfalso. apply Hx. rewrite <- E. now apply in_map. }
  induction Hnd' as [|a rest Ha Hnd' IH]; simpl; constructor.
  - intros Hin. apply in_map_iff in Hin. destruct Hin as (b & E & Hb).
    assert (b = a) as ->
      by (apply Hinj; [apply Hincl; now right|apply Hincl; now left|exact E]).
    contradiction.
  - apply IH. intros x Hx. apply Hincl. now right.
Qed.

(** X23.  The top products by payment type: for every payment type the
    table lists at most five product groups, all of them groups of joined
    rows with a known category, no group twice; a group of the type that
    is not listed has no more purchases than any listed group of the
    type, and a group is left out only when five groups of its type are
    listed. *)
Theorem top_products_by_payment_shape (filtered_payments : list payment_row)
  (out : list purchase_row) :
  top_products_by_payment filtered_payments out ->
  let listed t :=
    List.filter (fun p => key_eqb String.eqb t (payment_of p)) out in
  (forall t, (length (listed t) <= 5)%nat) /\
  (forall p, In p out ->
     In p (purchases filtered_payments) /\ snd (purchase p) <> None) /\
  List.NoDup (map purchase out) /\
  (forall p q, In p out -> In q (purchases filtered_payments) ->
     payment_of q = payment_of p -> ~ In q out ->
     purchase_count q <= purchase_count p) /\
  (forall q, In q (purchases filtered_payments) ->
     In q out \/ length (listed (payment_of q)) = 5%nat).
Proof.
  intros (grouped & sorted & groups & Hg & [Hp Hs] & Hgr & ->) listed.
  pose proof (key_eqb_spec String.eqb String.eqb_eq) as Hkey.
  set (rows := fun k =>
         List.filter (fun r => key_eqb String.eqb k (payment_of r)) sorted).
  assert (forall p, In p sorted <-> In p (purchases filtered_payments))
    as Hsorted.
  { intros p. split; intros H.
    - eapply Permutation_in; [exact Hg|]. eapply Permutation_in; eauto.
    - eapply Permutation_in; [symmetry; exact Hp|].
      eapply Permutation_in; [symmetry; exact Hg|exact H]. }
  assert (List.NoDup (map purchase (purchases filtered_payments))) as Hkeys.
  { unfold purchases. rewrite map_map. simpl.
    apply (group_by_keys_NoDup _ _ purchase_key_eqb_eq). }
  assert (List.NoDup sorted) as Hnd.
  { apply (Permutation_NoDup (l := purchases filtered_payments)).
    - rewrite Hp. now symmetry.
    - exact (NoDup_map_inv _ _ Hkeys). }
  assert (forall g, In g (group_by (key_eqb String.eqb) payment_of sorted) ->
            g = (fst g, rows (fst g))) as Hgroup.
  { intros [k l] Hin. simpl.
    destruct (group_by_rows _ _ Hkey _ _ _ Hin) as [-> _]. reflexivity. }
  assert (forall p, In p (flat_map head5 groups) <->
            In p (limit 5 (rows (payment_of p)))) as Hmem.
  { intros p. rewrite in_flat_map. split.
    - intros (g & Hin & Hp5). apply (Permutation_in _ Hgr) in Hin.
      rewrite (Hgroup g Hin) in Hp5. unfold head5 in Hp5. cbn [snd] in Hp5.
      pose proof (limit_In _ _ _ Hp5) as Hrow. apply filter_In in Hrow.
      destruct Hrow as [_ Hk]. apply Hkey in Hk. now rewrite <- Hk.
    - intros Hp5. exists (payment_of p, rows (payment_of p)).
      split; [|exact Hp5].
      apply (Permutation_in _ (Permutation_sym Hgr)).
      unfold group_by. apply in_map_iff. exists (payment_of p).
      split; [reflexivity|]. apply (unique_In _ Hkey). apply in_map.
      apply limit_In in Hp5. apply filter_In in Hp5. tauto. }
  assert (List.NoDup (flat_map head5 groups)) as Hout.
  { apply (Permutation_NoDup
             (l := flat_map head5
                     (group_by (key_eqb String.eqb) payment_of sorted))).
    - apply Permutation_flat_map. now symmetry.
    - apply NoDup_flat_map.
      + intros g Hin. rewrite (Hgroup g Hin). unfold head5. cbn [snd].
        apply limit_NoDup. now apply List.NoDup_filter.
      + intros g g' b Hin Hin' Hb Hb'.
        rewrite (Hgroup g Hin) in Hb |- *.
        rewrite (Hgroup g' Hin') in Hb' |- *.
        unfold head5 in Hb, Hb'. cbn [snd] in Hb, Hb'.
        apply limit_In, filter_In in Hb, Hb'.
        destruct Hb as [_ Hb], Hb' as [_ Hb']. apply Hkey in Hb, Hb'.
        now rewrite Hb, Hb'.
      + apply (NoDup_map_inv fst). apply (group_by_keys_NoDup _ _ Hkey). }
  assert (forall t, incl (listed t) (limit 5 (rows t))) as Hlisted.
  { intros t p Hin. apply filter_In in Hin. destruct Hin as [Hin Ht].
    apply Hkey in Ht. subst t. now apply Hmem. }
  split; [|split; [|split; [|split]]].
  - intros t. etransitivity.
    + apply NoDup_incl_length; [|apply Hlisted].
      now apply List.NoDup_filter.
    + apply firstn_le_length.
  - intros p Hin. apply Hmem, limit_In, filter_In in Hin.
    destruct Hin as [Hin _]. apply Hsorted in Hin. split; [exact Hin|].
    unfold purchases in Hin. apply in_map_iff in Hin.
    destruct Hin as ([k l] & <- & Hkl). unfold group_by in Hkl.
    apply in_map_iff in Hkl. destruct Hkl as (k' & [= <- <-] & Hk).
    apply unique_incl, in_map_iff in Hk. destruct Hk as (r & <- & Hr).
    apply pl_filter_In in Hr. destruct Hr as [_ Hr].
    apply is_not_null_true in Hr. destruct Hr as (c & Hc). simpl.
    rewrite Hc. discriminate.
  - apply (NoDup_map_incl purchase (purchases filtered_payments));
      [exact Hkeys|exact Hout|].
    intros p Hin. apply Hmem, limit_In, filter_In in Hin.
    now apply Hsorted.
  - intros p q Hp' Hq Hsame Hnot.
    apply Hmem in Hp'. rewrite <- Hsame in Hp'.
    assert (In q (rows (payment_of q))) as Hrow.
    { apply filter_In. split; [now apply Hsorted|]. now apply Hkey. }
    assert (In q (skipn 5 (rows (payment_of q)))) as Hskip.
    { rewrite <- (firstn_skipn 5 (rows (payment_of q))) in Hrow.
      apply in_app_or in Hrow. destruct Hrow as [H5|H5]; [|exact H5].
      exfalso. apply Hnot. now apply Hmem. }
    pose proof (sorted_by_split type_then_count 5 (rows (payment_of q)) p q
                  (sorted_by_filter _ _ _ Hs) Hp' Hskip) as Hqp.
    unfold type_then_count in Hqp. rewrite Hsame in Hqp.
    assert (text_lt (payment_of p) (payment_of p) = false) as Hirr.
    { destruct (text_lt (payment_of p) (payment_of p)) eqn:E; [|reflexivity].
      now apply text_lt_asym in E. }
    rewrite Hirr in Hqp. simpl in Hqp. now apply Z.ltb_ge in Hqp.
  - intros q Hq.
    assert (In q (rows (payment_of q))) as Hrow.
    { apply filter_In. split; [now apply Hsorted|]. now apply Hkey. }
    destruct (Nat.le_gt_cases (length (rows (payment_of q))) 5) as [Hle|Hgt].
    + left. apply Hmem. unfold limit. now rewrite firstn_all2.
    + right. apply Nat.le_antisymm.
      * etransitivity.
        -- apply NoDup_incl_length; [|apply Hlisted].
           now apply List.NoDup_filter.
        -- apply firstn_le_length.
      * assert (length (limit 5 (rows (payment_of q))) = 5%nat) as <-
          by (unfold limit; rewrite length_firstn; lia).
        apply NoDup_incl_length.
        -- apply limit_NoDup. now apply List.NoDup_filter.
        -- intros p Hp5. apply filter_In.
           pose proof (limit_In _ _ _ Hp5) as Hpk. apply filter_In in Hpk.
           destruct Hpk as [_ Hpk]. split; [|exact Hpk].
           apply Hkey in Hpk. apply Hmem. now rewrite <- Hpk.
Qed.

(** The example has one product group, bought in one cash transaction. *)
Lemma top_products_by_payment_shape_witness :
  (length
     (top_products_by_payment_run
        (filtered_payments demo_unified (gtin demo_data)
           ["CASH"; "CREDIT"]%string)) <= 5)%nat.
Proof.
  pose proof (top_products_by_payment_shape
                (filtered_payments demo_unified (gtin demo_data)
                   ["CASH"; "CREDIT"]%string)
                _ (top_products_by_payment_run_valid _)) as H.
  cbv zeta in H. destruct H as [Hlen _].
  specialize (Hlen (Some "CASH"%string)). vm_compute in Hlen |- *.
  exact Hlen.
Defined.

(** *** Reading one payment type off the summary *)

(** [payment_summary.filter(pl.col("PAYMENT_TYPE") == ptype)]. *)
Definition ptype_data (payment_summary : list summary_row) (ptype : string)
  : list summary_row :=
  pl_filter (fun g => eq_lit String.eqb (payment_type g) ptype)
    payment_summary.

(** [df.select(column).item()]: the value of the only row; [None] is the
    ValueError for a table that has not exactly one row. *)
Definition select_item {A : Type} (column : list A) : option A :=
  match column with
  | [value] => Some value
  | _ => None
  end.

(** X24.  The metrics of a payment type are read with [.item()], which
    needs exactly one row: the summary filtered by a payment type has at
    most one row, so inside the branch for a non-empty result the four
    [.item()] calls return the values of the type's own row and never
    raise. *)
Theorem ptype_data_item_returns (filtered_payments : list payment_row)
  (out : list summary_row) (ptype : string) :
  payment_summary filtered_payments out ->
  (length (ptype_data out ptype) <= 1)%nat /\
  (ptype_data out ptype <> [] ->
   exists g,
     In g out /\ payment_type g = Some ptype /\
     select_item (map num_transactions (ptype_data out ptype))
     = Some (num_transactions g) /\
     select_item (map total_spend (ptype_data out ptype)) = Some (total_spend g) /\
     select_item (map avg_ticket (ptype_data out ptype)) = Some (avg_ticket g) /\
     select_item (map avg_items_per_txn (ptype_data out ptype))
     = Some (avg_items_per_txn g)).
Proof.
  intros Hout.
  assert (List.NoDup (map payment_type out)) as Hnd.
  { apply (Permutation_NoDup
             (l := map payment_type (payment_summary_run filtered_payments))).
    - apply Permutation_map. now symmetry.
    - unfold payment_summary_run. rewrite !map_map. simpl.
      apply (group_by_keys_NoDup (key_eqb String.eqb) PAYMENT_TYPE).
      apply key_eqb_spec, String.eqb_eq. }
  assert (ptype_data out ptype
          = List.filter
              (fun g => join_eqb String.eqb (Some ptype) (payment_type g)) out)
    as Hfilter.
  { unfold ptype_data, pl_filter. apply filter_ext. intros g.
    destruct (payment_type g) as [t|]; simpl; [|reflexivity].
    rewrite (String.eqb_sym ptype t). now destruct (String.eqb t ptype). }
  pose proof (filter_unique_key String.eqb payment_type out (Some ptype)
                String.eqb_eq Hnd) as Hlen.
  rewrite <- Hfilter in Hlen. split; [exact Hlen|]. intros Hne.
  destruct (ptype_data out ptype) as [|g [|g' rest]] eqn:E;
    [congruence| |simpl in Hlen; lia].
  assert (In g (List.filter
                  (fun g => join_eqb String.eqb (Some ptype) (payment_type g))
                  out)) as Hin by (rewrite <- Hfilter; now left).
  apply filter_In in Hin. destruct Hin as [Hin Hm].
  apply (join_eqb_spec String.eqb String.eqb_eq) in Hm.
  destruct Hm as [Hm _]. exists g. repeat split; auto.
Qed.

(** The cash row of the example is read without error. *)
Lemma ptype_data_item_returns_witness :
  (length (ptype_data [demo_cash] "CASH") <= 1)%nat.
Proof.
  destruct (ptype_data_item_returns
              (filtered_payments demo_unified (gtin demo_data)
                 ["CASH"; "CREDIT"]%string)
              [demo_cash] "CASH"%string) as [Hlen _].
  - unfold payment_summary. rewrite demo_summary. reflexivity.
  - exact Hlen.
Defined.

End Payments.

(** ** Page "Comparison Demographics of Shoppers" (census enrichment) *)

Module Census.
Import Polars.

(** *** Store identifiers: [cast(pl.Int64).cast(pl.Utf8)] *)

Definition i64_min : Z := - 2 ^ 63.
Definition i64_max : Z := 2 ^ 63 - 1.

Definition in_i64 (z : Z) : bool := (i64_min <=? z) && (z <=? i64_max).

(** The integer part of a Float64 (towards zero); NaN and the infinities
    have none. *)
Definition f64_trunc (f : float) : option Z :=
  match Prim2SF f with
  | S754_zero _ => Some 0
  | S754_finite s m e =>
      let magnitude :=
        if 0 <=? e then Zpos m * 2 ^ e else Zpos m / 2 ^ (- e) in
      Some (if s then - magnitude else magnitude)
  | S754_infinity _ | S754_nan => None
  end.

(** Text to Int64: decimal digits with an optional sign ([-] or [+]),
    nothing else (no decimal point, no blank), value in range. *)
Definition parse_i64 (s : string) : option Z :=
  let numeral :=
    match s with
    | String a digits =>
        if Ascii.eqb a "+"
        then option_map Decimal.Pos (NilZero.uint_of_string digits)
        else NilZero.int_of_string s
    | EmptyString => None
    end in
  match numeral with
  | Some d => if in_i64 (Z.of_int d) then Some (Z.of_int d) else None
  | None => None
  end.

(** The strict cast of one non-null value to Int64; [None] is the
    InvalidOperationError that a failing value raises. *)
Definition cast_i64 (v : column_value) : option Z :=
  match v with
  | I64 z => Some z
  | F64 f =>
      match f64_trunc f with
      | Some z => if in_i64 z then Some z else None
      | None => None
      end
  | Utf8 s => parse_i64 s
  end.

(** Int64 to text: the decimal numeral. *)
Definition cast_utf8 (z : Z) : string := NilZero.string_of_int (Z.to_int z).

(** The join key of a store identifier. *)
Definition canonical_store_id (v : column_value) : option string :=
  option_map cast_utf8 (cast_i64 v).

(** The cast of a cell: a null stays null. *)
Definition canonical_cell (c : option column_value)
  : option (option string) :=
  match c with
  | None => Some None
  | Some v => option_map Some (canonical_store_id v)
  end.

(** An expression over a column raises as soon as one cell does. *)
Fixpoint strict_map {A B : Type} (f : A -> option B) (l : list A)
  : option (list B) :=
  match l with
  | [] => Some []
  | a :: rest =>
      match f a, strict_map f rest with
      | Some b, Some bs => Some (b :: bs)
      | _, _ => None
      end
  end.

(** A row of [stores_df]. *)
Record store_row : Type := {
  STORE_ID : option string;
  LATITUDE : option float;
  LONGITUDE : option float;
  STATE : option string;
  CITY : option string
}.

Definition stores_df (stores : list Stores.row) : option (list store_row) :=
  strict_map
    (fun r =>
       option_map
         (fun id => {| STORE_ID := id;
                       LATITUDE := Stores.LATITUDE r;
                       LONGITUDE := Stores.LONGITUDE r;
                       STATE := Stores.STATE r;
                       CITY := Stores.CITY r |})
         (canonical_cell (Stores.STORE_ID r)))
    stores.

(** A row of [store_perf]. *)
Record perf_row : Type := {
  perf_STORE_ID : option string;
  revenue : float;
  transactions : Z
}.

(** [store_perf]: the daily rows with the cast identifier, grouped by it
    (groups in order of first occurrence). *)
Definition store_perf (filtered_daily : list Daily.row)
  : option (list perf_row) :=
  option_map
    (fun keyed =>
       map (fun g =>
              {| perf_STORE_ID := fst g;
                 revenue :=
                   sum_f64 (map (fun kr => Daily.TOTAL_REVENUE_AMOUNT (snd kr))
                              (snd g));
                 transactions :=
                   sum_i64 (map (fun kr => Daily.TRANSACTION_COUNT (snd kr))
                              (snd g)) |})
         (group_by (key_eqb String.eqb) fst keyed))
    (strict_map
       (fun r => option_map (fun id => (id, r))
                   (canonical_cell (Daily.STORE_ID r)))
       filtered_daily).

(** [stores_enriched.join(store_perf, on="STORE_ID", how="left")] for an
    enriched store table with rows of type [E]. *)
Definition stores_with_perf {E : Type} (store_id : E -> option string)
  (stores_enriched : list E) (perf : list perf_row)
  : list (E * option perf_row) :=
  join_left String.eqb store_id perf_STORE_ID stores_enriched perf.

Example canonical_int : canonical_store_id (I64 42) = Some "42"%string.
Proof. reflexivity. Qed.

Example canonical_float : canonical_store_id (F64 42%float) = Some "42"%string.
Proof. vm_compute. reflexivity. Qed.

Example canonical_float_one : canonical_store_id (F64 1%float) = Some "1"%string.
Proof. vm_compute. reflexivity. Qed.

Example canonical_text : canonical_store_id (Utf8 "42") = Some "42"%string.
Proof. vm_compute. reflexivity. Qed.

Example canonical_signed_text :
  canonical_store_id (Utf8 "+42") = Some "42"%string /\
  canonical_store_id (Utf8 "-42") = Some "-42"%string /\
  canonical_store_id (Utf8 "007") = Some "7"%string.
Proof. repeat split; vm_compute; reflexivity. Qed.

Example canonical_negative :
  canonical_store_id (F64 (-7.5)%float) = Some "-7"%string.
Proof. vm_compute. reflexivity. Qed.

Example canonical_nan : canonical_store_id (F64 nan) = None.
Proof. vm_compute. reflexivity. Qed.

(** *** The casts give one key per identifier *)

Lemma int_of_string_cast_utf8 (z : Z) :
  NilZero.int_of_string (cast_utf8 z) = Some (Z.to_int z).
Proof.
  unfold cast_utf8. apply NilZero.isi; destruct z; simpl; try discriminate;
    intros [= H]; now apply DecimalPos.Unsigned.to_uint_nonnil in H.
Qed.

Lemma parse_i64_cast_utf8 (z : Z) :
  in_i64 z = true -> parse_i64 (cast_utf8 z) = Some z.
Proof.
  intros Hz. unfold parse_i64.
  pose proof (int_of_string_cast_utf8 z) as Hint.
  destruct (cast_utf8 z) as [|a digits]; [discriminate|].
  destruct (Ascii.eqb_spec a "+") as [->|_].
  - cbn in Hint. destruct (NilEmpty.uint_of_string digits); discriminate.
  - now rewrite Hint, DecimalZ.of_to, Hz.
Qed.

(** *** Values that no integer cast accepts *)

Definition is_digit (c : ascii) : bool :=
  ((48 <=? nat_of_ascii c) && (nat_of_ascii c <=? 57))%nat.

Definition is_sign (c : ascii) : bool := Ascii.eqb c "+" || Ascii.eqb c "-".

(** A value that is plainly no integer: a NaN or an infinity, or text
    with a character that is neither a digit nor a sign. *)
Definition not_an_integer (v : column_value) : bool :=
  match v with
  | I64 _ => false
  | F64 f => negb (is_finite f)
  | Utf8 s =>
      existsb (fun c => negb (is_digit c || is_sign c))
        (list_ascii_of_string s)
  end.

Lemma uint_of_string_digits (s : string) (d : Decimal.uint) :
  NilEmpty.uint_of_string s = Some d ->
  forallb is_digit (list_ascii_of_string s) = true.
Proof.
  revert d. induction s as [|a rest IH]; simpl; [reflexivity|].
  intros d H.
  destruct (NilEmpty.uint_of_string rest) as [d0|]; [|discriminate].
  rewrite (IH d0 eq_refl), andb_true_r.
  apply uint_of_char_spec in H.
  repeat (destruct H as [[-> _]|H]; [reflexivity|]).
  destruct H as [-> _]. reflexivity.
Qed.

Lemma digits_have_no_other (l : list ascii) :
  forallb is_digit l = true ->
  existsb (fun c => negb (is_digit c || is_sign c)) l = false.
Proof.
  induction l as [|a rest IH]; simpl; [reflexivity|].
  rewrite andb_true_iff. intros [-> Hrest]. simpl. now apply IH.
Qed.

Lemma nilzero_uint_digits (s : string) (d : Decimal.uint) :
  NilZero.uint_of_string s = Some d ->
  existsb (fun c => negb (is_digit c || is_sign c)) (list_ascii_of_string s)
  = false.
Proof.
  intros H. apply digits_have_no_other.
  destruct s as [|a rest]; [discriminate|].
  exact (uint_of_string_digits _ _ H).
Qed.

Lemma not_an_integer_cast (v : column_value) :
  not_an_integer v = true -> canonical_store_id v = None.
Proof.
  destruct v as [z|f|s]; simpl; [discriminate| |].
  - unfold is_finite, canonical_store_id, cast_i64, f64_trunc.
    destruct (Prim2SF f); simpl; try discriminate; reflexivity.
  - intros Hbad. unfold canonical_store_id. simpl. unfold parse_i64.
    destruct s as [|a rest]; [reflexivity|]. simpl in Hbad.
    destruct (Ascii.eqb_spec a "+") as [->|Hplus].
    + simpl in Hbad.
      destruct (NilZero.uint_of_string rest) as [d|] eqn:E; [|reflexivity].
      rewrite (nilzero_uint_digits _ _ E) in Hbad. discriminate.
    + unfold NilZero.int_of_string.
      destruct (Ascii.eqb_spec a "-") as [->|Hminus].
      * simpl in Hbad.
        destruct (NilZero.uint_of_string rest) as [d|] eqn:E; [|reflexivity].
        rewrite (nilzero_uint_digits _ _ E) in Hbad. discriminate.
      * destruct (NilZero.uint_of_string (String a rest)) as [d|] eqn:E;
          [|reflexivity].
        apply nilzero_uint_digits in E. simpl in E.
        rewrite E in Hbad. discriminate.
Qed.

Lemma cast_utf8_inj (z z' : Z) : cast_utf8 z = cast_utf8 z' -> z = z'.
Proof.
  intros H. apply DecimalZ.to_int_inj.
  pose proof (int_of_string_cast_utf8 z) as Hz.
  rewrite H, int_of_string_cast_utf8 in Hz. congruence.
Qed.

Lemma strict_map_In {A B : Type} (f : A -> option B) (l : list A)
  (out : list B) (a : A) :
  strict_map f l = Some out -> In a l ->
  exists b, f a = Some b /\ In b out.
Proof.
  revert out. induction l as [|x rest IH]; simpl; intros out Hout Hin; [tauto|].
  destruct (f x) as [b|] eqn:Ex; [|discriminate].
  destruct (strict_map f rest) as [bs|]; [|discriminate].
  injection Hout as <-. destruct Hin as [->|Hin].
  - exists b. split; [exact Ex|now left].
  - destruct (IH bs eq_refl Hin) as (b' & Hb & Hin'). exists b'.
    split; [exact Hb|now right].
Qed.

Lemma join_left_match {L R K : Type} (eqb : K -> K -> bool)
  (lkey : L -> option K) (rkey : R -> option K)
  (left : list L) (right : list R) (l : L) (r : R) :
  In l left -> In r right -> join_eqb eqb (lkey l) (rkey r) = true ->
  In (l, Some r) (join_left eqb lkey rkey left right).
Proof.
  intros Hl Hr Hm. unfold join_left. apply in_flat_map. exists l.
  split; [exact Hl|].
  assert (In r (List.filter (fun r' => join_eqb eqb (lkey l) (rkey r')) right))
    as Hin by (apply filter_In; auto).
  destruct (List.filter (fun r' => join_eqb eqb (lkey l) (rkey r')) right)
    as [|m ms]; [contradiction|].
  apply in_map_iff. exists r. auto.
Qed.

Lemma stores_df_key (stores : list Stores.row) (sdf : list store_row)
  (s : Stores.row) (v : column_value) (k : string) :
  stores_df stores = Some sdf -> In s stores ->
  Stores.STORE_ID s = Some v -> canonical_store_id v = Some k ->
  exists l, In l sdf /\ STORE_ID l = Some k
            /\ LATITUDE l = Stores.LATITUDE s
            /\ LONGITUDE l = Stores.LONGITUDE s.
Proof.
  intros Hdf Hs Hv Hk.
  destruct (strict_map_In _ _ _ _ Hdf Hs) as (l & Hl & Hin).
  rewrite Hv in Hl. simpl in Hl. rewrite Hk in Hl. simpl in Hl.
  injection Hl as <-. eexists. split; [exact Hin|]. simpl. auto.
Qed.

Lemma store_perf_key (filtered_daily : list Daily.row) (perf : list perf_row)
  (d : Daily.row) (v : column_value) (k : string) :
  store_perf filtered_daily = Some perf -> In d filtered_daily ->
  Daily.STORE_ID d = Some v -> canonical_store_id v = Some k ->
  exists p, In p perf /\ perf_STORE_ID p = Some k.
Proof.
  unfold store_perf. intros Hperf Hd Hv Hk.
  destruct (strict_map _ filtered_daily) as [keyed|] eqn:Ekeyed; [|discriminate].
  injection Hperf as <-.
  destruct (strict_map_In _ _ _ _ Ekeyed Hd) as (kr & Hkr & Hin).
  rewrite Hv in Hkr. simpl in Hkr. rewrite Hk in Hkr. simpl in Hkr.
  injection Hkr as <-.
  assert (In (Some k) (unique (key_eqb String.eqb) (map fst keyed))) as Hkey.
  { apply (unique_In _ (key_eqb_spec String.eqb String.eqb_eq)).
    apply in_map_iff. exists (Some k, d). auto. }
  unfold group_by. eexists. split.
  - apply in_map_iff. eexists. split; [reflexivity|].
    apply in_map_iff. eexists. split; [reflexivity|exact Hkey].
  - reflexivity.
Qed.

End Census.

(** ** The enrichment pipeline: geocoding and ACS loops *)

Module Enrichment.
Import Polars.

(** One geography object of the geocoder's answer: attribute name to
    value; a value is text (FIPS codes are text) or the JSON null. *)
Abbreviation geography := (gmap string (option string)).

(** What [requests.get(geocode_url, timeout=10)] brings back. *)
Inductive geocoder_reply : Type :=
| GeoNoResponse
    (* [requests.get] raises: connection error, timeout *)
| GeoResponse (status : Z) (layers : option (gmap string (list geography))).
    (* an HTTP answer; [layers] is [result.geographies] of the JSON body,
       [None] when the body is not JSON or lacks that path *)

(** [r.raise_for_status()] raises for the 4xx and 5xx codes. *)
Definition http_error (status : Z) : bool := (400 <=? status) && (status <? 600).

(** The dictionary [geocode_store] returns. *)
Record geo_result : Type := {
  geo_STATE : option string;
  geo_COUNTY : option string;
  geo_TRACT : option string
}.

Definition null_geo : geo_result :=
  {| geo_STATE := None; geo_COUNTY := None; geo_TRACT := None |}.

(** The body of [try:] in [geocode_store]; [None] when a statement of it
    raises (no answer, error status, bad body, no "Census Tracts" layer,
    empty layer, no STATE, COUNTY or TRACT key).  The values of the three
    keys are returned as they are, null included. *)
Definition geocode_try (reply : geocoder_reply) : option geo_result :=
  match reply with
  | GeoNoResponse => None
  | GeoResponse status layers =>
      if http_error status then None
      else
        match layers with
        | None => None
        | Some geographies =>
            match geographies !! "Census Tracts"%string with
            | Some (geo :: _) =>
                match geo !! "STATE"%string, geo !! "COUNTY"%string,
                      geo !! "TRACT"%string with
                | Some s, Some c, Some t =>
                    Some {| geo_STATE := s; geo_COUNTY := c; geo_TRACT := t |}
                | _, _, _ => None
                end
            | _ => None
            end
        end
  end.

(** A failed geocoding call in the words of the claim, "any exception or
    missing response fields": no response (network error, timeout), an
    error status, a body without the geographies, or a first census tract
    that lacks one of the three fields. *)
Definition field_missing (geo : geography) (field : string) : bool :=
  match geo !! field with
  | Some _ => false
  | None => true
  end.

Definition first_tract (reply : geocoder_reply) : option geography :=
  match reply with
  | GeoResponse _ (Some geographies) =>
      match geographies !! "Census Tracts"%string with
      | Some (geo :: _) => Some geo
      | _ => None
      end
  | _ => None
  end.

Definition call_fails (reply : geocoder_reply) : bool :=
  match reply with
  | GeoNoResponse => true
  | GeoResponse status _ =>
      http_error status
      || match first_tract reply with
         | Some geo =>
             existsb (field_missing geo) ["STATE"; "COUNTY"; "TRACT"]%string
         | None => true
         end
  end.

(** A call that does not fail but whose three values are the JSON
    null. *)
Definition null_answer (reply : geocoder_reply) : bool :=
  negb (call_fails reply)
  && match first_tract reply with
     | Some geo =>
         forallb (fun field => match geo !! field with
                               | Some (Some _) => false
                               | _ => true
                               end)
           ["STATE"; "COUNTY"; "TRACT"]%string
     | None => false
     end.

(** A row of [tract_data] / [tract_df]. *)
Record tract_row : Type := {
  STORE_ID : option string;
  STATEFP : option string;
  COUNTYFP : option string;
  TRACT : option string
}.

(** All three geography fields of a row are null. *)
Definition null_geography (r : tract_row) : bool :=
  match STATEFP r, COUNTYFP r, TRACT r with
  | None, None, None => true
  | _, _, _ => false
  end.

(** The ten requested ACS variables, in request order. *)
Definition ACS_VARS : list string :=
  [ "B01003_001E"; "B01001_001E"; "B19019_001E"; "B15003_025E";
    "B17001_002E"; "B25077_001E"; "B25064_001E"; "B08301_001E";
    "B23025_004E"; "B08201_001E" ]%string.

(** What [requests.get(url, timeout=15)] brings back from the ACS API: the
    JSON body is an array of arrays of nullable text, header row first. *)
Inductive acs_reply : Type :=
| AcsNoResponse
| AcsResponse (status : Z) (data : option (list (list (option string)))).

(** [row[:-3]]. *)
Definition drop_last3 {A : Type} (row : list A) : list A :=
  firstn (length row - 3) row.

(** The body of [try:] in [fetch_tract_acs] with its [except]: the values
    of the first data row without the three echoed codes, or None. *)
Definition fetch_try (reply : acs_reply) : option (list (option string)) :=
  match reply with
  | AcsNoResponse => None
  | AcsResponse status data =>
      if http_error status then None
      else
        match data with
        | Some (_ :: row :: _) => Some (drop_last3 row)
        | _ => None
        end
  end.

(** A tract fetch that fails or returns an empty response, in the words
    of the claim: no response, an error status, a body that is not the
    array of rows, no row after the header, or a row that holds nothing
    besides the three echoed codes. *)
Definition fetch_fails (reply : acs_reply) : bool :=
  match reply with
  | AcsNoResponse => true
  | AcsResponse status data =>
      http_error status
      || match data with
         | Some (_ :: row :: _) => (length row <=? 3)%nat
         | _ => true
         end
  end.

(** A (state, county, tract) triple of [unique_tracts]. *)
Definition triple : Type := string * string * string.

Definition triple_eqb (a b : triple) : bool :=
  let '(a1, a2, a3) := a in
  let '(b1, b2, b3) := b in
  String.eqb a1 b1 && String.eqb a2 b2 && String.eqb a3 b3.

(** [unique_tracts]: the rows with three non-null codes, their code
    columns, distinct (in order of first occurrence). *)
Definition unique_tracts (tract_df : list tract_row) : list triple :=
  unique triple_eqb
    (flat_map
       (fun r => match STATEFP r, COUNTYFP r, TRACT r with
                 | Some s, Some c, Some t => [(s, c, t)]
                 | _, _, _ => []
                 end)
       tract_df).

(** A row of [acs_results]: the triple and, per requested variable, its
    value. *)
Record acs_row : Type := {
  acs_STATEFP : string;
  acs_COUNTYFP : string;
  acs_TRACT : string;
  acs_vars : list (string * option string)
}.

(** [enumerate(l)]. *)
Definition enumerate {A : Type} (l : list A) : list (nat * A) :=
  combine (seq 0 (length l)) l.

(** The [result_dict] of one triple; [None] is the IndexError of
    [acs_values[var_idx]] when fewer values came back than requested. *)
Definition result_dict (t : triple) (acs_values : list (option string))
  : option acs_row :=
  option_map
    (fun vars => {| acs_STATEFP := fst (fst t); acs_COUNTYFP := snd (fst t);
                    acs_TRACT := snd t; acs_vars := vars |})
    (Census.strict_map
       (fun iv => option_map (fun v => (snd iv, v)) (nth_error acs_values (fst iv)))
       (enumerate ACS_VARS)).

(** *** Building a table from the collected rows *)

(** [pl.DataFrame(rows)] for a list of dictionaries infers the dtype of
    each column from its first 100 values.  A column whose first 100
    values are all null gets the Null dtype, and a text further down
    raises ComputeError; a column with a text among its first 100 values
    is a text column and takes nulls anywhere.  [None] is the
    ComputeError. *)
Definition infer_schema_length : nat := 100.

Definition not_null {A : Type} (cell : option A) : bool :=
  match cell with
  | Some _ => true
  | None => false
  end.

Definition column_builds {A : Type} (cells : list (option A)) : bool :=
  existsb not_null (firstn infer_schema_length cells)
  || forallb (fun cell => negb (not_null cell))
       (skipn infer_schema_length cells).

Definition frame_builds {R A : Type} (columns : list (R -> option A))
  (rows : list R) : bool :=
  forallb (fun column => column_builds (map column rows)) columns.

Definition DataFrame {R A : Type} (columns : list (R -> option A))
  (rows : list R) : option (list R) :=
  if frame_builds columns rows then Some rows else None.

Definition tract_columns : list (tract_row -> option string) :=
  [STORE_ID; STATEFP; COUNTYFP; TRACT].

(** The value of a row of [acs_results] under a variable name. *)
Definition acs_value (var : string) (r : acs_row) : option string :=
  match find (fun entry => String.eqb (fst entry) var) (acs_vars r) with
  | Some (_, value) => value
  | None => None
  end.

Definition acs_columns : list (acs_row -> option string) :=
  [ (fun r => Some (acs_STATEFP r)); (fun r => Some (acs_COUNTYFP r));
    (fun r => Some (acs_TRACT r)) ]
  ++ map acs_value ACS_VARS.

Lemma column_builds_short {A : Type} (cells : list (option A)) :
  (length cells <= infer_schema_length)%nat -> column_builds cells = true.
Proof.
  intros Hlen. unfold column_builds.
  rewrite (skipn_all2 cells) by exact Hlen. apply orb_true_r.
Qed.

Lemma frame_builds_short {R A : Type} (columns : list (R -> option A))
  (rows : list R) :
  (length rows <= infer_schema_length)%nat -> frame_builds columns rows = true.
Proof.
  intros Hlen. unfold frame_builds. apply forallb_forall. intros column _.
  apply column_builds_short. now rewrite length_map.
Qed.

Lemma triple_eqb_eq (a b : triple) : triple_eqb a b = true <-> a = b.
Proof.
  destruct a as [[a1 a2] a3], b as [[b1 b2] b3]. unfold triple_eqb.
  rewrite !andb_true_iff, !String.eqb_eq.
  split; [intros [[-> ->] ->]; reflexivity|intros [= -> -> ->]; auto].
Qed.

(** X3.  [unique_tracts] holds each triple of three non-null codes of the
    geocoding table once, and nothing else. *)
Theorem unique_tracts_distinct_non_null (tract_df : list tract_row) :
  List.NoDup (unique_tracts tract_df) /\
  (forall s c t,
     In (s, c, t) (unique_tracts tract_df) <->
     exists r, In r tract_df /\ STATEFP r = Some s /\ COUNTYFP r = Some c /\
               TRACT r = Some t).
Proof.
  unfold unique_tracts. split; [apply (unique_NoDup _ triple_eqb_eq)|].
  intros s c t. rewrite (unique_In _ triple_eqb_eq), in_flat_map. split.
  - intros (r & Hr & Hin). exists r. split; [exact Hr|].
    destruct (STATEFP r), (COUNTYFP r), (TRACT r); simpl in Hin;
      try contradiction.
    destruct Hin as [[= -> -> ->]|[]]. auto.
  - intros (r & Hr & Hs & Hc & Ht). exists r. split; [exact Hr|].
    rewrite Hs, Hc, Ht. now left.
Qed.

Section Services.

(** The external services.  The three fetch functions are memoised
    ([st.cache_data]), which makes each a function of its arguments. *)
Variable census_geocoder : option float -> option float -> geocoder_reply.
Variable acs_api : string -> string -> string -> acs_reply.

Definition geocode_store (lat lon : option float) : geo_result :=
  match geocode_try (census_geocoder lat lon) with
  | Some geo => geo
  | None => null_geo
  end.

(** The geocoding call of a store fails. *)
Definition store_fails (row : Census.store_row) : bool :=
  call_fails (census_geocoder (Census.LATITUDE row) (Census.LONGITUDE row)).

(** The loop of the "Geocode Stores" button: one appended row per store. *)
Definition geocode_stores (stores_df : list Census.store_row)
  : list tract_row :=
  fold_left
    (fun tract_data row =>
       let geo_result :=
         geocode_store (Census.LATITUDE row) (Census.LONGITUDE row) in
       tract_data ++ [ {| STORE_ID := Census.STORE_ID row;
                          STATEFP := geo_STATE geo_result;
                          COUNTYFP := geo_COUNTY geo_result;
                          TRACT := geo_TRACT geo_result |} ])
    stores_df [].

Definition fetch_tract_acs (state county tract : string)
  : option (list (option string)) :=
  fetch_try (acs_api state county tract).

(** [if acs_values:] is false for None and for an empty list. *)
Definition fetch_is_empty (t : triple) : bool :=
  match fetch_tract_acs (fst (fst t)) (snd (fst t)) (snd t) with
  | Some (_ :: _) => false
  | _ => true
  end.

(** The loop of the "Fetch Tract ACS Data" button over [unique_tracts],
    started with the rows collected so far; [None] when an IndexError
    ends the run. *)
Fixpoint fetch_tracts (unique_tracts : list triple) (acs_results : list acs_row)
  : option (list acs_row) :=
  match unique_tracts with
  | [] => Some acs_results
  | row :: rest =>
      match fetch_tract_acs (fst (fst row)) (snd (fst row)) (snd row) with
      | Some ((_ :: _) as acs_values) =>
          match result_dict row acs_values with
          | Some d => fetch_tracts rest (acs_results ++ [d])
          | None => None
          end
      | _ => fetch_tracts rest acs_results
      end
  end.

(** The geocode stage: the loop, then [pl.DataFrame(tract_data)]. *)
Definition geocode_stage (stores_df : list Census.store_row)
  : option (list tract_row) :=
  DataFrame tract_columns (geocode_stores stores_df).

(** The tract ACS stage: the loop, then [pl.DataFrame(acs_results)]. *)
Definition tract_acs_stage (unique_tracts : list triple)
  : option (list acs_row) :=
  match fetch_tracts unique_tracts [] with
  | Some acs_results => DataFrame acs_columns acs_results
  | None => None
  end.

(** The fetch of a triple fails or is empty. *)
Definition tract_fails (t : triple) : bool :=
  fetch_fails (acs_api (fst (fst t)) (snd (fst t)) (snd t)).

(** The row a triple with values contributes: the triple and the first
    ten values under the names of [ACS_VARS]. *)
Definition acs_row_of (t : triple) : acs_row :=
  {| acs_STATEFP := fst (fst t); acs_COUNTYFP := snd (fst t);
     acs_TRACT := snd t;
     acs_vars :=
       combine ACS_VARS
         (match fetch_tract_acs (fst (fst t)) (snd (fst t)) (snd t) with
          | Some values => firstn 10 values
          | None => []
          end) |}.

(** *** The geocoding loop *)

Lemma fold_left_append {A B : Type} (f : A -> B) (l : list A) (acc : list B) :
  fold_left (fun out a => out ++ [f a]) l acc = acc ++ map f l.
Proof.
  revert acc. induction l as [|a rest IH]; intros acc; simpl.
  - now rewrite app_nil_r.
  - rewrite IH, <- app_assoc. reflexivity.
Qed.

Definition tract_row_of (row : Census.store_row) : tract_row :=
  let geo_result :=
    geocode_store (Census.LATITUDE row) (Census.LONGITUDE row) in
  {| STORE_ID := Census.STORE_ID row;
     STATEFP := geo_STATE geo_result;
     COUNTYFP := geo_COUNTY geo_result;
     TRACT := geo_TRACT geo_result |}.

Lemma geocode_stores_map (stores_df : list Census.store_row) :
  geocode_stores stores_df = map tract_row_of stores_df.
Proof. unfold geocode_stores. now rewrite (fold_left_append tract_row_of). Qed.

Lemma geocode_try_fails (reply : geocoder_reply) :
  geocode_try reply = None <-> call_fails reply = true.
Proof.
  destruct reply as [|status [geographies|]]; simpl;
    [tauto| |destruct (http_error status); simpl; tauto].
  destruct (http_error status); simpl; [tauto|].
  destruct (geographies !! "Census Tracts"%string) as [[|geo ?]|];
    simpl; try tauto.
  unfold field_missing.
  destruct (geo !! "STATE"%string), (geo !! "COUNTY"%string),
    (geo !! "TRACT"%string); simpl; split; congruence.
Qed.

Lemma geocode_try_answer (reply : geocoder_reply) :
  call_fails reply = false ->
  exists geo s c t,
    first_tract reply = Some geo /\
    geo !! "STATE"%string = Some s /\ geo !! "COUNTY"%string = Some c /\
    geo !! "TRACT"%string = Some t /\
    geocode_try reply
    = Some {| geo_STATE := s; geo_COUNTY := c; geo_TRACT := t |}.
Proof.
  intros Hok.
  destruct reply as [|status [geographies|]]; simpl in *; try discriminate;
    destruct (http_error status); simpl in *; try discriminate.
  destruct (geographies !! "Census Tracts"%string) as [[|geo ?]|];
    simpl in *; try discriminate.
  unfold field_missing in Hok.
  destruct (geo !! "STATE"%string) as [s|] eqn:Hs,
    (geo !! "COUNTY"%string) as [c|] eqn:Hc,
    (geo !! "TRACT"%string) as [t|] eqn:Ht; simpl in *; try discriminate.
  exists geo, s, c, t. auto.
Qed.

Lemma tract_row_failed (row : Census.store_row) :
  store_fails row = true ->
  STATEFP (tract_row_of row) = None /\ COUNTYFP (tract_row_of row) = None /\
  TRACT (tract_row_of row) = None.
Proof.
  unfold store_fails, tract_row_of, geocode_store. intros Hfail.
  apply geocode_try_fails in Hfail. rewrite Hfail. auto.
Qed.

Lemma tract_row_answered (row : Census.store_row) :
  store_fails row = false ->
  exists geo,
    first_tract (census_geocoder (Census.LATITUDE row) (Census.LONGITUDE row))
    = Some geo /\
    geo !! "STATE"%string = Some (STATEFP (tract_row_of row)) /\
    geo !! "COUNTY"%string = Some (COUNTYFP (tract_row_of row)) /\
    geo !! "TRACT"%string = Some (TRACT (tract_row_of row)).
Proof.
  unfold store_fails, tract_row_of, geocode_store. intros Hok.
  destruct (geocode_try_answer _ Hok) as (geo & s & c & t & Hg & Hs & Hc & Ht & E).
  rewrite E. exists geo. auto.
Qed.

Lemma tract_row_null (row : Census.store_row) :
  null_geography (tract_row_of row)
  = store_fails row
    || null_answer (census_geocoder (Census.LATITUDE row)
                      (Census.LONGITUDE row)).
Proof.
  unfold null_answer. fold (store_fails row).
  destruct (store_fails row) eqn:Hfail.
  - destruct (tract_row_failed row Hfail) as (Hs & Hc & Ht).
    unfold null_geography. now rewrite Hs, Hc, Ht.
  - destruct (tract_row_answered row Hfail) as (geo & Hg & Hs & Hc & Ht).
    rewrite Hg. simpl. rewrite Hs, Hc, Ht. unfold null_geography.
    destruct (STATEFP (tract_row_of row)), (COUNTYFP (tract_row_of row)),
      (TRACT (tract_row_of row)); reflexivity.
Qed.

(** C4, amended.  When the table can be built from the collected rows,
    the geocode stage produces one row per store, in store order and with
    the store's identifier, whatever the service answers: the loop never
    aborts.  The row of a store whose call failed has null state, county
    and tract; the row of any other store holds the three values of the
    first census tract of the answer, as they are.  So the rows with null
    geography are those of the M failed stores and of the stores whose
    answer itself holds three nulls: at least M rows, and exactly M when
    no answer holds three nulls. *)
Theorem geocode_batch_rows (stores_df : list Census.store_row) :
  frame_builds tract_columns (geocode_stores stores_df) = true ->
  exists tract_df,
    geocode_stage stores_df = Some tract_df /\
    length tract_df = length stores_df /\
    Forall2
      (fun store row =>
         STORE_ID row = Census.STORE_ID store /\
         (store_fails store = true ->
          STATEFP row = None /\ COUNTYFP row = None /\ TRACT row = None) /\
         (store_fails store = false ->
          exists geo,
            first_tract (census_geocoder (Census.LATITUDE store)
                           (Census.LONGITUDE store)) = Some geo /\
            geo !! "STATE"%string = Some (STATEFP row) /\
            geo !! "COUNTY"%string = Some (COUNTYFP row) /\
            geo !! "TRACT"%string = Some (TRACT row)))
      stores_df tract_df /\
    (length (List.filter store_fails stores_df)
     <= length (List.filter null_geography tract_df))%nat /\
    ((forall store, In store stores_df ->
        null_answer (census_geocoder (Census.LATITUDE store)
                       (Census.LONGITUDE store)) = false) ->
     length (List.filter null_geography tract_df)
     = length (List.filter store_fails stores_df)).
Proof.
  intros Hbuilds. exists (geocode_stores stores_df).
  split; [unfold geocode_stage, DataFrame; now rewrite Hbuilds|].
  clear Hbuilds. rewrite geocode_stores_map.
  split; [apply length_map|]. split; [|split].
  - induction stores_df as [|row rest IH]; simpl; constructor; [|exact IH].
    split; [reflexivity|].
    split; [apply tract_row_failed|apply tract_row_answered].
  - induction stores_df as [|row rest IH]; simpl; [lia|].
    rewrite tract_row_null.
    destruct (store_fails row), (null_answer _); simpl; lia.
  - intros Hnull. induction stores_df as [|row rest IH]; simpl; [reflexivity|].
    rewrite tract_row_null, (Hnull row (or_introl eq_refl)), orb_false_r.
    assert (length (List.filter null_geography (map tract_row_of rest))
            = length (List.filter store_fails rest)) as IH'
      by (apply IH; intros store Hin; apply Hnull; now right).
    destruct (store_fails row); simpl; now rewrite IH'.
Qed.

(** *** The tract ACS loop *)

Lemma result_dict_ten (t : triple) (values : list (option string)) :
  (10 <= length values)%nat ->
  result_dict t values
  = Some {| acs_STATEFP := fst (fst t); acs_COUNTYFP := snd (fst t);
            acs_TRACT := snd t;
            acs_vars := combine ACS_VARS (firstn 10 values) |}.
Proof.
  intros Hlen.
  do 10 (destruct values as [|? values]; [simpl in Hlen; lia|]).
  reflexivity.
Qed.

Lemma fetch_tracts_rows (requested : list triple) (acs_results : list acs_row) :
  (forall t values, In t requested ->
     fetch_tract_acs (fst (fst t)) (snd (fst t)) (snd t) = Some values ->
     values <> [] -> (10 <= length values)%nat) ->
  fetch_tracts requested acs_results
  = Some (acs_results
          ++ map acs_row_of
               (List.filter (fun t => negb (fetch_is_empty t)) requested)).
Proof.
  revert acs_results.
  induction requested as [|t rest IH]; intros acc Hten; simpl.
  - now rewrite app_nil_r.
  - assert (forall t' values, In t' rest ->
              fetch_tract_acs (fst (fst t')) (snd (fst t')) (snd t') = Some values ->
              values <> [] -> (10 <= length values)%nat) as Hrest
      by (intros t' values Hin; apply Hten; now right).
    unfold fetch_is_empty.
    destruct (fetch_tract_acs (fst (fst t)) (snd (fst t)) (snd t))
      as [[|v values]|] eqn:E; simpl; try (now apply IH).
    rewrite result_dict_ten
      by (apply (Hten t (v :: values)); [now left|exact E|discriminate]).
    rewrite IH by exact Hrest. rewrite <- app_assoc. simpl.
    unfold acs_row_of at 2. now rewrite E.
Qed.

Lemma map_fst_combine_length {A B : Type} (l : list A) (l' : list B) :
  length l = length l' -> map fst (combine l l') = l.
Proof.
  revert l'. induction l as [|a rest IH]; intros [|b rest']; simpl;
    try discriminate; [reflexivity|].
  intros [= H]. now rewrite IH.
Qed.

Lemma filter_split_length {A : Type} (p : A -> bool) (l : list A) :
  (length (List.filter (fun a => negb (p a)) l)
   = length l - length (List.filter p l))%nat
  /\ (length (List.filter p l) <= length l)%nat.
Proof.
  induction l as [|a rest [IH1 IH2]]; simpl; [split; reflexivity|].
  destruct (p a); simpl; lia.
Qed.

Lemma fetch_is_empty_fails (t : triple) : fetch_is_empty t = tract_fails t.
Proof.
  unfold fetch_is_empty, tract_fails, fetch_tract_acs, fetch_try, fetch_fails.
  destruct (acs_api _ _ _) as [|status [[|header [|row more]]|]];
    try reflexivity; destruct (http_error status); try reflexivity.
  unfold drop_last3. simpl.
  destruct row as [|v1 [|v2 [|v3 [|v4 row]]]]; reflexivity.
Qed.

(** C5, amended.  When every non-empty answer of the service holds the
    ten requested values and the table can be built from the collected
    rows, the tract ACS stage over the requested triples produces one row
    per triple whose fetch returned values and none for a triple whose
    fetch failed or came back empty: (requested - K) rows for K such
    triples, each holding its triple and the ten values under the
    requested variable names, in request order. *)
Theorem tract_acs_rows (requested : list triple) :
  (forall t values, In t requested ->
     fetch_tract_acs (fst (fst t)) (snd (fst t)) (snd t) = Some values ->
     values <> [] -> (10 <= length values)%nat) ->
  frame_builds acs_columns
    (map acs_row_of (List.filter (fun t => negb (tract_fails t)) requested))
  = true ->
  exists rows,
    tract_acs_stage requested = Some rows /\
    length rows
    = (length requested - length (List.filter tract_fails requested))%nat /\
    rows
    = map acs_row_of
        (List.filter (fun t => negb (tract_fails t)) requested) /\
    (forall t, In t requested -> tract_fails t = true ->
       ~ In (fst (fst t), snd (fst t), snd t)
            (map (fun r => (acs_STATEFP r, acs_COUNTYFP r, acs_TRACT r)) rows)) /\
    (forall r, In r rows ->
       map fst (acs_vars r) = ACS_VARS /\ length (acs_vars r) = 10%nat).
Proof.
  intros Hten Hbuilds.
  assert (List.filter (fun t => negb (fetch_is_empty t)) requested
          = List.filter (fun t => negb (tract_fails t)) requested) as Hsame
    by (apply filter_ext; intros t; now rewrite fetch_is_empty_fails).
  eexists. split.
  { unfold tract_acs_stage. rewrite (fetch_tracts_rows _ [] Hten). simpl.
    rewrite Hsame. unfold DataFrame. rewrite Hbuilds. reflexivity. }
  split; [|split; [reflexivity|split]].
  - rewrite length_map. apply filter_split_length.
  - intros t Hin Hempty. rewrite map_map. simpl.
    intros Hmem. apply in_map_iff in Hmem. destruct Hmem as (t' & Ht' & Hf).
    apply filter_In in Hf. destruct Hf as [_ Hok].
    destruct t as [[a b] c], t' as [[a' b'] c']. simpl in Ht'.
    injection Ht' as -> -> ->. rewrite Hempty in Hok. discriminate.
  - intros r Hr. apply in_map_iff in Hr. destruct Hr as (t & <- & Hf).
    apply filter_In in Hf. destruct Hf as [Hin Hok].
    rewrite <- fetch_is_empty_fails in Hok.
    unfold fetch_is_empty in Hok. unfold acs_row_of. cbn [acs_vars].
    destruct (fetch_tract_acs (fst (fst t)) (snd (fst t)) (snd t))
      as [[|v values]|] eqn:E; try discriminate.
    assert (10 <= length (v :: values))%nat as Hlen
      by (apply (Hten t); [exact Hin|exact E|discriminate]).
    assert (length (firstn 10 (v :: values)) = 10%nat) as Hf10
      by (rewrite length_firstn; lia).
    split.
    + apply map_fst_combine_length. rewrite Hf10. reflexivity.
    + rewrite length_combine, Hf10. reflexivity.
Qed.

(** *** The IndexError of the tract loop *)

Lemma result_dict_short (t : triple) (values : list (option string)) :
  (length values < 10)%nat -> result_dict t values = None.
Proof.
  intros Hlen.
  do 10 (destruct values as [|? values]; [reflexivity|]).
  simpl in Hlen. lia.
Qed.

(** A triple whose answer holds between one and nine values. *)
Definition short_answer (t : triple) : bool :=
  match fetch_tract_acs (fst (fst t)) (snd (fst t)) (snd t) with
  | Some ((_ :: _) as values) => (length values <? 10)%nat
  | _ => false
  end.

Lemma fetch_tracts_raises (requested : list triple)
  (acs_results : list acs_row) :
  fetch_tracts requested acs_results = None <->
  existsb short_answer requested = true.
Proof.
  revert acs_results.
  induction requested as [|t rest IH]; intros acc; simpl.
  - split; discriminate.
  - unfold short_answer at 1.
    destruct (fetch_tract_acs (fst (fst t)) (snd (fst t)) (snd t))
      as [[|v values]|] eqn:E; simpl; try apply IH.
    destruct (Nat.ltb_spec (S (length values)) 10) as [Hlt|Hge]; simpl.
    + rewrite result_dict_short by exact Hlt. tauto.
    + rewrite result_dict_ten by exact Hge. apply IH.
Qed.

(** X15.  The tract loop ends in the IndexError exactly when the service
    answers some requested tract with between one and nine values; it
    then returns no row at all, also not those of the tracts before.
    Otherwise it returns the rows of the answered tracts, in request
    order. *)
Theorem tract_loop_index_error (requested : list triple) :
  (fetch_tracts requested [] = None <->
   exists t values,
     In t requested /\
     fetch_tract_acs (fst (fst t)) (snd (fst t)) (snd t) = Some values /\
     (1 <= length values < 10)%nat) /\
  (fetch_tracts requested [] <> None ->
   fetch_tracts requested []
   = Some (map acs_row_of
             (List.filter (fun t => negb (fetch_is_empty t)) requested))).
Proof.
  split.
  - rewrite fetch_tracts_raises, existsb_exists. split.
    + intros (t & Hin & Hshort). unfold short_answer in Hshort.
      destruct (fetch_tract_acs (fst (fst t)) (snd (fst t)) (snd t))
        as [[|v values]|] eqn:E; try discriminate.
      exists t, (v :: values). split; [exact Hin|]. split; [exact E|].
      apply Nat.ltb_lt in Hshort. simpl in *. lia.
    + intros (t & values & Hin & E & Hlen). exists t. split; [exact Hin|].
      unfold short_answer. rewrite E.
      destruct values as [|v values]; [simpl in Hlen; lia|].
      apply Nat.ltb_lt. lia.
  - intros Hok. apply (fetch_tracts_rows requested []).
    intros t values Hin E Hne.
    destruct (Nat.lt_ge_cases (length values) 10) as [Hlt|Hge]; [|exact Hge].
    exfalso. apply Hok. apply fetch_tracts_raises, existsb_exists.
    exists t. split; [exact Hin|]. unfold short_answer. rewrite E.
    destruct values as [|v values]; [congruence|]. now apply Nat.ltb_lt.
Qed.

(** *** Well-formed answers *)

(** The answer the ACS API documents for one tract: an OK status, a
    header row, then a row of the ten values followed by the three
    echoed codes. *)
Definition well_formed (reply : acs_reply) (values : list (option string))
  : Prop :=
  exists status header codes more,
    reply = AcsResponse status (Some (header :: (values ++ codes) :: more)) /\
    http_error status = false /\
    length values = 10%nat /\ length codes = 3%nat.

Lemma drop_last3_app {A : Type} (values codes : list A) :
  length codes = 3%nat -> drop_last3 (values ++ codes) = values.
Proof.
  intros Hc. unfold drop_last3. rewrite length_app, Hc.
  replace (length values + 3 - 3)%nat with (length values + 0)%nat by lia.
  now rewrite firstn_app_2, app_nil_r.
Qed.

Lemma well_formed_fetch (t : triple) (values : list (option string)) :
  well_formed (acs_api (fst (fst t)) (snd (fst t)) (snd t)) values ->
  fetch_tract_acs (fst (fst t)) (snd (fst t)) (snd t) = Some values /\
  length values = 10%nat.
Proof.
  intros (status & header & codes & more & Hr & Hst & Hv & Hc).
  unfold fetch_tract_acs. rewrite Hr. simpl. rewrite Hst.
  now rewrite drop_last3_app.
Qed.

(** X16.  When the service answers every requested tract in the
    documented form, the loop gives one row per requested tract, in
    request order: the row holds the tract's three codes and pairs the
    ten variable names, in the order of [ACS_VARS], with the ten values
    of the answer; the three echoed codes of the answer are dropped. *)
Theorem well_formed_answers_rows (requested : list triple)
  (answer : triple -> list (option string)) :
  (forall t, In t requested ->
     well_formed (acs_api (fst (fst t)) (snd (fst t)) (snd t)) (answer t)) ->
  fetch_tracts requested []
  = Some (map (fun t => {| acs_STATEFP := fst (fst t);
                           acs_COUNTYFP := snd (fst t);
                           acs_TRACT := snd t;
                           acs_vars := combine ACS_VARS (answer t) |})
            requested).
Proof.
  intros Hwf. rewrite fetch_tracts_rows.
  - simpl. f_equal.
    induction requested as [|t rest IH]; simpl; [reflexivity|].
    destruct (well_formed_fetch t (answer t) (Hwf t (or_introl eq_refl)))
      as [E Hlen].
    unfold fetch_is_empty at 1. rewrite E.
    destruct (answer t) as [|v values] eqn:Ea; [discriminate|]. simpl.
    rewrite IH by (intros t' Hin; apply Hwf; now right). f_equal.
    unfold acs_row_of. rewrite E. f_equal.
    rewrite firstn_all2 by (rewrite Hlen; lia). reflexivity.
  - intros t values Hin E _.
    destruct (well_formed_fetch t (answer t) (Hwf t Hin)) as [E' Hlen].
    rewrite E in E'. injection E' as ->. lia.
Qed.

End Services.


(** A geocoder that knows one location and fails everywhere else, and an
    ACS service that answers one tract in full, one with a header only,
    and does not answer a third. *)
Definition demo_geocoder (lat lon : option float) : geocoder_reply :=
  match lat with
  | Some y =>
      if (y =? 43.5)%float then
        GeoResponse 200
          (Some {[ "Census Tracts"%string :=
                     [ {[ "STATE"%string := Some "16"%string;
                          "COUNTY"%string := Some "065"%string;
                          "TRACT"%string := Some "950100"%string ]} ] ]})
      else if (y =? 0)%float then
        GeoResponse 200 (Some {[ "Census Tracts"%string := [] ]})
      else GeoResponse 500 None
  | None => GeoNoResponse
  end.

Definition demo_stores_df : list Census.store_row :=
  [ {| Census.STORE_ID := Some "42"%string; Census.LATITUDE := Some 43.5%float;
       Census.LONGITUDE := Some (-112)%float; Census.STATE := Some "ID"%string;
       Census.CITY := Some "REXBURG"%string |};
    {| Census.STORE_ID := Some "43"%string; Census.LATITUDE := Some 0%float;
       Census.LONGITUDE := Some 0%float; Census.STATE := None;
       Census.CITY := None |};
    {| Census.STORE_ID := Some "44"%string; Census.LATITUDE := None;
       Census.LONGITUDE := None; Census.STATE := None; Census.CITY := None |} ].

Example geocode_three_stores :
  geocode_stores demo_geocoder demo_stores_df
  = [ {| STORE_ID := Some "42"%string; STATEFP := Some "16"%string;
         COUNTYFP := Some "065"%string; TRACT := Some "950100"%string |};
      {| STORE_ID := Some "43"%string; STATEFP := None; COUNTYFP := None;
         TRACT := None |};
      {| STORE_ID := Some "44"%string; STATEFP := None; COUNTYFP := None;
         TRACT := None |} ].
Proof. vm_compute. reflexivity. Qed.

Definition demo_acs (state county tract : string) : acs_reply :=
  if String.eqb tract "950100" then
    AcsResponse 200
      (Some [ map Some (ACS_VARS ++ ["state"; "county"; "tract"]%string);
              [ Some "4321"; Some "4321"; Some "61000"; Some "12"; None;
                Some "250000"; Some "900"; Some "2000"; Some "50";
                Some "1500"; Some "16"; Some "065"; Some "950100" ]%string ])
  else if String.eqb tract "950200" then
    AcsResponse 200
      (Some [ map Some (ACS_VARS ++ ["state"; "county"; "tract"]%string) ])
  else AcsNoResponse.

Definition demo_requested : list triple :=
  [ ("16", "065", "950100"); ("16", "065", "950200");
    ("16", "019", "970000") ]%string.

(** Three requested tracts, two without values: one row. *)
Lemma tract_acs_rows_witness :
  exists rows,
    tract_acs_stage demo_acs demo_requested = Some rows /\
    length rows = 1%nat.
Proof.
  destruct (tract_acs_rows demo_acs demo_requested) as (rows & Hrun & Hlen & _).
  - intros t values [<-|[<-|[<-|[]]]] H Hne; vm_compute in H;
      try discriminate; injection H as <-; simpl; lia.
  - vm_compute. reflexivity.
  - exists rows. split; [exact Hrun|]. rewrite Hlen. reflexivity.
Defined.

(** A service that answers every tract with two values only. *)
Definition short_acs (state county tract : string) : acs_reply :=
  AcsResponse 200
    (Some [ []; [ Some "4321"; Some "61000"; Some "16"; Some "065";
                  Some "950100" ]%string ]).

(** C5, as stated, fails: the service answers the one requested tract
    with two values, so no fetch fails or comes back empty (K = 0), yet
    the stage ends in the IndexError and produces no row instead of
    one. *)
Lemma short_answer_yields_no_row :
  List.filter (tract_fails short_acs) [("16", "065", "950100")%string] = [] /\
  fetch_tract_acs short_acs "16" "065" "950100"
  = Some [Some "4321"; Some "61000"]%string /\
  tract_acs_stage short_acs [("16", "065", "950100")%string] = None.
Proof. repeat split; vm_compute; reflexivity. Qed.

(** A geocoder that answers every location without error, all three
    fields present and null. *)
Definition null_geocoder (lat lon : option float) : geocoder_reply :=
  GeoResponse 200
    (Some {[ "Census Tracts"%string :=
               [ {[ "STATE"%string := None; "COUNTY"%string := None;
                    "TRACT"%string := None ]} ] ]}).

(** C4, as stated, fails: the call for the one store of the batch raises
    nothing and misses no field, so no call fails (M = 0), yet the row of
    the store has null state, county and tract. *)
Lemma null_answer_gives_null_row :
  List.filter (store_fails null_geocoder) (firstn 1 demo_stores_df) = [] /\
  geocode_stage null_geocoder (firstn 1 demo_stores_df)
  = Some [ {| STORE_ID := Some "42"%string; STATEFP := None;
              COUNTYFP := None; TRACT := None |} ] /\
  null_geography {| STORE_ID := Some "42"%string; STATEFP := None;
                    COUNTYFP := None; TRACT := None |} = true.
Proof. repeat split; vm_compute; reflexivity. Qed.

(** Three stores, two failing calls: three rows, two with null
    geography. *)
Lemma geocode_batch_rows_witness :
  exists tract_df,
    geocode_stage demo_geocoder demo_stores_df = Some tract_df /\
    length tract_df = 3%nat /\
    length (List.filter null_geography tract_df) = 2%nat.
Proof.
  destruct (geocode_batch_rows demo_geocoder demo_stores_df)
    as (tract_df & Hrun & Hlen & _ & _ & Hnull).
  - vm_compute. reflexivity.
  - exists tract_df. split; [exact Hrun|]. split; [exact Hlen|].
    rewrite Hnull; [reflexivity|].
    intros store [<-|[<-|[<-|[]]]]; vm_compute; reflexivity.
Defined.

(** A store without coordinates: its call gets no response. *)
Definition unlocated_store : Census.store_row :=
  {| Census.STORE_ID := Some "44"%string; Census.LATITUDE := None;
     Census.LONGITUDE := None; Census.STATE := None; Census.CITY := None |}.

(** The table is built from the rows when an answer with text is among
    the first hundred rows, and is not when it first comes later. *)
Example late_answer_builds_no_table :
  geocode_stage demo_geocoder
    (repeat unlocated_store 100 ++ firstn 1 demo_stores_df) = None /\
  geocode_stage demo_geocoder
    (repeat unlocated_store 99 ++ firstn 1 demo_stores_df)
  = Some (geocode_stores demo_geocoder
            (repeat unlocated_store 99 ++ firstn 1 demo_stores_df)).
Proof. split; vm_compute; reflexivity. Qed.

Definition demo_values : list (option string) :=
  [ Some "4321"; Some "4321"; Some "61000"; Some "12"; None;
    Some "250000"; Some "900"; Some "2000"; Some "50"; Some "1500" ]%string.

(** The tract the example service answers in full gives its row. *)
Lemma well_formed_answers_rows_witness :
  fetch_tracts demo_acs [("16", "065", "950100")%string] []
  = Some [ {| acs_STATEFP := "16"; acs_COUNTYFP := "065";
              acs_TRACT := "950100";
              acs_vars := combine ACS_VARS demo_values |} ].
Proof.
  apply (well_formed_answers_rows demo_acs [("16", "065", "950100")%string]
           (fun _ => demo_values)).
  intros t [<-|[]].
  exists 200, (map Some (ACS_VARS ++ ["state"; "county"; "tract"]%string)),
    [Some "16"; Some "065"; Some "950100"]%string, [].
  repeat split; reflexivity.
Defined.

End Enrichment.

(** ** The joins on the store identifier (C7) *)

Module StoreJoins.
Import Polars Census.

(** [stores_tract]: [stores_df.join(tract_df, on="STORE_ID", how="left")]. *)
Definition stores_tract (stores_df : list store_row)
  (tract_df : list Enrichment.tract_row)
  : list (store_row * option Enrichment.tract_row) :=
  join_left String.eqb STORE_ID Enrichment.STORE_ID stores_df tract_df.

(** Store 42 as Int64 in the store table and as Float64 in the daily
    table. *)
Definition store_42 : Stores.row :=
  {| Stores.STORE_ID := Some (I64 42); Stores.LATITUDE := Some 43.5%float;
     Stores.LONGITUDE := Some (-112)%float; Stores.STATE := Some "ID"%string;
     Stores.CITY := Some "REXBURG"%string |}.

Definition daily_42 : Daily.row :=
  {| Daily.STORE_ID := Some (F64 42%float);
     Daily.CATEGORY := Some "SNACK"%string;
     Daily.SUBCATEGORY := None; Daily.BRAND := Some "A"%string;
     Daily.SKUPOS_DESCRIPTION := Some "CHIPS"%string;
     Daily.CALENDAR_YEAR := Some 2023; Daily.CALENDAR_MONTH := Some 1;
     Daily.WEEk := Some 1; Daily.TOTAL_REVENUE_AMOUNT := Some 3%float;
     Daily.QUANTITY := Some 1; Daily.TRANSACTION_COUNT := Some 1 |}.

Definition store_row_42 : store_row :=
  {| STORE_ID := Some "42"%string; LATITUDE := Some 43.5%float;
     LONGITUDE := Some (-112)%float; STATE := Some "ID"%string;
     CITY := Some "REXBURG"%string |}.

Definition perf_row_42 : perf_row :=
  {| perf_STORE_ID := Some "42"%string; revenue := 3%float;
     transactions := 1 |}.

Example stores_df_42 : stores_df [store_42] = Some [store_row_42].
Proof. vm_compute. reflexivity. Qed.

Example store_perf_42 : store_perf [daily_42] = Some [perf_row_42].
Proof. vm_compute. reflexivity. Qed.

(** C7, as stated, fails: the text "42.0" is not accepted by the integer
    cast (the expression raises, and with it the cast of the whole
    column), so it does not get the key of 42. *)
Lemma decimal_text_is_rejected :
  canonical_store_id (I64 42) = Some "42"%string /\
  canonical_store_id (Utf8 "42.0") = None /\
  stores_df
    [ {| Stores.STORE_ID := Some (Utf8 "42.0"); Stores.LATITUDE := None;
         Stores.LONGITUDE := None; Stores.STATE := None;
         Stores.CITY := None |} ] = None.
Proof. repeat split; vm_compute; reflexivity. Qed.

(** C7, amended.  The integer-then-text cast gives an identifier the same
    join key whether the column holds it as an Int64, as a Float64 with
    that integer part, or as its integer numeral in text; different
    identifiers get different keys.  So a store row and daily rows whose
    identifiers have the same key are matched by the left join of the
    (enriched) store table with the store performance table, and every
    store row is matched with its geocoding row.  (A text with a decimal
    point is outside this statement.) *)
Theorem store_id_keys_agree :
  (forall z, in_i64 z = true ->
     canonical_store_id (I64 z) = Some (cast_utf8 z) /\
     canonical_store_id (Utf8 (cast_utf8 z)) = Some (cast_utf8 z) /\
     (forall f, f64_trunc f = Some z ->
        canonical_store_id (F64 f) = Some (cast_utf8 z)))
  /\
  (forall z z', cast_utf8 z = cast_utf8 z' -> z = z')
  /\
  (forall stores filtered_daily sdf perf s d vs vd k,
     stores_df stores = Some sdf -> store_perf filtered_daily = Some perf ->
     In s stores -> In d filtered_daily ->
     Stores.STORE_ID s = Some vs -> Daily.STORE_ID d = Some vd ->
     canonical_store_id vs = Some k -> canonical_store_id vd = Some k ->
     exists l p,
       In l sdf /\ STORE_ID l = Some k /\
       In p perf /\ perf_STORE_ID p = Some k /\
       forall (E : Type) (store_id : E -> option string)
              (stores_enriched : list E) (e : E),
         In e stores_enriched -> store_id e = STORE_ID l ->
         In (e, Some p) (stores_with_perf store_id stores_enriched perf))
  /\
  (forall census_geocoder sdf l,
     In l sdf -> STORE_ID l <> None ->
     exists t,
       In (l, Some t)
          (stores_tract sdf (Enrichment.geocode_stores census_geocoder sdf)) /\
       Enrichment.STORE_ID t = STORE_ID l).
Proof.
  split; [|split; [|split]].
  - intros z Hz. split; [reflexivity|]. split.
    + unfold canonical_store_id. simpl. now rewrite parse_i64_cast_utf8.
    + intros f Hf. unfold canonical_store_id. simpl. now rewrite Hf, Hz.
  - apply cast_utf8_inj.
  - intros stores fd sdf perf s d vs vd k Hsdf Hperf Hs Hd Hvs Hvd Hks Hkd.
    destruct (stores_df_key _ _ _ _ _ Hsdf Hs Hvs Hks) as (l & Hl & Hlk & _).
    destruct (store_perf_key _ _ _ _ _ Hperf Hd Hvd Hkd) as (p & Hp & Hpk).
    exists l, p. repeat split; auto.
    intros E store_id enriched e He Hid. apply join_left_match; auto.
    rewrite Hid, Hlk, Hpk. simpl. apply String.eqb_refl.
  - intros svc sdf l Hl Hid.
    exists (Enrichment.tract_row_of svc l). split; [|reflexivity].
    apply join_left_match; [exact Hl| |].
    + rewrite Enrichment.geocode_stores_map. now apply in_map.
    + simpl. destruct (STORE_ID l) as [k|]; [|congruence].
      simpl. apply String.eqb_refl.
Qed.

(** Store 42 held as Int64, as Float64 and as the text "42" has the key
    "42", and the store row is matched with the performance row computed
    from the Float64 daily rows. *)
Lemma store_id_keys_agree_witness :
  canonical_store_id (I64 42) = Some "42"%string /\
  canonical_store_id (Utf8 "42") = Some "42"%string /\
  canonical_store_id (F64 42%float) = Some "42"%string /\
  exists l p,
    STORE_ID l = Some "42"%string /\ perf_STORE_ID p = Some "42"%string /\
    In (l, Some p) (stores_with_perf STORE_ID [store_row_42] [perf_row_42]).
Proof.
  destruct store_id_keys_agree as (Hkey & _ & Hjoin & _).
  destruct (Hkey 42 eq_refl) as (Hi & Ht & Hf).
  split; [exact Hi|]. split; [exact Ht|].
  split; [apply Hf; vm_compute; reflexivity|].
  destruct (Hjoin [store_42] [daily_42] [store_row_42] [perf_row_42]
              store_42 daily_42 (I64 42) (F64 42%float) "42"%string)
    as (l & p & Hl & Hlk & _ & Hpk & Hin);
    try (vm_compute; reflexivity); try (left; reflexivity).
  exists l, p. split; [exact Hlk|]. split; [exact Hpk|].
  apply Hin; [exact Hl|reflexivity].
Defined.

(** *** One row per store in the performance join *)

Lemma join_left_unique_keys {L R K : Type} (eqb : K -> K -> bool)
  (lkey : L -> option K) (rkey : R -> option K)
  (left : list L) (right : list R) :
  (forall x y, eqb x y = true <-> x = y) ->
  List.NoDup (map rkey right) ->
  map fst (join_left eqb lkey rkey left right) = left.
Proof.
  intros Heqb Hnd. unfold join_left.
  induction left as [|l rest IH]; [reflexivity|].
  cbn [flat_map]. rewrite map_app, IH. clear IH.
  pose proof (filter_unique_key eqb rkey right (lkey l) Heqb Hnd) as Hlen.
  destruct (List.filter (fun r => join_eqb eqb (lkey l) (rkey r)) right)
    as [|m [|m' ms]]; simpl in *; [reflexivity|reflexivity|lia].
Qed.

Lemma store_perf_keys (filtered_daily : list Daily.row)
  (perf : list perf_row) :
  store_perf filtered_daily = Some perf ->
  List.NoDup (map perf_STORE_ID perf).
Proof.
  unfold store_perf.
  destruct (strict_map _ filtered_daily) as [keyed|]; [|discriminate].
  intros [= <-]. rewrite map_map. simpl.
  apply (group_by_keys_NoDup (key_eqb String.eqb) fst).
  apply key_eqb_spec, String.eqb_eq.
Qed.

(** X17.  The performance table has one row per store key, so the left
    join of the enriched store table with it neither drops nor repeats a
    store: [stores_with_perf] has the rows of the enriched table, in
    their order, each once.  A store has null performance columns exactly
    when its identifier is null or is the key of no performance row. *)
Theorem stores_with_perf_one_row_per_store {E : Type}
  (store_id : E -> option string) (stores_enriched : list E)
  (filtered_daily : list Daily.row) (perf : list perf_row) :
  store_perf filtered_daily = Some perf ->
  List.NoDup (map perf_STORE_ID perf) /\
  map fst (stores_with_perf store_id stores_enriched perf) = stores_enriched /\
  length (stores_with_perf store_id stores_enriched perf)
  = length stores_enriched /\
  (forall e,
     In (e, None) (stores_with_perf store_id stores_enriched perf) <->
     In e stores_enriched /\
     forall p, In p perf -> ~ same_key (store_id e) (perf_STORE_ID p)).
Proof.
  intros Hperf. pose proof (store_perf_keys _ _ Hperf) as Hnd.
  assert (map fst (stores_with_perf store_id stores_enriched perf)
          = stores_enriched) as Hfst
    by now apply join_left_unique_keys; [apply String.eqb_eq|].
  split; [exact Hnd|]. split; [exact Hfst|]. split.
  - rewrite <- Hfst at 2. now rewrite length_map.
  - intros e. unfold stores_with_perf. rewrite join_left_In. split.
    + intros [He Hno]. split; [exact He|]. intros p Hp Hm.
      apply (join_eqb_same_key String.eqb String.eqb_eq) in Hm.
      rewrite (Hno p Hp) in Hm. discriminate.
    + intros [He Hno]. split; [exact He|]. intros p Hp.
      destruct (join_eqb String.eqb (store_id e) (perf_STORE_ID p)) eqn:Em;
        [|reflexivity].
      apply (join_eqb_same_key String.eqb String.eqb_eq) in Em.
      destruct (Hno p Hp Em).
Qed.

(** Store 42 with its performance row, and a store without sales. *)
Lemma stores_with_perf_one_row_per_store_witness :
  length (stores_with_perf STORE_ID
            [store_row_42;
             {| STORE_ID := Some "7"%string; LATITUDE := None;
                LONGITUDE := None; STATE := None; CITY := None |}]
            [perf_row_42]) = 2%nat.
Proof.
  destruct (stores_with_perf_one_row_per_store STORE_ID
              [store_row_42;
               {| STORE_ID := Some "7"%string; LATITUDE := None;
                  LONGITUDE := None; STATE := None; CITY := None |}]
              [daily_42] [perf_row_42] store_perf_42) as (_ & _ & Hlen & _).
  exact Hlen.
Defined.

End StoreJoins.

(** ** The enrichment pipeline: session flags, cache files, page runs *)

Module Pipeline.
Import Polars Enrichment.

(** The county table [fetch_county_acs] builds: header and rows. *)
Record county_table : Type := {
  county_header : list string;
  county_rows : list (list (option string))
}.

(** What the bulk county request brings back; [table] is [None] when the
    body is not JSON or [pl.DataFrame(rows, schema=header)] or the casts
    of the state and county columns raise. *)
Inductive county_reply : Type :=
| CountyNoResponse
| CountyResponse (status : Z) (table : option county_table).

(** [fetch_county_acs]: the table, or None after any exception. *)
Definition fetch_county_try (reply : county_reply) : option county_table :=
  match reply with
  | CountyNoResponse => None
  | CountyResponse status table => if http_error status then None else table
  end.

(** The six entries of [st.session_state] this page uses. *)
Record session_state : Type := {
  tract_geocoded : option bool;
  tract_df : option (list tract_row);
  acs_tract_fetched : option bool;
  acs_tract_df : option (list acs_row);
  county_acs_fetched : option bool;
  county_acs_df : option county_table
}.

(** A cache file: readable with a table, or present but not readable
    ([pl.read_parquet] raises). *)
Inductive cached (T : Type) : Type :=
| Readable (t : T)
| Unreadable.
Arguments Readable {T} t.
Arguments Unreadable {T}.

(** The three cache files of the [data] directory; [None]: no file. *)
Record data_dir : Type := {
  census_tract_geocoded : option (cached (list tract_row));
  census_tract_acs : option (cached (list acs_row));
  census_county_acs : option (cached county_table)
}.

Record world : Type := {
  disk : data_dir;
  session : session_state
}.

Definition tract_cache_file : string := "data/census_tract_geocoded.parquet".
Definition tract_acs_cache_file : string := "data/census_tract_acs.parquet".
Definition county_acs_cache_file : string := "data/census_county_acs.parquet".

Definition present {A : Type} (o : option A) : bool :=
  match o with Some _ => true | None => false end.

(** [os.path.exists(file)]. *)
Definition path_exists (file : string) (d : data_dir) : bool :=
  if String.eqb file tract_cache_file then present (census_tract_geocoded d)
  else if String.eqb file tract_acs_cache_file then present (census_tract_acs d)
  else if String.eqb file county_acs_cache_file
       then present (census_county_acs d)
  else false.

(** [os.remove(file)]. *)
Definition remove (file : string) (d : data_dir) : data_dir :=
  if String.eqb file tract_cache_file then
    {| census_tract_geocoded := None;
       census_tract_acs := census_tract_acs d;
       census_county_acs := census_county_acs d |}
  else if String.eqb file tract_acs_cache_file then
    {| census_tract_geocoded := census_tract_geocoded d;
       census_tract_acs := None;
       census_county_acs := census_county_acs d |}
  else if String.eqb file county_acs_cache_file then
    {| census_tract_geocoded := census_tract_geocoded d;
       census_tract_acs := census_tract_acs d;
       census_county_acs := None |}
  else d.

(** [key in st.session_state]. *)
Definition contains (key : string) (s : session_state) : bool :=
  if String.eqb key "tract_geocoded" then present (tract_geocoded s)
  else if String.eqb key "tract_df" then present (tract_df s)
  else if String.eqb key "acs_tract_fetched" then present (acs_tract_fetched s)
  else if String.eqb key "acs_tract_df" then present (acs_tract_df s)
  else if String.eqb key "county_acs_fetched"
       then present (county_acs_fetched s)
  else if String.eqb key "county_acs_df" then present (county_acs_df s)
  else false.

(** [del st.session_state[key]]. *)
Definition del (key : string) (s : session_state) : session_state :=
  {| tract_geocoded :=
       if String.eqb key "tract_geocoded" then None else tract_geocoded s;
     tract_df := if String.eqb key "tract_df" then None else tract_df s;
     acs_tract_fetched :=
       if String.eqb key "acs_tract_fetched" then None
       else acs_tract_fetched s;
     acs_tract_df :=
       if String.eqb key "acs_tract_df" then None else acs_tract_df s;
     county_acs_fetched :=
       if String.eqb key "county_acs_fetched" then None
       else county_acs_fetched s;
     county_acs_df :=
       if String.eqb key "county_acs_df" then None else county_acs_df s |}.

Definition files_to_delete : list string :=
  [ "data/census_tract_geocoded.parquet"; "data/census_tract_acs.parquet";
    "data/census_county_acs.parquet" ]%string.

Definition session_keys : list string :=
  [ "tract_geocoded"; "tract_df"; "acs_tract_fetched"; "acs_tract_df";
    "county_acs_fetched"; "county_acs_df" ]%string.

(** The body of [if st.button("Clear Census Cache"):], with the list
    [deleted] it reports. *)
Definition clear_census_cache (w : world) : world * list string :=
  let '(dir, deleted) :=
    fold_left
      (fun acc file =>
         if path_exists file (fst acc)
         then (remove file (fst acc), snd acc ++ [file])
         else acc)
      files_to_delete (disk w, []) in
  let cleared :=
    fold_left (fun ss key => if contains key ss then del key ss else ss)
      session_keys (session w) in
  ({| disk := dir; session := cleared |}, deleted).

(** The stage a session is in.  [GEOCODED] is the spec's GEOCODED /
    TRACT_ACS_PENDING and [TRACT_ACS_FETCHED] its TRACT_ACS_FETCHED /
    COUNTY_ACS_PENDING: the flags do not tell them apart. *)
Inductive stage : Type :=
| NOT_GEOCODED
| GEOCODED
| TRACT_ACS_FETCHED
| COUNTY_ACS_FETCHED.

Definition has_rows {A : Type} (o : option (list A)) : bool :=
  match o with Some (_ :: _) => true | _ => false end.

Definition is_true (flag : option bool) : bool :=
  match flag with Some true => true | _ => false end.

Definition stage_of (s : session_state) : stage :=
  if negb (is_true (tract_geocoded s)) then NOT_GEOCODED
  else if negb (is_true (acs_tract_fetched s)) then GEOCODED
  else if negb (is_true (county_acs_fetched s)) then TRACT_ACS_FETCHED
  else COUNTY_ACS_FETCHED.

(** The interaction that triggers a run of the script. *)
Inductive event : Type :=
| Rerun
| ClickGeocode
| ClickFetchTract
| ClickFetchCounty
| ClickClear.

(** How a run ends: at the end of the script, or at an uncaught
    exception; either way the session and the files keep what the run
    wrote. *)
Inductive outcome : Type :=
| Done (w : world)
| Raised (w : world).

Definition world_of (o : outcome) : world :=
  match o with Done w | Raised w => w end.

Definition and_then (o : outcome) (k : world -> outcome) : outcome :=
  match o with
  | Done w => k w
  | Raised w => Raised w
  end.

Notation "o >>= k" := (and_then o k) (at level 50, left associativity).

Definition set_tract (flag : option bool) (df : option (list tract_row))
  (s : session_state) : session_state :=
  {| tract_geocoded := flag; tract_df := df;
     acs_tract_fetched := acs_tract_fetched s;
     acs_tract_df := acs_tract_df s;
     county_acs_fetched := county_acs_fetched s;
     county_acs_df := county_acs_df s |}.

Definition set_acs_tract (flag : option bool) (df : option (list acs_row))
  (s : session_state) : session_state :=
  {| tract_geocoded := tract_geocoded s; tract_df := tract_df s;
     acs_tract_fetched := flag; acs_tract_df := df;
     county_acs_fetched := county_acs_fetched s;
     county_acs_df := county_acs_df s |}.

Definition set_county (flag : option bool) (df : option county_table)
  (s : session_state) : session_state :=
  {| tract_geocoded := tract_geocoded s; tract_df := tract_df s;
     acs_tract_fetched := acs_tract_fetched s;
     acs_tract_df := acs_tract_df s;
     county_acs_fetched := flag; county_acs_df := df |}.

Section Page.

Variable census_geocoder : option float -> option float -> geocoder_reply.
Variable acs_api : string -> string -> string -> acs_reply.
Variable acs_county_api : county_reply.
(** Whether building and rendering the demographic report raises; the
    report is presentation and is not modelled further. *)
Variable report_raises : session_state -> bool.

(** "Geocoding Stores": the cache probe when the flag is not yet in the
    session, then the button.  When the table cannot be built from the
    collected rows the run ends there, before anything is stored. *)
Definition geocode_section (ev : event) (stores_df : list Census.store_row)
  (w : world) : outcome :=
  let probed :=
    match tract_geocoded (session w) with
    | Some _ => session w
    | None =>
        match census_tract_geocoded (disk w) with
        | Some (Readable t) => set_tract (Some true) (Some t) (session w)
        | Some Unreadable | None =>
            set_tract (Some false) (tract_df (session w)) (session w)
        end
    end in
  match ev with
  | ClickGeocode =>
      if is_true (tract_geocoded probed) then
        Done {| disk := disk w; session := probed |}
      else
        match geocode_stage census_geocoder stores_df with
        | Some tract_df =>
            Done
              {| disk :=
                   {| census_tract_geocoded := Some (Readable tract_df);
                      census_tract_acs := census_tract_acs (disk w);
                      census_county_acs := census_county_acs (disk w) |};
                 session := set_tract (Some true) (Some tract_df) probed |}
        | None => Raised {| disk := disk w; session := probed |}
        end
  | _ => Done {| disk := disk w; session := probed |}
  end.

(** "Fetch Tract-Level ACS Data", entered when the stores are geocoded
    and [tract_df] is in the session.  A table built from no row has no
    column, so [unique_tracts] raises on it. *)
Definition tract_section (ev : event) (w : world) : outcome :=
  match tract_df (session w) with
  | Some tract_df =>
      if is_true (tract_geocoded (session w)) then
        match tract_df with
        | [] => Raised w
        | _ :: _ =>
            let probed :=
              match acs_tract_fetched (session w) with
              | Some _ => session w
              | None =>
                  match census_tract_acs (disk w) with
                  | Some (Readable t) =>
                      set_acs_tract (Some true) (Some t) (session w)
                  | Some Unreadable | None =>
                      set_acs_tract (Some false) (acs_tract_df (session w))
                        (session w)
                  end
              end in
            match ev with
            | ClickFetchTract =>
                if is_true (acs_tract_fetched probed) then
                  Done {| disk := disk w; session := probed |}
                else
                  match tract_acs_stage acs_api (unique_tracts tract_df) with
                  | Some acs_results =>
                      Done
                        {| disk :=
                             {| census_tract_geocoded :=
                                  census_tract_geocoded (disk w);
                                census_tract_acs :=
                                  Some (Readable acs_results);
                                census_county_acs :=
                                  census_county_acs (disk w) |};
                           session :=
                             set_acs_tract (Some true) (Some acs_results)
                               probed |}
                  | None => Raised {| disk := disk w; session := probed |}
                  end
            | _ => Done {| disk := disk w; session := probed |}
            end
        end
      else Done w
  | None => Done w
  end.

(** "Fetch County-Level ACS Data" and the report, entered when the tract
    data are fetched.  The joins of the report read the three tables from
    the session and raise when one is missing or was built from no row. *)
Definition county_section (ev : event) (w : world) : outcome :=
  if is_true (acs_tract_fetched (session w)) then
    let probed :=
      match county_acs_fetched (session w) with
      | Some _ => session w
      | None =>
          match census_county_acs (disk w) with
          | Some (Readable t) => set_county (Some true) (Some t) (session w)
          | Some Unreadable | None =>
              set_county (Some false) (county_acs_df (session w)) (session w)
          end
      end in
    let fetched :=
      match ev with
      | ClickFetchCounty =>
          if is_true (county_acs_fetched probed) then
            {| disk := disk w; session := probed |}
          else
            match fetch_county_try acs_county_api with
            | Some county_df =>
                {| disk :=
                     {| census_tract_geocoded :=
                          census_tract_geocoded (disk w);
                        census_tract_acs := census_tract_acs (disk w);
                        census_county_acs := Some (Readable county_df) |};
                   session := set_county (Some true) (Some county_df) probed |}
            | None => {| disk := disk w; session := probed |}
            end
      | _ => {| disk := disk w; session := probed |}
      end in
    if has_rows (tract_df (session fetched))
       && has_rows (acs_tract_df (session fetched))
       && present (county_acs_df (session fetched))
       && negb (report_raises (session fetched))
    then Done fetched
    else Raised fetched
  else Done w.

(** "Cache Management". *)
Definition cache_management (ev : event) (w : world) : world :=
  match ev with
  | ClickClear => fst (clear_census_cache w)
  | _ => w
  end.

(** One run of the page for an interaction. *)
Definition page_run (ev : event) (stores : list Stores.row) (w : world)
  : outcome :=
  match Census.stores_df stores with
  | None => Raised w
  | Some stores_df =>
      geocode_section ev stores_df w
      >>= tract_section ev
      >>= county_section ev
      >>= (fun w' => Done (cache_management ev w'))
  end.

End Page.

(** *** Clearing the cache *)

(** The state of a first visit: no cache file, nothing in the session. *)
Definition pristine : world :=
  {| disk := {| census_tract_geocoded := None; census_tract_acs := None;
                census_county_acs := None |};
     session := {| tract_geocoded := None; tract_df := None;
                   acs_tract_fetched := None; acs_tract_df := None;
                   county_acs_fetched := None; county_acs_df := None |} |}.

Lemma clear_census_cache_pristine (w : world) :
  fst (clear_census_cache w) = pristine.
Proof.
  destruct w as [[g a c] [f1 d1 f2 d2 f3 d3]]. unfold clear_census_cache.
  cbn [disk session].
  assert (fold_left
            (fun ss key => if contains key ss then del key ss else ss)
            session_keys
            {| tract_geocoded := f1; tract_df := d1; acs_tract_fetched := f2;
               acs_tract_df := d2; county_acs_fetched := f3;
               county_acs_df := d3 |}
          = session pristine) as ->.
  { destruct f1, d1, f2, d2, f3, d3; reflexivity. }
  destruct g, a, c; reflexivity.
Qed.

Lemma clear_census_cache_deleted (w : world) :
  snd (clear_census_cache w)
  = List.filter (fun file => path_exists file (disk w)) files_to_delete.
Proof.
  destruct w as [[g a c] ss]. unfold clear_census_cache. cbn [disk session].
  destruct g, a, c; reflexivity.
Qed.

Section Restart.

Variable census_geocoder : option float -> option float -> geocoder_reply.
Variable acs_api : string -> string -> string -> acs_reply.
Variable acs_county_api : county_reply.
Variable report_raises : session_state -> bool.

Let run := page_run census_geocoder acs_api acs_county_api report_raises.

(** C6.  The cache-clear operation leaves none of the three cache files
    and none of the six session entries (flags and tables): the state is
    that of a first visit, stage NOT_GEOCODED.  A following run loads
    nothing; the stages then run anew, each on its button: geocoding
    calls the geocoder for every store, the tract stage fetches every
    tract of the new geocoding, the county stage fetches the counties,
    and each writes its cache file again.  A stage whose table cannot be
    built or whose loop raises ends the run with nothing stored and
    nothing loaded.  (Results memoised by [st.cache_data] are not part of
    this state.) *)
Theorem cache_clear_restarts_pipeline (w : world) (stores : list Stores.row)
  (stores_df : list Census.store_row) :
  let w0 := fst (clear_census_cache w) in
  (forall file, In file files_to_delete -> path_exists file (disk w0) = false)
  /\
  (forall key, In key session_keys -> contains key (session w0) = false)
  /\
  snd (clear_census_cache w)
  = List.filter (fun file => path_exists file (disk w)) files_to_delete
  /\
  w0 = pristine
  /\
  stage_of (session w0) = NOT_GEOCODED
  /\
  (Census.stores_df stores = Some stores_df ->
   let idle := world_of (run Rerun stores w0) in
   tract_geocoded (session idle) = Some false /\
   tract_df (session idle) = None /\
   stage_of (session idle) = NOT_GEOCODED /\
   disk idle = disk pristine)
  /\
  (Census.stores_df stores = Some stores_df -> stores_df <> [] ->
   let w1 := world_of (run ClickGeocode stores w0) in
   match geocode_stage census_geocoder stores_df with
   | None =>
       run ClickGeocode stores w0 = Raised w1 /\
       tract_df (session w1) = None /\
       disk w1 = disk pristine /\
       stage_of (session w1) = NOT_GEOCODED
   | Some tract_data =>
       tract_data = geocode_stores census_geocoder stores_df /\
       tract_df (session w1) = Some tract_data /\
       census_tract_geocoded (disk w1) = Some (Readable tract_data) /\
       stage_of (session w1) = GEOCODED /\
       let w2 := world_of (run ClickFetchTract stores w1) in
       match tract_acs_stage acs_api (unique_tracts tract_data) with
       | None =>
           run ClickFetchTract stores w1 = Raised w2 /\
           acs_tract_df (session w2) = None /\
           census_tract_acs (disk w2) = None /\
           stage_of (session w2) = GEOCODED
       | Some acs_results =>
           acs_tract_df (session w2) = Some acs_results /\
           census_tract_acs (disk w2) = Some (Readable acs_results) /\
           stage_of (session w2) = TRACT_ACS_FETCHED /\
           let w3 := world_of (run ClickFetchCounty stores w2) in
           match fetch_county_try acs_county_api with
           | None =>
               county_acs_df (session w3) = None /\
               census_county_acs (disk w3) = None /\
               stage_of (session w3) = TRACT_ACS_FETCHED
           | Some county_df =>
               county_acs_df (session w3) = Some county_df /\
               census_county_acs (disk w3) = Some (Readable county_df) /\
               stage_of (session w3) = COUNTY_ACS_FETCHED
           end
       end
   end).
Proof.
  intros w0. assert (w0 = pristine) as Hw0 by apply clear_census_cache_pristine.
  rewrite Hw0. clear Hw0 w0.
  split; [|split; [|split; [|split; [|split; [|split]]]]].
  - intros file Hin. simpl in Hin.
    repeat (destruct Hin as [<-|Hin]; [reflexivity|]). contradiction.
  - intros key Hin. simpl in Hin.
    repeat (destruct Hin as [<-|Hin]; [reflexivity|]). contradiction.
  - apply clear_census_cache_deleted.
  - reflexivity.
  - reflexivity.
  - intros Hsdf. subst run. unfold page_run. rewrite Hsdf.
    cbn. repeat split; reflexivity.
  - intros Hsdf Hne. subst run. unfold page_run. rewrite Hsdf.
    cbn -[geocode_stage tract_acs_stage unique_tracts].
    destruct (geocode_stage census_geocoder stores_df) as [tract_data|] eqn:Eg;
      [|cbn; repeat split; reflexivity].
    assert (tract_data = geocode_stores census_geocoder stores_df) as Htd.
    { unfold geocode_stage, DataFrame in Eg.
      destruct (frame_builds _ _); congruence. }
    assert (exists r rest, tract_data = r :: rest) as (r & rest & Hrows).
    { rewrite Htd, geocode_stores_map.
      destruct stores_df as [|s0 rest]; [congruence|]. simpl. eauto. }
    split; [exact Htd|]. clear Htd Eg. subst tract_data.
    cbn -[tract_acs_stage unique_tracts].
    split; [reflexivity|]. split; [reflexivity|]. split; [reflexivity|].
    destruct (tract_acs_stage acs_api (unique_tracts (r :: rest)))
      as [acs_results|]; [|cbn; repeat split; reflexivity].
    destruct (fetch_county_try acs_county_api) as [county_df|] eqn:Ec;
      destruct acs_results as [|a0 arest]; cbn; rewrite ?Ec; cbn;
      try match goal with
          | |- context [report_raises ?s] => destruct (report_raises s)
          end; cbn; repeat split; reflexivity.
Qed.

End Restart.

(** *** Runs that load, fail or keep the cache *)

(** The table of a cache file that can be read. *)
Definition readable {T : Type} (file : option (cached T)) : option T :=
  match file with
  | Some (Readable t) => Some t
  | Some Unreadable | None => None
  end.

(** The stage the cache files stand for: the files are probed in pipeline
    order, up to the first one that is missing or cannot be read. *)
Definition cached_stage (d : data_dir) : stage :=
  match readable (census_tract_geocoded d) with
  | Some _ =>
      match readable (census_tract_acs d) with
      | Some _ =>
          match readable (census_county_acs d) with
          | Some _ => COUNTY_ACS_FETCHED
          | None => TRACT_ACS_FETCHED
          end
      | None => GEOCODED
      end
  | None => NOT_GEOCODED
  end.

(** What a run keeps: the cache files that exist and the flags that are
    true. *)
Definition keeps (w w' : world) : Prop :=
  (present (census_tract_geocoded (disk w)) = true ->
   present (census_tract_geocoded (disk w')) = true) /\
  (present (census_tract_acs (disk w)) = true ->
   present (census_tract_acs (disk w')) = true) /\
  (present (census_county_acs (disk w)) = true ->
   present (census_county_acs (disk w')) = true) /\
  (is_true (tract_geocoded (session w)) = true ->
   is_true (tract_geocoded (session w')) = true) /\
  (is_true (acs_tract_fetched (session w)) = true ->
   is_true (acs_tract_fetched (session w')) = true) /\
  (is_true (county_acs_fetched (session w)) = true ->
   is_true (county_acs_fetched (session w')) = true).

Lemma keeps_refl (w : world) : keeps w w.
Proof. unfold keeps. tauto. Qed.

Lemma keeps_trans (w1 w2 w3 : world) : keeps w1 w2 -> keeps w2 w3 -> keeps w1 w3.
Proof. unfold keeps. tauto. Qed.

Lemma keeps_path_exists (w w' : world) (file : string) :
  keeps w w' ->
  path_exists file (disk w) = true -> path_exists file (disk w') = true.
Proof.
  unfold keeps, path_exists. intros (Hg & Ha & Hc & _).
  destruct (String.eqb file tract_cache_file); [exact Hg|].
  destruct (String.eqb file tract_acs_cache_file); [exact Ha|].
  destruct (String.eqb file county_acs_cache_file); [exact Hc|].
  discriminate.
Qed.

Lemma world_of_if (b : bool) (w : world) :
  world_of (if b then Done w else Raised w) = w.
Proof. now destruct b. Qed.

Lemma and_then_keeps (w0 : world) (o : outcome) (k : world -> outcome) :
  keeps w0 (world_of o) ->
  (forall w, keeps w (world_of (k w))) ->
  keeps w0 (world_of (o >>= k)).
Proof.
  intros Ho Hk. destruct o as [w|w]; simpl in *; [|exact Ho].
  exact (keeps_trans _ _ _ Ho (Hk w)).
Qed.

Section CacheFacts.

Variable census_geocoder : option float -> option float -> geocoder_reply.
Variable acs_api : string -> string -> string -> acs_reply.
Variable acs_county_api : county_reply.
Variable report_raises : session_state -> bool.

Lemma geocode_section_keeps (ev : event) (stores_df : list Census.store_row)
  (w : world) :
  keeps w (world_of (geocode_section census_geocoder ev stores_df w)).
Proof.
  destruct w as [[g a c] [f1 d1 f2 d2 f3 d3]].
  unfold keeps, geocode_section.
  destruct ev, f1 as [[|]|], g as [[?|]|]; cbn -[geocode_stage];
    try (intuition congruence);
    destruct (geocode_stage census_geocoder stores_df); cbn;
    intuition congruence.
Qed.

Lemma tract_section_keeps (ev : event) (w : world) :
  keeps w (world_of (tract_section acs_api ev w)).
Proof.
  destruct w as [[g a c] [f1 d1 f2 d2 f3 d3]].
  unfold keeps, tract_section.
  destruct d1 as [[|r rows]|], f1 as [[|]|]; cbn; try (intuition congruence);
    destruct ev, f2 as [[|]|], a as [[?|]|];
    cbn -[tract_acs_stage unique_tracts]; try (intuition congruence);
    match goal with
    | |- context [tract_acs_stage ?api ?l] =>
        destruct (tract_acs_stage api l); cbn; intuition congruence
    end.
Qed.

Lemma county_section_keeps (ev : event) (w : world) :
  keeps w (world_of (county_section acs_county_api report_raises ev w)).
Proof.
  destruct w as [[g a c] [f1 d1 f2 d2 f3 d3]].
  unfold keeps, county_section. cbn [session disk acs_tract_fetched].
  destruct (is_true f2) eqn:E2; [|cbn; intuition congruence].
  rewrite world_of_if.
  destruct ev, f3 as [[|]|], c as [[?|]|]; cbn; try (intuition congruence);
    destruct (fetch_county_try acs_county_api); cbn; intuition congruence.
Qed.

Lemma cache_management_keeps (ev : event) (w : world) :
  ev <> ClickClear -> keeps w (cache_management ev w).
Proof.
  intros Hev. destruct ev; try apply keeps_refl. congruence.
Qed.

(** X18.  Only the cache-clear button removes cache files: after a run
    for any other interaction, whether it ends normally or in an
    exception, every cache file that existed still exists and every
    stage flag that was true is still true. *)
Theorem only_clear_removes_cache (ev : event) (stores : list Stores.row)
  (w : world) :
  ev <> ClickClear ->
  let w' :=
    world_of (page_run census_geocoder acs_api acs_county_api report_raises
                ev stores w) in
  (forall file, path_exists file (disk w) = true ->
                path_exists file (disk w') = true) /\
  (is_true (tract_geocoded (session w)) = true ->
   is_true (tract_geocoded (session w')) = true) /\
  (is_true (acs_tract_fetched (session w)) = true ->
   is_true (acs_tract_fetched (session w')) = true) /\
  (is_true (county_acs_fetched (session w)) = true ->
   is_true (county_acs_fetched (session w')) = true).
Proof.
  intros Hev w'.
  assert (keeps w w') as Hk.
  { subst w'. unfold page_run.
    destruct (Census.stores_df stores) as [sdf|]; [|apply keeps_refl].
    repeat apply and_then_keeps.
    - apply geocode_section_keeps.
    - apply tract_section_keeps.
    - apply county_section_keeps.
    - intros w1. now apply cache_management_keeps. }
  split; [intros file; now apply keeps_path_exists|].
  unfold keeps in Hk. tauto.
Qed.

(** X19.  On a first visit (nothing in the session) a plain run contacts
    no service and changes no file: it loads the cache files in pipeline
    order up to the first one that is missing or cannot be read, and the
    session is at the stage these files stand for.  An unreadable file
    counts as a missing one. *)
Theorem first_visit_loads_cache (stores : list Stores.row)
  (stores_df : list Census.store_row) (d : data_dir) :
  Census.stores_df stores = Some stores_df ->
  readable (census_tract_geocoded d) <> Some [] ->
  let w := world_of (page_run census_geocoder acs_api acs_county_api report_raises Rerun stores
                       {| disk := d; session := session pristine |}) in
  disk w = d /\
  stage_of (session w) = cached_stage d /\
  tract_df (session w) = readable (census_tract_geocoded d) /\
  acs_tract_df (session w)
  = match cached_stage d with
    | NOT_GEOCODED => None
    | _ => readable (census_tract_acs d)
    end /\
  county_acs_df (session w)
  = match cached_stage d with
    | NOT_GEOCODED | GEOCODED => None
    | _ => readable (census_county_acs d)
    end.
Proof.
  intros Hsdf Hne w. subst w. unfold page_run. rewrite Hsdf.
  destruct d as [g a c]. unfold cached_stage. cbn in Hne |- *.
  destruct g as [[[|r rows]|]|]; cbn;
    try (exfalso; apply Hne; reflexivity);
    try (repeat split; reflexivity);
    destruct a as [[t2|]|]; cbn; try (repeat split; reflexivity);
    destruct c as [[t3|]|]; cbn;
    match goal with
    | |- context [if ?b then Done _ else Raised _] => destruct b
    end; cbn; repeat split; reflexivity.
Qed.

(** X20.  A tract fetch that ends in the IndexError stores nothing: when
    the stores are geocoded, the tract data are not yet fetched and the
    service answers some tract with between one and nine values, the run
    of the fetch button ends in the exception with the session and the
    cache files as they were, so the rows of the tracts fetched before
    the failing one are lost and the button stays enabled. *)
Theorem failed_tract_fetch_stores_nothing (stores : list Stores.row)
  (stores_df : list Census.store_row) (w : world) (r : tract_row)
  (rows : list tract_row) (t : triple) (values : list (option string)) :
  Census.stores_df stores = Some stores_df ->
  tract_geocoded (session w) = Some true ->
  tract_df (session w) = Some (r :: rows) ->
  acs_tract_fetched (session w) = Some false ->
  In t (unique_tracts (r :: rows)) ->
  fetch_tract_acs acs_api (fst (fst t)) (snd (fst t)) (snd t) = Some values ->
  (1 <= length values < 10)%nat ->
  page_run census_geocoder acs_api acs_county_api report_raises ClickFetchTract stores w = Raised w.
Proof.
  intros Hsdf Hf1 Hd1 Hf2 Hin Hfetch Hlen. unfold page_run.
  rewrite Hsdf. destruct w as [[g a c] [f1 d1 f2 d2 f3 d3]].
  cbn in Hf1, Hd1, Hf2. subst f1 d1 f2.
  assert (fetch_tracts acs_api (unique_tracts (r :: rows)) [] = None) as Hnone.
  { apply fetch_tracts_raises, existsb_exists. exists t.
    split; [exact Hin|]. unfold short_answer. rewrite Hfetch.
    destruct values as [|v values]; [simpl in Hlen; lia|].
    apply Nat.ltb_lt. lia. }
  assert (tract_acs_stage acs_api (unique_tracts (r :: rows)) = None)
    as Hstage by (unfold tract_acs_stage; now rewrite Hnone).
  cbn -[unique_tracts tract_acs_stage]. rewrite Hstage. reflexivity.
Qed.

(** X21.  Between the tract fetch and the county fetch the report cannot
    be built: with the tract data fetched and no county table in the
    session, a plain run, a run of the cache-clear button and a run of
    the county button whose fetch fails all end in the exception of the
    report's joins, with the session and the cache files as they were;
    the cache is not cleared. *)
Theorem county_pending_run_raises (ev : event) (stores : list Stores.row)
  (stores_df : list Census.store_row) (w : world) (r : tract_row)
  (rows : list tract_row) :
  Census.stores_df stores = Some stores_df ->
  tract_geocoded (session w) = Some true ->
  tract_df (session w) = Some (r :: rows) ->
  acs_tract_fetched (session w) = Some true ->
  county_acs_fetched (session w) = Some false ->
  county_acs_df (session w) = None ->
  ev = Rerun \/ ev = ClickClear \/
  (ev = ClickFetchCounty /\ fetch_county_try acs_county_api = None) ->
  page_run census_geocoder acs_api acs_county_api report_raises ev stores w = Raised w.
Proof.
  intros Hsdf Hf1 Hd1 Hf2 Hf3 Hd3 Hev. unfold page_run.
  rewrite Hsdf. destruct w as [[g a c] [f1 d1 f2 d2 f3 d3]].
  cbn in Hf1, Hd1, Hf2, Hf3, Hd3. subst f1 d1 f2 f3 d3.
  destruct Hev as [->|[->|[-> Hfail]]]; cbn; rewrite ?Hfail; cbn;
    rewrite ?andb_false_r; reflexivity.
Qed.

(** X22.  The store table is cast before anything else on the page: when
    the identifier of some store is plainly no integer (a NaN or an
    infinity, or text with a character that is neither a digit nor a
    sign), the cast of the column raises and every run ends there with
    the session and the cache files untouched, whatever the interaction;
    no service is contacted and the cache cannot be cleared. *)
Theorem bad_store_id_stops_every_run (ev : event) (stores : list Stores.row)
  (s : Stores.row) (v : column_value) (w : world) :
  In s stores -> Stores.STORE_ID s = Some v ->
  Census.not_an_integer v = true ->
  Census.stores_df stores = None /\
  page_run census_geocoder acs_api acs_county_api report_raises ev stores w
  = Raised w.
Proof.
  intros Hin Hv Hbad. apply Census.not_an_integer_cast in Hbad.
  assert (Census.stores_df stores = None) as Hnone.
  { destruct (Census.stores_df stores) as [sdf|] eqn:E; [|reflexivity].
    destruct (Census.strict_map_In _ _ _ _ E Hin) as (l & Hl & _).
    rewrite Hv in Hl. simpl in Hl. rewrite Hbad in Hl. discriminate. }
  split; [exact Hnone|]. unfold page_run. now rewrite Hnone.
Qed.

End CacheFacts.

(** A session that had geocoded and fetched tracts, with two cache files
    on disk, and a county service. *)
Definition loaded : world :=
  {| disk := {| census_tract_geocoded := Some (Readable []);
                census_tract_acs := Some Unreadable;
                census_county_acs := None |};
     session := {| tract_geocoded := Some true; tract_df := Some [];
                   acs_tract_fetched := Some true; acs_tract_df := None;
                   county_acs_fetched := None; county_acs_df := None |} |}.

Definition demo_county : county_reply :=
  CountyResponse 200
    (Some {| county_header := ACS_VARS ++ ["NAME"; "state"; "county"]%string;
             county_rows :=
               [ [ Some "52000"; Some "52000"; Some "58000"; Some "300";
                   Some "6000"; Some "280000"; Some "850"; Some "24000";
                   Some "900"; Some "17000"; Some "Madison County, Idaho";
                   Some "16"; Some "065" ]%string ] |}).

Example clear_reports_deleted_files :
  snd (clear_census_cache loaded)
  = [ "data/census_tract_geocoded.parquet";
      "data/census_tract_acs.parquet" ]%string.
Proof. reflexivity. Qed.

(** After clearing the loaded state, the geocode button geocodes again. *)
Lemma cache_clear_restarts_pipeline_witness :
  stage_of (session (fst (clear_census_cache loaded))) = NOT_GEOCODED /\
  tract_df
    (session
       (world_of
          (page_run demo_geocoder demo_acs demo_county (fun _ => false)
             ClickGeocode [StoreJoins.store_42] (fst (clear_census_cache loaded)))))
  = Some [ {| STORE_ID := Some "42"%string; STATEFP := Some "16"%string;
              COUNTYFP := Some "065"%string;
              TRACT := Some "950100"%string |} ].
Proof.
  pose proof (cache_clear_restarts_pipeline demo_geocoder demo_acs demo_county
                (fun _ => false) loaded [StoreJoins.store_42]
                (firstn 1 demo_stores_df)) as H.
  cbv zeta in H. destruct H as (_ & _ & _ & _ & Hstage & _ & Hrun).
  split; [exact Hstage|].
  assert (Census.stores_df [StoreJoins.store_42]
          = Some (firstn 1 demo_stores_df)) as Hsdf
    by (vm_compute; reflexivity).
  assert (firstn 1 demo_stores_df <> []) as Hne by discriminate.
  assert (geocode_stage demo_geocoder (firstn 1 demo_stores_df)
          = Some [ {| STORE_ID := Some "42"%string;
                      STATEFP := Some "16"%string;
                      COUNTYFP := Some "065"%string;
                      TRACT := Some "950100"%string |} ]) as Hstage1
    by (vm_compute; reflexivity).
  specialize (Hrun Hsdf Hne). rewrite Hstage1 in Hrun.
  destruct Hrun as (_ & Htd & _). exact Htd.
Defined.

(** A plain run on the loaded state keeps the geocoding cache file. *)
Lemma only_clear_removes_cache_witness :
  path_exists tract_cache_file
    (disk (world_of (page_run demo_geocoder demo_acs demo_county
                       (fun _ => false) Rerun [StoreJoins.store_42] loaded)))
  = true.
Proof.
  pose proof (only_clear_removes_cache demo_geocoder demo_acs demo_county
                (fun _ => false) Rerun [StoreJoins.store_42] loaded) as H.
  cbv zeta in H. destruct H as [Hfiles _]; [discriminate|].
  apply Hfiles. reflexivity.
Defined.

Definition geocoded_42 : tract_row :=
  {| STORE_ID := Some "42"%string; STATEFP := Some "16"%string;
     COUNTYFP := Some "065"%string; TRACT := Some "950100"%string |}.

(** A data directory whose tract ACS file cannot be read. *)
Definition broken_acs_cache : data_dir :=
  {| census_tract_geocoded := Some (Readable [geocoded_42]);
     census_tract_acs := Some Unreadable;
     census_county_acs :=
       Some (Readable {| county_header := []; county_rows := [] |}) |}.

(** The county file behind the unreadable tract ACS file is not loaded:
    the first visit is at stage GEOCODED. *)
Lemma first_visit_loads_cache_witness :
  stage_of
    (session
       (world_of
          (page_run demo_geocoder demo_acs demo_county (fun _ => false) Rerun
             [StoreJoins.store_42]
             {| disk := broken_acs_cache; session := session pristine |})))
  = GEOCODED.
Proof.
  pose proof (first_visit_loads_cache demo_geocoder demo_acs demo_county
                (fun _ => false) [StoreJoins.store_42]
                [StoreJoins.store_row_42] broken_acs_cache) as H.
  cbv zeta in H. destruct H as (_ & Hstage & _).
  - vm_compute. reflexivity.
  - discriminate.
  - exact Hstage.
Defined.

Definition geocoded_session : session_state :=
  {| tract_geocoded := Some true; tract_df := Some [geocoded_42];
     acs_tract_fetched := Some false; acs_tract_df := None;
     county_acs_fetched := None; county_acs_df := None |}.

(** With the short answers the tract fetch leaves the geocoded state as
    it was. *)
Lemma failed_tract_fetch_stores_nothing_witness :
  page_run demo_geocoder short_acs demo_county (fun _ => false)
    ClickFetchTract [StoreJoins.store_42]
    {| disk := disk pristine; session := geocoded_session |}
  = Raised {| disk := disk pristine; session := geocoded_session |}.
Proof.
  apply (failed_tract_fetch_stores_nothing demo_geocoder short_acs demo_county
           (fun _ => false) [StoreJoins.store_42] [StoreJoins.store_row_42]
           {| disk := disk pristine; session := geocoded_session |}
           geocoded_42 [] ("16", "065", "950100")%string
           [Some "4321"; Some "61000"]%string).
  - vm_compute. reflexivity.
  - reflexivity.
  - reflexivity.
  - reflexivity.
  - left. reflexivity.
  - reflexivity.
  - simpl. lia.
Defined.

Definition county_pending_session : session_state :=
  {| tract_geocoded := Some true; tract_df := Some [geocoded_42];
     acs_tract_fetched := Some true; acs_tract_df := Some [];
     county_acs_fetched := Some false; county_acs_df := None |}.

(** A plain run before the county fetch ends in the exception. *)
Lemma county_pending_run_raises_witness :
  page_run demo_geocoder demo_acs demo_county (fun _ => false) Rerun
    [StoreJoins.store_42]
    {| disk := disk pristine; session := county_pending_session |}
  = Raised {| disk := disk pristine; session := county_pending_session |}.
Proof.
  apply (county_pending_run_raises demo_geocoder demo_acs demo_county
           (fun _ => false) Rerun [StoreJoins.store_42]
           [StoreJoins.store_row_42]
           {| disk := disk pristine; session := county_pending_session |}
           geocoded_42 []).
  - vm_compute. reflexivity.
  - reflexivity.
  - reflexivity.
  - reflexivity.
  - reflexivity.
  - reflexivity.
  - left. reflexivity.
Defined.

Definition store_42_0 : Stores.row :=
  {| Stores.STORE_ID := Some (Utf8 "42.0"); Stores.LATITUDE := None;
     Stores.LONGITUDE := None; Stores.STATE := None; Stores.CITY := None |}.

(** With the identifier "42.0" in the store table the cache cannot be
    cleared. *)
Lemma bad_store_id_stops_every_run_witness :
  page_run demo_geocoder demo_acs demo_county (fun _ => false) ClickClear
    [StoreJoins.store_42; store_42_0] loaded
  = Raised loaded.
Proof.
  apply (bad_store_id_stops_every_run demo_geocoder demo_acs demo_county
           (fun _ => false) ClickClear [StoreJoins.store_42; store_42_0]
           store_42_0 (Utf8 "42.0") loaded).
  - right. left. reflexivity.
  - reflexivity.
  - vm_compute. reflexivity.
Defined.

End Pipeline.

(** ** The global filters of the sidebar *)

Module Sidebar.
Import Polars.

(** [col.min()] and [col.max()] of an Int64 column: nulls are skipped,
    the result is null when no cell is non-null. *)
Definition column_fold (pick : Z -> Z -> Z) (cells : list (option Z))
  : option Z :=
  fold_left
    (fun acc c =>
       match c, acc with
       | Some z, Some a => Some (pick a z)
       | Some z, None => Some z
       | None, _ => acc
       end)
    cells None.

Definition column_min : list (option Z) -> option Z := column_fold Z.min.
Definition column_max : list (option Z) -> option Z := column_fold Z.max.

(** [list(range(lo, hi))]. *)
Definition range (lo hi : Z) : list Z :=
  map (fun i => lo + Z.of_nat i) (seq 0 (Z.to_nat (hi - lo))).

(** An entry of the year select box. *)
Inductive year_option : Type :=
| AllYears
| Year (y : Z).

(** [year_options]; [None] is the TypeError of [int(None)] when the
    column has no year. *)
Definition year_options (daily_data : list Daily.row)
  : option (list year_option) :=
  match column_min (map Daily.CALENDAR_YEAR daily_data),
        column_max (map Daily.CALENDAR_YEAR daily_data) with
  | Some min_year, Some max_year =>
      Some (AllYears :: map Year (range min_year (max_year + 1)))
  | _, _ => None
  end.

(** [year = None if year_selection == "All Years" else year_selection]. *)
Definition year_of (year_selection : year_option) : option Z :=
  match year_selection with
  | AllYears => None
  | Year y => Some y
  end.

Example range_three : range 2022 (2024 + 1) = [2022; 2023; 2024].
Proof. reflexivity. Qed.

Lemma range_In (lo hi y : Z) : In y (range lo hi) <-> lo <= y < hi.
Proof.
  unfold range. rewrite in_map_iff. split.
  - intros (i & <- & Hi). apply in_seq in Hi. lia.
  - intros Hy. exists (Z.to_nat (y - lo)). split; [lia|].
    apply in_seq. lia.
Qed.

Section ColumnFold.
Variable pick : Z -> Z -> Z.
Variable le : Z -> Z -> Prop.
Hypothesis le_refl : forall a, le a a.
Hypothesis le_trans : forall a b c, le a b -> le b c -> le a c.
Hypothesis pick_l : forall a b, le (pick a b) a.
Hypothesis pick_r : forall a b, le (pick a b) b.
Hypothesis pick_choice : forall a b, pick a b = a \/ pick a b = b.

Let step (acc c : option Z) : option Z :=
  match c, acc with
  | Some z, Some a => Some (pick a z)
  | Some z, None => Some z
  | None, _ => acc
  end.

Lemma column_fold_acc (cells : list (option Z)) (acc : option Z) :
  match fold_left step cells acc with
  | Some m =>
      (acc = Some m \/ In (Some m) cells) /\
      (forall a, acc = Some a -> le m a) /\
      (forall z, In (Some z) cells -> le m z)
  | None => acc = None /\ forall z, ~ In (Some z) cells
  end.
Proof using le_refl le_trans pick_l pick_r pick_choice.
  revert acc. induction cells as [|c rest IH]; intros acc; simpl.
  - destruct acc as [a|]; [|tauto].
    split; [now left|]. split; [intros ? [= <-]; apply le_refl|tauto].
  - specialize (IH (step acc c)).
    destruct (fold_left step rest (step acc c)) as [m|].
    + destruct IH as (Hmem & Hacc & Hrest).
      destruct c as [z|], acc as [a|]; simpl in *.
      * split; [|split].
        -- destruct Hmem as [[= Hm]|Hm]; [|tauto].
           destruct (pick_choice a z) as [E|E]; rewrite E in Hm; subst; auto.
        -- intros ? [= <-]. eapply le_trans; [apply Hacc; reflexivity|apply pick_l].
        -- intros z' [[= <-]|Hz]; [|now apply Hrest].
           eapply le_trans; [apply Hacc; reflexivity|apply pick_r].
      * split; [|split].
        -- destruct Hmem as [[= <-]|Hm]; auto.
        -- discriminate.
        -- intros z' [[= <-]|Hz]; [apply Hacc; reflexivity|now apply Hrest].
      * split; [tauto|]. split; [exact Hacc|].
        intros z' [Hz|Hz]; [discriminate|now apply Hrest].
      * split; [tauto|]. split; [discriminate|].
        intros z' [Hz|Hz]; [discriminate|now apply Hrest].
    + destruct IH as [Hnone Hrest].
      destruct c as [z|], acc as [a|]; simpl in *; try discriminate.
      split; [reflexivity|]. intros z [Hz|Hz]; [discriminate|].
      now apply (Hrest z).
Qed.

Lemma column_fold_spec (cells : list (option Z)) :
  match column_fold pick cells with
  | Some m => In (Some m) cells /\ forall z, In (Some z) cells -> le m z
  | None => forall z, ~ In (Some z) cells
  end.
Proof using le_refl le_trans pick_l pick_r pick_choice.
  pose proof (column_fold_acc cells None) as H. unfold column_fold.
  fold step.
  destruct (fold_left step cells None) as [m|].
  - destruct H as ([H|H] & _ & Hle); [discriminate|]. auto.
  - tauto.
Qed.

End ColumnFold.

Lemma column_min_spec (cells : list (option Z)) :
  match column_min cells with
  | Some m => In (Some m) cells /\ forall z, In (Some z) cells -> m <= z
  | None => forall z, ~ In (Some z) cells
  end.
Proof. apply (column_fold_spec Z.min Z.le); intros; lia. Qed.

Lemma column_max_spec (cells : list (option Z)) :
  match column_max cells with
  | Some m => In (Some m) cells /\ forall z, In (Some z) cells -> z <= m
  | None => forall z, ~ In (Some z) cells
  end.
Proof. apply (column_fold_spec Z.max (fun a b => b <= a)); intros; lia. Qed.

(** X8.  The year select box: the script raises exactly when no daily row
    has a year; otherwise the box offers "All Years" first (the default)
    and then the consecutive years from the smallest to the largest year
    of the data, so every year of the data can be selected and every
    offered year lies between two years of the data. *)
Theorem year_options_cover_the_data (daily_data : list Daily.row) :
  (year_options daily_data = None <->
   forall r, In r daily_data -> Daily.CALENDAR_YEAR r = None)
  /\
  (forall options, year_options daily_data = Some options ->
     hd_error options = Some AllYears /\
     (forall r y, In r daily_data -> Daily.CALENDAR_YEAR r = Some y ->
        In (Year y) options) /\
     (forall y, In (Year y) options <->
        exists r1 r2 y1 y2,
          In r1 daily_data /\ In r2 daily_data /\
          Daily.CALENDAR_YEAR r1 = Some y1 /\
          Daily.CALENDAR_YEAR r2 = Some y2 /\ y1 <= y <= y2)).
Proof.
  unfold year_options.
  pose proof (column_min_spec (map Daily.CALENDAR_YEAR daily_data)) as Hmin.
  pose proof (column_max_spec (map Daily.CALENDAR_YEAR daily_data)) as Hmax.
  assert (forall z, In (Some z) (map Daily.CALENDAR_YEAR daily_data) <->
                    exists r, In r daily_data /\ Daily.CALENDAR_YEAR r = Some z)
    as Hcell.
  { intros z. rewrite in_map_iff. split; intros (r & H1 & H2); eauto. }
  destruct (column_min _) as [lo|], (column_max _) as [hi|].
  - destruct Hmin as [Hlo Hle], Hmax as [Hhi Hge]. split.
    + split; [discriminate|]. intros Hnull.
      apply Hcell in Hlo. destruct Hlo as (r & Hr & E).
      rewrite (Hnull r Hr) in E. discriminate.
    + intros options [= <-]. split; [reflexivity|]. split.
      * intros r y Hr Hy. right. apply in_map, range_In.
        assert (In (Some y) (map Daily.CALENDAR_YEAR daily_data)) as Hc
          by (apply Hcell; eauto).
        specialize (Hle y Hc). specialize (Hge y Hc). lia.
      * intros y. split.
        -- intros [H|H]; [discriminate|].
           apply in_map_iff in H. destruct H as (y' & [= ->] & Hy).
           apply range_In in Hy.
           apply Hcell in Hlo, Hhi.
           destruct Hlo as (r1 & Hr1 & E1), Hhi as (r2 & Hr2 & E2).
           exists r1, r2, lo, hi. repeat split; auto; lia.
        -- intros (r1 & r2 & y1 & y2 & Hr1 & Hr2 & E1 & E2 & Hy).
           right. apply in_map, range_In.
           assert (lo <= y1) by (apply Hle, Hcell; eauto).
           assert (y2 <= hi) by (apply Hge, Hcell; eauto).
           lia.
  - exfalso. destruct Hmin as [Hlo _]. exact (Hmax _ Hlo).
  - exfalso. destruct Hmax as [Hhi _]. exact (Hmin _ Hhi).
  - split; [|discriminate]. split; [|reflexivity].
    intros _ r Hr. destruct (Daily.CALENDAR_YEAR r) as [y|] eqn:E; [|reflexivity].
    exfalso. apply (Hmin y), Hcell. eauto.
Qed.

End Sidebar.
